(** * FreeBee (AT&T 3B1 emulator): memory subsystem and WD2797 floppy controller

    A shallow embedding of [src/memory.c] and [src/wd279x.c].

    Conventions.
    - C integers are [Z].  A value stored into an unsigned object of
      width w is reduced by [uint8], [uint16], [uint32] or [size_t]
      (the wrap-around of the conversion).  Signed [int] arithmetic is
      left unreduced: signed overflow is undefined in C.
    - [uint8_t] arrays are [list Z]; [a[i]] is [rd a i], [a[i] = v] is
      [wr a i v].  An index outside the allocation is undefined in C;
      the embedding reads 0 there and leaves the array unchanged on a
      store (stdpp's list insert).
    - Every C function that assigns through [ctx->] or to [state.]
      takes the aggregate and returns the updated one.
    - [printf]/[fprintf]/[LOG] diagnostics are not part of the state and
      are left out. *)

From Stdlib Require Import ZArith Lia Bool.
From stdpp Require Import base list.

Local Open Scope Z_scope.

(** ** Fixed-width conversions *)

Definition uint8 (x : Z) : Z := x mod 2 ^ 8.
Definition uint16 (x : Z) : Z := x mod 2 ^ 16.
Definition uint32 (x : Z) : Z := x mod 2 ^ 32.
Definition size_t (x : Z) : Z := x mod 2 ^ 64.

(** ** Byte arrays *)

(** [a[i]] *)
Definition rd (a : list Z) (i : Z) : Z := default 0 (a !! Z.to_nat i).

(** [a[i] = v] for a [uint8_t] array *)
Definition wr (a : list Z) (i : Z) (v : Z) : list Z := <[Z.to_nat i := uint8 v]> a.

(** [memcpy(&a[off], src, length src)], as [fread] fills a buffer *)
Fixpoint blit (a : list Z) (off : nat) (src : list Z) : list Z :=
  match src with
  | [] => a
  | b :: src' => blit (<[off := b]> a) (S off) src'
  end.

(** C truth value of an integer *)
Definition truthy (x : Z) : bool := negb (x =? 0).

(** * The WD2797 floppy disc controller ([src/wd279x.c]) *)

Module WD2797.

(** WD2797 command constants (the [enum] at the head of the file). *)
Definition CMD_MASK : Z := 0xF0.
Definition CMD_RESTORE : Z := 0x00.
Definition CMD_SEEK : Z := 0x10.
Definition CMD_STEP : Z := 0x20.
Definition CMD_STEP_TU : Z := 0x30.
Definition CMD_STEPIN : Z := 0x40.
Definition CMD_STEPIN_TU : Z := 0x50.
Definition CMD_STEPOUT : Z := 0x60.
Definition CMD_STEPOUT_TU : Z := 0x70.
Definition CMD_READ_SECTOR : Z := 0x80.
Definition CMD_READ_SECTOR_MULTI : Z := 0x90.
Definition CMD_WRITE_SECTOR : Z := 0xA0.
Definition CMD_WRITE_SECTOR_MULTI : Z := 0xB0.
Definition CMD_READ_ADDRESS : Z := 0xC0.
Definition CMD_FORCE_INTERRUPT : Z := 0xD0.
Definition CMD_READ_TRACK : Z := 0xE0.
Definition CMD_FORMAT_TRACK : Z := 0xF0.

(** The register indices [WD2797_REG_*] are declared in [wd279x.h],
    which is not among the sources; spec 4.5 gives them: STATUS (0),
    TRACK (1), SECTOR (2), DATA (3), the command register being the
    write side of STATUS. *)

(** Modelled from the spec: [WD2797_REG_STATUS] of [wd279x.h]. *)
Definition WD2797_REG_STATUS : Z := 0.
(** Modelled from the spec: [WD2797_REG_COMMAND] of [wd279x.h]. *)
Definition WD2797_REG_COMMAND : Z := 0.
(** Modelled from the spec: [WD2797_REG_TRACK] of [wd279x.h]. *)
Definition WD2797_REG_TRACK : Z := 1.
(** Modelled from the spec: [WD2797_REG_SECTOR] of [wd279x.h]. *)
Definition WD2797_REG_SECTOR : Z := 2.
(** Modelled from the spec: [WD2797_REG_DATA] of [wd279x.h]. *)
Definition WD2797_REG_DATA : Z := 3.

(** Modelled from the spec: the error codes [WD2797_ERR] of [wd279x.h],
    which is not among the sources; spec section 7 names the geometry
    error and the out-of-memory error of a load. *)
Inductive WD2797_ERR : Set :=
  | WD2797_ERR_OK
  | WD2797_ERR_BAD_GEOM
  | WD2797_ERR_NO_MEMORY.

(** Modelled from the spec: the declaration of [WD2797_CTX] is in
    [wd279x.h], which is not among the sources.  The fields are the ones
    [wd279x.c] assigns and reads, and the flag [irql], which [memory.c]
    reads and [wd279x.c] never assigns, at the types of spec section 3:
    [status] and [data_reg] are 8-bit, [data_pos] and [data_len] are
    [size_t], the positions and the geometry are [int], [write_pos] is an
    [int] with -1 for "none", [writeable] is the [int] given to
    [wd2797_load].  [data] is the track buffer ([None] for [NULL]) and
    [disc_image] the contents of the image file ([None] for [NULL]). *)
Record WD2797_CTX : Type := mkCTX {
  track : Z;
  head : Z;
  sector : Z;
  track_reg : Z;
  geom_secsz : Z;
  geom_spt : Z;
  geom_heads : Z;
  geom_tracks : Z;
  irq : bool;
  status : Z;
  cmd_has_drq : bool;
  data_reg : Z;
  last_step_dir : Z;
  data : option (list Z);
  data_pos : Z;
  data_len : Z;
  disc_image : option (list Z);
  writeable : Z;
  write_pos : Z;
  formatting : bool;
  irql : bool
}.

(** Field assignments [ctx->f = v]. *)
Definition set_track (v : Z) (c : WD2797_CTX) : WD2797_CTX :=
  mkCTX v (head c) (sector c) (track_reg c) (geom_secsz c) (geom_spt c)
    (geom_heads c) (geom_tracks c) (irq c) (status c) (cmd_has_drq c)
    (data_reg c) (last_step_dir c) (data c) (data_pos c) (data_len c)
    (disc_image c) (writeable c) (write_pos c) (formatting c) (irql c).
Definition set_head (v : Z) (c : WD2797_CTX) : WD2797_CTX :=
  mkCTX (track c) v (sector c) (track_reg c) (geom_secsz c) (geom_spt c)
    (geom_heads c) (geom_tracks c) (irq c) (status c) (cmd_has_drq c)
    (data_reg c) (last_step_dir c) (data c) (data_pos c) (data_len c)
    (disc_image c) (writeable c) (write_pos c) (formatting c) (irql c).
Definition set_sector (v : Z) (c : WD2797_CTX) : WD2797_CTX :=
  mkCTX (track c) (head c) v (track_reg c) (geom_secsz c) (geom_spt c)
    (geom_heads c) (geom_tracks c) (irq c) (status c) (cmd_has_drq c)
    (data_reg c) (last_step_dir c) (data c) (data_pos c) (data_len c)
    (disc_image c) (writeable c) (write_pos c) (formatting c) (irql c).
Definition set_track_reg (v : Z) (c : WD2797_CTX) : WD2797_CTX :=
  mkCTX (track c) (head c) (sector c) v (geom_secsz c) (geom_spt c)
    (geom_heads c) (geom_tracks c) (irq c) (status c) (cmd_has_drq c)
    (data_reg c) (last_step_dir c) (data c) (data_pos c) (data_len c)
    (disc_image c) (writeable c) (write_pos c) (formatting c) (irql c).
Definition set_geom (secsz spt heads tracks : Z) (c : WD2797_CTX) : WD2797_CTX :=
  mkCTX (track c) (head c) (sector c) (track_reg c) secsz spt
    heads tracks (irq c) (status c) (cmd_has_drq c)
    (data_reg c) (last_step_dir c) (data c) (data_pos c) (data_len c)
    (disc_image c) (writeable c) (write_pos c) (formatting c) (irql c).
Definition set_irq (v : bool) (c : WD2797_CTX) : WD2797_CTX :=
  mkCTX (track c) (head c) (sector c) (track_reg c) (geom_secsz c) (geom_spt c)
    (geom_heads c) (geom_tracks c) v (status c) (cmd_has_drq c)
    (data_reg c) (last_step_dir c) (data c) (data_pos c) (data_len c)
    (disc_image c) (writeable c) (write_pos c) (formatting c) (irql c).
Definition set_status (v : Z) (c : WD2797_CTX) : WD2797_CTX :=
  mkCTX (track c) (head c) (sector c) (track_reg c) (geom_secsz c) (geom_spt c)
    (geom_heads c) (geom_tracks c) (irq c) (uint8 v) (cmd_has_drq c)
    (data_reg c) (last_step_dir c) (data c) (data_pos c) (data_len c)
    (disc_image c) (writeable c) (write_pos c) (formatting c) (irql c).
Definition set_cmd_has_drq (v : bool) (c : WD2797_CTX) : WD2797_CTX :=
  mkCTX (track c) (head c) (sector c) (track_reg c) (geom_secsz c) (geom_spt c)
    (geom_heads c) (geom_tracks c) (irq c) (status c) v
    (data_reg c) (last_step_dir c) (data c) (data_pos c) (data_len c)
    (disc_image c) (writeable c) (write_pos c) (formatting c) (irql c).
Definition set_data_reg (v : Z) (c : WD2797_CTX) : WD2797_CTX :=
  mkCTX (track c) (head c) (sector c) (track_reg c) (geom_secsz c) (geom_spt c)
    (geom_heads c) (geom_tracks c) (irq c) (status c) (cmd_has_drq c)
    (uint8 v) (last_step_dir c) (data c) (data_pos c) (data_len c)
    (disc_image c) (writeable c) (write_pos c) (formatting c) (irql c).
Definition set_last_step_dir (v : Z) (c : WD2797_CTX) : WD2797_CTX :=
  mkCTX (track c) (head c) (sector c) (track_reg c) (geom_secsz c) (geom_spt c)
    (geom_heads c) (geom_tracks c) (irq c) (status c) (cmd_has_drq c)
    (data_reg c) v (data c) (data_pos c) (data_len c)
    (disc_image c) (writeable c) (write_pos c) (formatting c) (irql c).
Definition set_data (v : option (list Z)) (c : WD2797_CTX) : WD2797_CTX :=
  mkCTX (track c) (head c) (sector c) (track_reg c) (geom_secsz c) (geom_spt c)
    (geom_heads c) (geom_tracks c) (irq c) (status c) (cmd_has_drq c)
    (data_reg c) (last_step_dir c) v (data_pos c) (data_len c)
    (disc_image c) (writeable c) (write_pos c) (formatting c) (irql c).
Definition set_data_pos (v : Z) (c : WD2797_CTX) : WD2797_CTX :=
  mkCTX (track c) (head c) (sector c) (track_reg c) (geom_secsz c) (geom_spt c)
    (geom_heads c) (geom_tracks c) (irq c) (status c) (cmd_has_drq c)
    (data_reg c) (last_step_dir c) (data c) (size_t v) (data_len c)
    (disc_image c) (writeable c) (write_pos c) (formatting c) (irql c).
Definition set_data_len (v : Z) (c : WD2797_CTX) : WD2797_CTX :=
  mkCTX (track c) (head c) (sector c) (track_reg c) (geom_secsz c) (geom_spt c)
    (geom_heads c) (geom_tracks c) (irq c) (status c) (cmd_has_drq c)
    (data_reg c) (last_step_dir c) (data c) (data_pos c) (size_t v)
    (disc_image c) (writeable c) (write_pos c) (formatting c) (irql c).
Definition set_disc_image (v : option (list Z)) (c : WD2797_CTX) : WD2797_CTX :=
  mkCTX (track c) (head c) (sector c) (track_reg c) (geom_secsz c) (geom_spt c)
    (geom_heads c) (geom_tracks c) (irq c) (status c) (cmd_has_drq c)
    (data_reg c) (last_step_dir c) (data c) (data_pos c) (data_len c)
    v (writeable c) (write_pos c) (formatting c) (irql c).
Definition set_writeable (v : Z) (c : WD2797_CTX) : WD2797_CTX :=
  mkCTX (track c) (head c) (sector c) (track_reg c) (geom_secsz c) (geom_spt c)
    (geom_heads c) (geom_tracks c) (irq c) (status c) (cmd_has_drq c)
    (data_reg c) (last_step_dir c) (data c) (data_pos c) (data_len c)
    (disc_image c) v (write_pos c) (formatting c) (irql c).
Definition set_write_pos (v : Z) (c : WD2797_CTX) : WD2797_CTX :=
  mkCTX (track c) (head c) (sector c) (track_reg c) (geom_secsz c) (geom_spt c)
    (geom_heads c) (geom_tracks c) (irq c) (status c) (cmd_has_drq c)
    (data_reg c) (last_step_dir c) (data c) (data_pos c) (data_len c)
    (disc_image c) (writeable c) v (formatting c) (irql c).
Definition set_formatting (v : bool) (c : WD2797_CTX) : WD2797_CTX :=
  mkCTX (track c) (head c) (sector c) (track_reg c) (geom_secsz c) (geom_spt c)
    (geom_heads c) (geom_tracks c) (irq c) (status c) (cmd_has_drq c)
    (data_reg c) (last_step_dir c) (data c) (data_pos c) (data_len c)
    (disc_image c) (writeable c) (write_pos c) v (irql c).

(** The allocation size of [ctx->data]: 0 for [NULL]. *)
Definition capacity (c : WD2797_CTX) : Z :=
  match data c with
  | None => 0
  | Some buf => Z.of_nat (length buf)
  end.

(** [ctx->data[i] = v] *)
Definition data_store (i v : Z) (c : WD2797_CTX) : WD2797_CTX :=
  set_data (option_map (fun buf => wr buf i v) (data c)) c.

(** [ctx->data[i]] *)
Definition data_load (i : Z) (c : WD2797_CTX) : Z :=
  match data c with
  | None => 0
  | Some buf => rd buf i
  end.

(** [ctx->data[ctx->data_len++] = v] *)
Definition data_append (v : Z) (c : WD2797_CTX) : WD2797_CTX :=
  let c := data_store (data_len c) v c in
  set_data_len (data_len c + 1) c.

(** *** The image file

    [disc_image] is a [FILE*]; every [fread] and [fwrite] of the file is
    preceded by an [fseek] to an absolute offset, so the contents of the
    file are all the state there is. *)

(** [fseek(fp, pos, SEEK_SET); fread(buf, 1, n, fp)]: the bytes read
    (fewer than [n] at the end of the file). *)
Definition fread (img : list Z) (pos n : Z) : list Z :=
  take (Z.to_nat n) (drop (Z.to_nat pos) img).

(** [fseek(fp, pos, SEEK_SET); fwrite(src, 1, length src, fp)]: the new
    contents (a gap after the old end of the file reads as zeros). *)
Definition fwrite (img : list Z) (pos : Z) (src : list Z) : list Z :=
  let p := Z.to_nat pos in
  take p (img ++ replicate (p - length img)%nat 0) ++ src
    ++ drop (p + length src)%nat img.

(** *** wd2797_init, wd2797_reset, wd2797_done *)

Definition wd2797_init (ctx : WD2797_CTX) : WD2797_CTX :=
  (* track, head and sector unknown *)
  let ctx := set_sector 0 ctx in
  let ctx := set_head 0 ctx in
  let ctx := set_track 0 ctx in
  let ctx := set_track_reg 0 ctx in
  (* no IRQ pending *)
  let ctx := set_irq false ctx in
  (* no data available *)
  let ctx := set_data_len 0 ctx in
  let ctx := set_data_pos 0 ctx in
  let ctx := set_data None ctx in
  (* Status register clear, not busy; type1 command *)
  let ctx := set_status 0 ctx in
  let ctx := set_cmd_has_drq false ctx in
  (* No format command in progress *)
  let ctx := set_formatting false ctx in
  (* Clear data register *)
  let ctx := set_data_reg 0 ctx in
  (* Last step direction = "towards zero" *)
  let ctx := set_last_step_dir (-1) ctx in
  (* No disc image loaded *)
  let ctx := set_disc_image None ctx in
  set_geom 0 0 0 0 ctx.

Definition wd2797_reset (ctx : WD2797_CTX) : WD2797_CTX :=
  let ctx := set_sector 0 ctx in
  let ctx := set_head 0 ctx in
  let ctx := set_track 0 ctx in
  let ctx := set_track_reg 0 ctx in
  let ctx := set_irq false ctx in
  let ctx := set_data_len 0 ctx in
  let ctx := set_data_pos 0 ctx in
  let ctx := set_status 0 ctx in
  let ctx := set_data_reg 0 ctx in
  set_last_step_dir (-1) ctx.

Definition wd2797_done (ctx : WD2797_CTX) : WD2797_CTX :=
  let ctx := wd2797_reset ctx in
  match data ctx with
  | Some _ => set_data None ctx
  | None => ctx
  end.

Definition wd2797_get_irq (ctx : WD2797_CTX) : bool := irq ctx.

Definition wd2797_get_drq (ctx : WD2797_CTX) : bool := data_pos ctx <? data_len ctx.

(** *** wd2797_load, wd2797_unload

    [fp] is the contents of the file behind the [FILE*].  [malloc_ok]
    tells whether [malloc] returns a buffer; its contents are
    indeterminate in C and zero here.  The divisions are made in
    [size_t], the type of [filesize]: a negative [int] divisor wraps
    around, the quotient is 0 and the load is refused.  For a zero
    divisor the C division is undefined, and [Z]'s gives 0, so that the
    load is refused.  The quotient is stored in the [int tracks] as it
    is: an image has fewer than 2^31 cylinders. *)

(** An [int] operand of a [size_t] division, after the usual arithmetic
    conversions. *)
Definition int_to_size_t (x : Z) : Z := if x <? 0 then x + 2 ^ 64 else x.

Definition wd2797_load (ctx : WD2797_CTX) (fp : list Z) (secsz spt heads writeable : Z)
    (malloc_ok : bool) : WD2797_ERR * WD2797_CTX :=
  (* Start by finding out how big the image file is *)
  let filesize := Z.of_nat (length fp) in
  (* Now figure out how many tracks it contains *)
  let tracks :=
    filesize / int_to_size_t secsz / int_to_size_t spt / int_to_size_t heads in
  if tracks <? 1 then (WD2797_ERR_BAD_GEOM, ctx)
  else
    (* Allocate enough memory to store one disc track *)
    let ctx := set_data (if malloc_ok
                         then Some (replicate (Z.to_nat (secsz * spt)) 0)
                         else None) ctx in
    match data ctx with
    | None => (WD2797_ERR_NO_MEMORY, ctx)
    | Some _ =>
      (* Load the image and the geometry data *)
      let ctx := set_disc_image (Some fp) ctx in
      let ctx := set_geom secsz spt heads tracks ctx in
      let ctx := set_writeable writeable ctx in
      (WD2797_ERR_OK, ctx)
    end.

Definition wd2797_unload (ctx : WD2797_CTX) : WD2797_CTX :=
  (* Free memory buffer *)
  let ctx := match data ctx with
             | Some _ => set_data None ctx
             | None => ctx
             end in
  (* Clear file pointer *)
  let ctx := set_disc_image None ctx in
  (* Clear the disc geometry *)
  set_geom 0 0 0 0 ctx.

(** *** wd2797_read_reg

    The call of [m68k_end_timeslice()] at the head of both register
    functions is a request to the CPU core; it touches no field of the
    context and is recorded by the caller's side ([Memory.IoRead],
    [Memory.IoWrite]). *)
Definition wd2797_read_reg (ctx : WD2797_CTX) (addr : Z) : Z * WD2797_CTX :=
  let a := Z.land addr 0x03 in
  if a =? WD2797_REG_STATUS then
    (* Read from status register clears IRQ *)
    let ctx := set_irq false ctx in
    (* Get current status flags (set by last command) *)
    let temp :=
      if cmd_has_drq ctx then
        let temp := uint8 (Z.land (status ctx) (Z.lnot 0x03)) in
        uint8 (Z.lor temp (if data_pos ctx <? data_len ctx then 0x02 else 0x00))
      else
        uint8 (Z.land (status ctx) (Z.lnot 0x01)) in
    (* FDC is busy if there is still data in the buffer *)
    let temp := uint8 (Z.lor temp (if data_pos ctx <? data_len ctx then 0x81 else 0x00)) in
    (temp, ctx)
  else if a =? WD2797_REG_TRACK then
    (uint8 (track_reg ctx), ctx)
  else if a =? WD2797_REG_SECTOR then
    (uint8 (sector ctx), ctx)
  else if a =? WD2797_REG_DATA then
    (* If there's data in the buffer, return it. *)
    if data_pos ctx <? data_len ctx then
      (* set IRQ if this is the last data byte *)
      let ctx := if data_pos ctx =? size_t (data_len ctx - 1)
                 then set_irq true ctx else ctx in
      (* return data byte and increment pointer *)
      let v := data_load (data_pos ctx) ctx in
      (v, set_data_pos (data_pos ctx + 1) ctx)
    else
      (* command finished *)
      (data_reg ctx, ctx)
  else
    (0xff, ctx).

(** *** wd2797_write_reg *)

(** Conversion of a [size_t] to [int] (two's complement truncation). *)
Definition to_int (x : Z) : Z := (x + 2 ^ 31) mod 2 ^ 32 - 2 ^ 31.

(** The first [switch (cmd)] of the command register: the Type 1
    commands.  Returns [is_type1] and the context. *)
Definition type1_switch (cmd : Z) (ctx : WD2797_CTX) : bool * WD2797_CTX :=
  if cmd =? CMD_RESTORE then
    (* Restore. Set track to 0 and throw an IRQ. *)
    let ctx := set_track_reg 0 ctx in
    let ctx := set_track 0 ctx in
    (true, ctx)
  else if cmd =? CMD_SEEK then
    (* Seek. Seek to the track specced in the Data Register. *)
    let ctx :=
      if data_reg ctx <? geom_tracks ctx then
        let ctx := set_track_reg (data_reg ctx) ctx in
        set_track (data_reg ctx) ctx
      else
        (* Seek error. :( *)
        set_status 0x10 ctx in
    (* no [break]: control runs on into [case CMD_STEP], which sets
       [is_type1] again and breaks *)
    (true, ctx)
  else if cmd =? CMD_STEP then
    (true, ctx)
  else if (cmd =? CMD_STEPIN) || (cmd =? CMD_STEPOUT) || (cmd =? CMD_STEP_TU)
          || (cmd =? CMD_STEPIN_TU) || (cmd =? CMD_STEPOUT_TU) then
    (* if this is a Step In or Step Out cmd, set the step-direction *)
    let ctx :=
      if Z.land cmd (Z.lnot 0x10) =? CMD_STEPIN then set_last_step_dir 1 ctx
      else if Z.land cmd (Z.lnot 0x10) =? CMD_STEPOUT then set_last_step_dir (-1) ctx
      else ctx in
    (* Seek one step in the last direction used. *)
    let ctx := set_track (track ctx + last_step_dir ctx) ctx in
    let ctx := if track ctx <? 0 then set_track 0 ctx else ctx in
    let ctx :=
      if geom_tracks ctx <=? track ctx then
        (* Seek past end of disc... that'll be a Seek Error then. *)
        let ctx := set_status 0x10 ctx in
        set_track (geom_tracks ctx - 1) ctx
      else ctx in
    let ctx := if truthy (Z.land cmd 0x10) then set_track_reg (track ctx) ctx else ctx in
    (true, ctx)
  else
    (false, ctx).

(** The [if (is_type1)] block: the Type 1 status byte. *)
Definition type1_status (ctx : WD2797_CTX) : WD2797_CTX :=
  (* Terminate any sector reads or writes *)
  let ctx := set_data_pos 0 ctx in
  let ctx := set_data_len 0 ctx in
  (* No DRQ bit for these commands. *)
  let ctx := set_cmd_has_drq false ctx in
  (* Type1 status byte... *)
  let ctx := set_status 0 ctx in
  (* S5 = Head Loaded. *)
  let ctx := set_status (Z.lor (status ctx) 0x20) ctx in
  (* S2 = Track 0 *)
  let ctx := set_status (Z.lor (status ctx) (if track ctx =? 0 then 0x04 else 0x00)) ctx in
  (* Set IRQ *)
  set_irq true ctx.

(** [ctx->head = (val & 0x02) ? 1 : 0] *)
Definition select_head (val : Z) (ctx : WD2797_CTX) : WD2797_CTX :=
  set_head (if truthy (Z.land val 0x02) then 1 else 0) ctx.

(** [ctx->status |= (ctx->data_pos < ctx->data_len) ? 0x02 : 0x00] *)
Definition status_drq (ctx : WD2797_CTX) : WD2797_CTX :=
  set_status (Z.lor (status ctx) (if data_pos ctx <? data_len ctx then 0x02 else 0x00)) ctx.

(** The body of the sector-read loop, for loop index [i]. *)
Definition read_sector_body (i : Z) (ctx : WD2797_CTX) : WD2797_CTX :=
  (* LBA = (C * nHeads * nSectors) + (H * nSectors) + S - 1 *)
  let lba := size_t ((((track ctx * geom_heads ctx * geom_spt ctx)
                         + (head ctx * geom_spt ctx) + sector ctx) + i) - 1) in
  (* convert LBA to byte address *)
  let lba := size_t (lba * geom_secsz ctx) in
  (* Read the sector from the file *)
  let got := match disc_image ctx with
             | Some img => fread img lba (geom_secsz ctx)
             | None => []
             end in
  let ctx := set_data (option_map (fun buf => blit buf (Z.to_nat (data_len ctx)) got)
                         (data ctx)) ctx in
  set_data_len (data_len ctx + Z.of_nat (length got)) ctx.

(** [for (int i=0; i<temp; i++) body]: [n] iterations from index [i]. *)
Fixpoint read_sector_loop (n : nat) (i : Z) (ctx : WD2797_CTX) : WD2797_CTX :=
  match n with
  | O => ctx
  | S n' => read_sector_loop n' (i + 1) (read_sector_body i ctx)
  end.

(** The second [switch (cmd)]: the Type 2, 3 and 4 commands. *)
Definition command_switch (cmd val : Z) (ctx : WD2797_CTX) : WD2797_CTX :=
  if cmd =? CMD_READ_ADDRESS then
    let ctx := select_head val ctx in
    (* reset data pointers *)
    let ctx := set_data_len 0 ctx in
    let ctx := set_data_pos 0 ctx in
    (* load data buffer *)
    let ctx := data_append (track ctx) ctx in
    let ctx := data_append (head ctx) ctx in
    let ctx := data_append (sector ctx) ctx in
    let ctx :=
      if geom_secsz ctx =? 128 then data_append 0 ctx
      else if geom_secsz ctx =? 256 then data_append 1 ctx
      else if geom_secsz ctx =? 512 then data_append 2 ctx
      else if geom_secsz ctx =? 1024 then data_append 3 ctx
      else data_append 0xFF ctx in
    let ctx := data_append 0 ctx in
    let ctx := data_append 0 ctx in
    let ctx := set_status 0 ctx in
    status_drq ctx
  else if (cmd =? CMD_READ_SECTOR) || (cmd =? CMD_READ_SECTOR_MULTI) then
    let ctx := select_head val ctx in
    (* Check to see if the cyl, hd and sec are valid *)
    if (geom_tracks ctx - 1 <? track ctx) || (geom_heads ctx - 1 <? head ctx)
       || (geom_spt ctx <? sector ctx) || (sector ctx =? 0) then
      (* CHS parameters exceed limits *)
      let ctx := set_status 0x10 ctx in
      set_irq true ctx
    else
      (* reset data pointers *)
      let ctx := set_data_len 0 ctx in
      let ctx := set_data_pos 0 ctx in
      (* Calculate number of sectors to read from disc *)
      let temp := if cmd =? CMD_READ_SECTOR_MULTI then geom_spt ctx else 1 in
      let ctx := read_sector_loop (Z.to_nat temp) 0 ctx in
      let ctx := set_status 0 ctx in
      status_drq ctx
  else if cmd =? CMD_READ_TRACK then
    let ctx := set_irq true ctx in
    set_status 0x10 ctx
  else if (cmd =? CMD_WRITE_SECTOR) || (cmd =? CMD_WRITE_SECTOR_MULTI) then
    let ctx := select_head val ctx in
    (* reset data pointers *)
    let ctx := set_data_pos 0 ctx in
    (* Calculate number of sectors to write to disc *)
    let temp := if cmd =? CMD_WRITE_SECTOR_MULTI then geom_spt ctx else 1 in
    let ctx := set_data_len (temp * geom_secsz ctx) ctx in
    let lba := size_t ((((track ctx * geom_heads ctx * geom_spt ctx)
                           + (head ctx * geom_spt ctx) + sector ctx)) - 1) in
    let ctx := set_write_pos (to_int (size_t (lba * geom_secsz ctx))) ctx in
    let ctx := set_status 0 ctx in
    status_drq ctx
  else if cmd =? CMD_FORMAT_TRACK then
    let ctx := select_head val ctx in
    let ctx := set_status 0 ctx in
    let ctx := set_data_pos 0 ctx in
    let ctx := set_data_len 7170 ctx in
    let ctx := status_drq ctx in
    set_formatting true ctx
  else if cmd =? CMD_FORCE_INTERRUPT then
    (* Terminates current operation and sends an interrupt *)
    let ctx := set_status 0x20 ctx in
    let ctx := if truthy (writeable ctx) then ctx
               else set_status (Z.lor (status ctx) 0x40) ctx in
    let ctx := if track ctx =? 0 then set_status 0x04 ctx else ctx in
    let ctx := set_data_len 0 ctx in
    let ctx := set_data_pos 0 ctx in
    if truthy (Z.land cmd 8) then set_irq true ctx else ctx
  else
    ctx.

(** [case WD2797_REG_COMMAND] *)
Definition write_command (val : Z) (ctx : WD2797_CTX) : WD2797_CTX :=
  let cmd := uint8 (Z.land val CMD_MASK) in
  (* write to command register clears interrupt request *)
  let ctx := set_irq false ctx in
  (* Is the drive ready? *)
  match disc_image ctx with
  | None =>
    (* No disc image, thus the drive is busy. *)
    let ctx := set_status 0x80 ctx in
    set_irq true ctx
  | Some _ =>
    (* Handle Type 1 commands *)
    let '(is_type1, ctx) := type1_switch cmd ctx in
    if is_type1 then type1_status ctx
    else
      (* All these commands return the DRQ bit... *)
      let ctx := set_cmd_has_drq true ctx in
      (* If drive isn't ready, then set status B7 and exit *)
      match disc_image ctx with
      | None => set_status 0x80 ctx
      | Some _ =>
        (* If this is a Write command, check write protect status too *)
        if negb (truthy (writeable ctx))
           && ((cmd =? CMD_WRITE_SECTOR) || (cmd =? CMD_WRITE_SECTOR_MULTI)
               || (cmd =? CMD_FORMAT_TRACK)) then
          (* Set Write Protect bit and bail. *)
          let ctx := set_status 0x40 ctx in
          set_irq true ctx
        else
          (* Disc is ready to go. Parse the command word. *)
          command_switch cmd val ctx
      end
  end.

(** [case WD2797_REG_DATA] *)
Definition write_data (val : Z) (ctx : WD2797_CTX) : WD2797_CTX :=
  (* Save the value written into the data register *)
  let ctx := set_data_reg val ctx in
  (* If we're processing a write command, and there's space in the
     buffer, allow the write. *)
  if (data_pos ctx <? data_len ctx) && ((0 <=? write_pos ctx) || formatting ctx) then
    let ctx := if formatting ctx then ctx else data_store (data_pos ctx) val ctx in
    (* store data byte and increment pointer *)
    let ctx := set_data_pos (data_pos ctx + 1) ctx in
    (* set IRQ and write data if this is the last data byte *)
    if data_pos ctx =? data_len ctx then
      let ctx :=
        if formatting ctx then ctx
        else
          match disc_image ctx, data ctx with
          | Some img, Some buf =>
            set_disc_image
              (Some (fwrite img (write_pos ctx) (take (Z.to_nat (data_len ctx)) buf))) ctx
          | _, _ => ctx
          end in
      (* Set IRQ and reset write pointer *)
      let ctx := set_irq true ctx in
      let ctx := set_write_pos (-1) ctx in
      set_formatting false ctx
    else ctx
  else ctx.

Definition wd2797_write_reg (ctx : WD2797_CTX) (addr val : Z) : WD2797_CTX :=
  if addr =? WD2797_REG_COMMAND then write_command val ctx
  else if addr =? WD2797_REG_TRACK then
    let ctx := set_track_reg val ctx in
    set_track val ctx
  else if addr =? WD2797_REG_SECTOR then set_sector val ctx
  else if addr =? WD2797_REG_DATA then write_data val ctx
  else ctx.

Definition wd2797_dma_miss (ctx : WD2797_CTX) : WD2797_CTX :=
  let ctx := set_data_pos (data_len ctx) ctx in
  let ctx := set_write_pos 0 ctx in
  let ctx := set_status 4 ctx in (* lost data *)
  set_irq true ctx.

End WD2797.

(** * Memory mapping and the bus ([src/memory.c]) *)

Module Memory.

(** Modelled from the spec: [MEM_STATUS] is declared in [memory.h], which
    is not among the sources; these are the five verdicts [memory.c]
    returns and switches on. *)
Inductive MEM_STATUS : Set :=
  | MEM_ALLOWED
  | MEM_PAGEFAULT
  | MEM_PAGE_NO_WE
  | MEM_KERNEL
  | MEM_UIE.

(** Modelled from the spec: the global [state] is declared in [state.h],
    which is not among the sources.  The fields are the ones [memory.c]
    uses, at the types of spec section 3: the backing stores are byte
    arrays, [genstat], [bsr0] and [bsr1] are 16-bit, the DMA count and
    address are unsigned 32-bit objects holding 14 and 22 bits.  Three
    fields stand for the CPU core behind the Musashi hooks: [cpu_sr] is
    what [m68k_get_reg(NULL, M68K_REG_SR)] returns, [bus_errors] counts
    the calls of [m68k_pulse_bus_error()], [timeslice_ended] records a
    call of [m68k_end_timeslice()]. *)
Record state_t : Type := mkState {
  rom : list Z;
  base_ram : list Z;
  base_ram_size : Z;
  exp_ram : list Z;
  exp_ram_size : Z;
  map : list Z;
  vram : list Z;
  genstat : Z;
  bsr0 : Z;
  bsr1 : Z;
  pie : bool;
  romlmap : bool;
  idmarw : bool;
  dmaen : bool;
  dma_reading : bool;
  leds : Z;
  dma_count : Z;
  dma_address : Z;
  fdc_ctx : WD2797.WD2797_CTX;
  cpu_sr : Z;
  bus_errors : nat;
  timeslice_ended : bool
}.

(** Assignments [state.f = v]. *)
Definition set_base_ram (v : list Z) (s : state_t) : state_t :=
  mkState (rom s) v (base_ram_size s) (exp_ram s) (exp_ram_size s) (map s)
    (vram s) (genstat s) (bsr0 s) (bsr1 s) (pie s) (romlmap s) (idmarw s)
    (dmaen s) (dma_reading s) (leds s) (dma_count s) (dma_address s)
    (fdc_ctx s) (cpu_sr s) (bus_errors s) (timeslice_ended s).
Definition set_exp_ram (v : list Z) (s : state_t) : state_t :=
  mkState (rom s) (base_ram s) (base_ram_size s) v (exp_ram_size s) (map s)
    (vram s) (genstat s) (bsr0 s) (bsr1 s) (pie s) (romlmap s) (idmarw s)
    (dmaen s) (dma_reading s) (leds s) (dma_count s) (dma_address s)
    (fdc_ctx s) (cpu_sr s) (bus_errors s) (timeslice_ended s).
Definition set_map (v : list Z) (s : state_t) : state_t :=
  mkState (rom s) (base_ram s) (base_ram_size s) (exp_ram s) (exp_ram_size s)
    v (vram s) (genstat s) (bsr0 s) (bsr1 s) (pie s) (romlmap s) (idmarw s)
    (dmaen s) (dma_reading s) (leds s) (dma_count s) (dma_address s)
    (fdc_ctx s) (cpu_sr s) (bus_errors s) (timeslice_ended s).
Definition set_vram (v : list Z) (s : state_t) : state_t :=
  mkState (rom s) (base_ram s) (base_ram_size s) (exp_ram s) (exp_ram_size s)
    (map s) v (genstat s) (bsr0 s) (bsr1 s) (pie s) (romlmap s) (idmarw s)
    (dmaen s) (dma_reading s) (leds s) (dma_count s) (dma_address s)
    (fdc_ctx s) (cpu_sr s) (bus_errors s) (timeslice_ended s).
Definition set_genstat (v : Z) (s : state_t) : state_t :=
  mkState (rom s) (base_ram s) (base_ram_size s) (exp_ram s) (exp_ram_size s)
    (map s) (vram s) (uint16 v) (bsr0 s) (bsr1 s) (pie s) (romlmap s)
    (idmarw s) (dmaen s) (dma_reading s) (leds s) (dma_count s)
    (dma_address s) (fdc_ctx s) (cpu_sr s) (bus_errors s) (timeslice_ended s).
Definition set_bsr0 (v : Z) (s : state_t) : state_t :=
  mkState (rom s) (base_ram s) (base_ram_size s) (exp_ram s) (exp_ram_size s)
    (map s) (vram s) (genstat s) (uint16 v) (bsr1 s) (pie s) (romlmap s)
    (idmarw s) (dmaen s) (dma_reading s) (leds s) (dma_count s)
    (dma_address s) (fdc_ctx s) (cpu_sr s) (bus_errors s) (timeslice_ended s).
Definition set_bsr1 (v : Z) (s : state_t) : state_t :=
  mkState (rom s) (base_ram s) (base_ram_size s) (exp_ram s) (exp_ram_size s)
    (map s) (vram s) (genstat s) (bsr0 s) (uint16 v) (pie s) (romlmap s)
    (idmarw s) (dmaen s) (dma_reading s) (leds s) (dma_count s)
    (dma_address s) (fdc_ctx s) (cpu_sr s) (bus_errors s) (timeslice_ended s).
Definition set_pie (v : bool) (s : state_t) : state_t :=
  mkState (rom s) (base_ram s) (base_ram_size s) (exp_ram s) (exp_ram_size s)
    (map s) (vram s) (genstat s) (bsr0 s) (bsr1 s) v (romlmap s) (idmarw s)
    (dmaen s) (dma_reading s) (leds s) (dma_count s) (dma_address s)
    (fdc_ctx s) (cpu_sr s) (bus_errors s) (timeslice_ended s).
Definition set_romlmap (v : bool) (s : state_t) : state_t :=
  mkState (rom s) (base_ram s) (base_ram_size s) (exp_ram s) (exp_ram_size s)
    (map s) (vram s) (genstat s) (bsr0 s) (bsr1 s) (pie s) v (idmarw s)
    (dmaen s) (dma_reading s) (leds s) (dma_count s) (dma_address s)
    (fdc_ctx s) (cpu_sr s) (bus_errors s) (timeslice_ended s).
Definition set_idmarw (v : bool) (s : state_t) : state_t :=
  mkState (rom s) (base_ram s) (base_ram_size s) (exp_ram s) (exp_ram_size s)
    (map s) (vram s) (genstat s) (bsr0 s) (bsr1 s) (pie s) (romlmap s) v
    (dmaen s) (dma_reading s) (leds s) (dma_count s) (dma_address s)
    (fdc_ctx s) (cpu_sr s) (bus_errors s) (timeslice_ended s).
Definition set_dmaen (v : bool) (s : state_t) : state_t :=
  mkState (rom s) (base_ram s) (base_ram_size s) (exp_ram s) (exp_ram_size s)
    (map s) (vram s) (genstat s) (bsr0 s) (bsr1 s) (pie s) (romlmap s)
    (idmarw s) v (dma_reading s) (leds s) (dma_count s) (dma_address s)
    (fdc_ctx s) (cpu_sr s) (bus_errors s) (timeslice_ended s).
Definition set_dma_reading (v : bool) (s : state_t) : state_t :=
  mkState (rom s) (base_ram s) (base_ram_size s) (exp_ram s) (exp_ram_size s)
    (map s) (vram s) (genstat s) (bsr0 s) (bsr1 s) (pie s) (romlmap s)
    (idmarw s) (dmaen s) v (leds s) (dma_count s) (dma_address s) (fdc_ctx s)
    (cpu_sr s) (bus_errors s) (timeslice_ended s).
Definition set_leds (v : Z) (s : state_t) : state_t :=
  mkState (rom s) (base_ram s) (base_ram_size s) (exp_ram s) (exp_ram_size s)
    (map s) (vram s) (genstat s) (bsr0 s) (bsr1 s) (pie s) (romlmap s)
    (idmarw s) (dmaen s) (dma_reading s) (uint8 v) (dma_count s)
    (dma_address s) (fdc_ctx s) (cpu_sr s) (bus_errors s) (timeslice_ended s).
Definition set_dma_count (v : Z) (s : state_t) : state_t :=
  mkState (rom s) (base_ram s) (base_ram_size s) (exp_ram s) (exp_ram_size s)
    (map s) (vram s) (genstat s) (bsr0 s) (bsr1 s) (pie s) (romlmap s)
    (idmarw s) (dmaen s) (dma_reading s) (leds s) (uint32 v) (dma_address s)
    (fdc_ctx s) (cpu_sr s) (bus_errors s) (timeslice_ended s).
Definition set_dma_address (v : Z) (s : state_t) : state_t :=
  mkState (rom s) (base_ram s) (base_ram_size s) (exp_ram s) (exp_ram_size s)
    (map s) (vram s) (genstat s) (bsr0 s) (bsr1 s) (pie s) (romlmap s)
    (idmarw s) (dmaen s) (dma_reading s) (leds s) (dma_count s) (uint32 v)
    (fdc_ctx s) (cpu_sr s) (bus_errors s) (timeslice_ended s).
Definition set_fdc_ctx (v : WD2797.WD2797_CTX) (s : state_t) : state_t :=
  mkState (rom s) (base_ram s) (base_ram_size s) (exp_ram s) (exp_ram_size s)
    (map s) (vram s) (genstat s) (bsr0 s) (bsr1 s) (pie s) (romlmap s)
    (idmarw s) (dmaen s) (dma_reading s) (leds s) (dma_count s)
    (dma_address s) v (cpu_sr s) (bus_errors s) (timeslice_ended s).
Definition set_bus_errors (v : nat) (s : state_t) : state_t :=
  mkState (rom s) (base_ram s) (base_ram_size s) (exp_ram s) (exp_ram_size s)
    (map s) (vram s) (genstat s) (bsr0 s) (bsr1 s) (pie s) (romlmap s)
    (idmarw s) (dmaen s) (dma_reading s) (leds s) (dma_count s)
    (dma_address s) (fdc_ctx s) (cpu_sr s) v (timeslice_ended s).
Definition set_timeslice_ended (v : bool) (s : state_t) : state_t :=
  mkState (rom s) (base_ram s) (base_ram_size s) (exp_ram s) (exp_ram_size s)
    (map s) (vram s) (genstat s) (bsr0 s) (bsr1 s) (pie s) (romlmap s)
    (idmarw s) (dmaen s) (dma_reading s) (leds s) (dma_count s)
    (dma_address s) (fdc_ctx s) (cpu_sr s) (bus_errors s) v.

(** [m68k_pulse_bus_error()] *)
Definition m68k_pulse_bus_error (s : state_t) : state_t :=
  set_bus_errors (S (bus_errors s)) s.

(** [m68k_end_timeslice()] *)
Definition m68k_end_timeslice (s : state_t) : state_t :=
  set_timeslice_ended true s.

(** ** Array access macros

    [RD8], [RD16], [RD32], [WR8], [WR16] and [WR32] are macros of
    [memory.h], which is not among the sources.  Spec 4.3: reads are
    big-endian, 16-bit = (b[i]<<8)|b[i+1] with the offset masked by
    size-1, 32-bit = 16-bit high | 16-bit low, and writes mirror the
    same layout; spec 3: an unaligned access wraps within the buffer
    through the size mask. *)

(** Modelled from the spec: the macro [RD8] of [memory.h]. *)
Definition RD8 (array : list Z) (address andmask : Z) : Z :=
  rd array (Z.land address andmask).

(** Modelled from the spec: the macro [RD16] of [memory.h]. *)
Definition RD16 (array : list Z) (address andmask : Z) : Z :=
  Z.lor (Z.shiftl (rd array (Z.land address andmask)) 8)
        (rd array (Z.land (address + 1) andmask)).

(** Modelled from the spec: the macro [RD32] of [memory.h]. *)
Definition RD32 (array : list Z) (address andmask : Z) : Z :=
  Z.lor (Z.shiftl (RD16 array address andmask) 16)
        (RD16 array (address + 2) andmask).

(** Modelled from the spec: the macro [WR8] of [memory.h]. *)
Definition WR8 (array : list Z) (address andmask value : Z) : list Z :=
  wr array (Z.land address andmask) value.

(** Modelled from the spec: the macro [WR16] of [memory.h]. *)
Definition WR16 (array : list Z) (address andmask value : Z) : list Z :=
  let array := wr array (Z.land address andmask) (Z.shiftr value 8) in
  wr array (Z.land (address + 1) andmask) value.

(** Modelled from the spec: the macro [WR32] of [memory.h]. *)
Definition WR32 (array : list Z) (address andmask value : Z) : list Z :=
  let array := WR16 array address andmask (Z.shiftr value 16) in
  WR16 array (address + 2) andmask value.

(** ** Memory mapping *)

(** [#define MAPRAM(addr)]: the sum of the two bytes, as the macro has it. *)
Definition MAPRAM (s : state_t) (addr : Z) : Z :=
  Z.shiftl (uint16 (rd (map s) (addr * 2))) 8 + uint16 (rd (map s) ((addr * 2) + 1)).

Definition mapAddr (s : state_t) (addr : Z) (writing : bool) : Z * state_t :=
  if addr <? 0x400000 then
    (* RAM access. Check against the Map RAM *)
    (* Start by getting the original page address *)
    let page := uint16 (Z.land (Z.shiftr addr 12) 0x3FF) in
    (* Look it up in the map RAM and get the physical page address *)
    let new_page_addr := uint32 (Z.land (MAPRAM s page) 0x3FF) in
    (* Update the Page Status bits *)
    let pagebits := uint8 (Z.land (Z.shiftr (MAPRAM s page) 13) 0x03) in
    let s :=
      if negb (pagebits =? 0) then
        if writing then
          (* Page written to (dirty) *)
          set_map (wr (map s) (page * 2) (Z.lor (rd (map s) (page * 2)) 0x60)) s
        else
          (* Page accessed but not written *)
          set_map (wr (map s) (page * 2) (Z.lor (rd (map s) (page * 2)) 0x40)) s
      else s in
    (* Return the address with the new physical page spliced in *)
    (uint32 (Z.shiftl new_page_addr 12 + Z.land addr 0xFFF), s)
  else
    (* I/O, VRAM or MapRAM space; no mapping is performed or required *)
    (addr, s).

Definition checkMemoryAccess (s : state_t) (addr : Z) (writing : bool) : MEM_STATUS :=
  (* Are we in Supervisor mode? *)
  if truthy (Z.land (cpu_sr s) 0x2000) then
    (* Yes. We can do anything we like. *)
    MEM_ALLOWED
  (* If we're here, then we must be in User mode. *)
  (* Check that the user didn't access memory outside of the RAM area *)
  else if 0x400000 <=? addr then MEM_UIE
  else
    (* This leaves us with Page Fault checking. Get the page bits for this page. *)
    let page := uint16 (Z.land (Z.shiftr addr 12) 0x3FF) in
    let pagebits := uint8 (Z.land (Z.shiftr (MAPRAM s page) 13) 0x07) in
    (* Check page is present *)
    if Z.land pagebits 0x03 =? 0 then MEM_PAGEFAULT
    (* User attempt to access the kernel *)
    else if Z.land (Z.shiftr addr 19) 0x0F =? 0 then MEM_KERNEL
    (* Check page is write enabled *)
    else if writing && (Z.land pagebits 0x04 =? 0) then MEM_PAGE_NO_WE
    (* Page access allowed. *)
    else MEM_ALLOWED.

(** ** Access checks of the bus entry points

    [ACCESS_CHECK_WR] and [ACCESS_CHECK_RD] are macros that end in a
    [return] of the enclosing function when [fault] is set; here they
    return [fault] with the state and the entry point returns on it. *)
Definition fault_registers (address bits : Z) (s : state_t) : state_t :=
  let s :=
    if 16 <=? bits then set_bsr0 0x7C00 s
    else set_bsr0 (if truthy (Z.land address 1) then 0x7D00 else 0x7E00) s in
  let s := set_bsr0 (Z.lor (bsr0 s) (Z.shiftr address 16)) s in
  let s := set_bsr1 (Z.land address 0xffff) s in
  m68k_pulse_bus_error s.

Definition ACCESS_CHECK_WR (s : state_t) (address bits : Z) : bool * state_t :=
  let '(fault, s) :=
    match checkMemoryAccess s address true with
    | MEM_ALLOWED =>
      (* Access allowed *)
      (false, s)
    | MEM_PAGEFAULT =>
      (* Page fault *)
      (true, set_genstat (Z.lor 0x8BFF (if pie s then 0x0400 else 0)) s)
    | MEM_UIE =>
      (* User access to memory above 4MB *)
      (true, set_genstat (Z.lor 0x9AFF (if pie s then 0x0400 else 0)) s)
    | MEM_KERNEL | MEM_PAGE_NO_WE =>
      (* kernel access or page not write enabled *)
      (true, s)
    end in
  if fault then (true, fault_registers address bits s) else (false, s).

Definition ACCESS_CHECK_RD (s : state_t) (address bits : Z) : bool * state_t :=
  let '(fault, s) :=
    match checkMemoryAccess s address false with
    | MEM_ALLOWED =>
      (* Access allowed *)
      (false, s)
    | MEM_PAGEFAULT =>
      (* Page fault *)
      (true, set_genstat (Z.lor 0xCBFF (if pie s then 0x0400 else 0)) s)
    | MEM_UIE =>
      (* User access to memory above 4MB *)
      (true, set_genstat (Z.lor 0xDAFF (if pie s then 0x0400 else 0)) s)
    | MEM_KERNEL | MEM_PAGE_NO_WE =>
      (* kernel access or page not write enabled *)
      (true, s)
    end in
  if fault then (true, fault_registers address bits s) else (false, s).

(** ** I/O read/write functions

    [ENFORCE_SIZE_R] and [ENFORCE_SIZE_W] print a warning and do nothing
    else; the [handled] flag only selects a diagnostic. *)

Definition IoWrite (s : state_t) (address data bits : Z) : state_t :=
  if (0x400000 <=? address) && (address <=? 0x7FFFFF) then
    (* I/O register space, zone A *)
    let sel := Z.land address 0x0F0000 in
    if sel =? 0x010000 then
      (* General Status Register *)
      if bits =? 16 then set_genstat (Z.land data 0xffff) s
      else if bits =? 8 then
        if truthy (Z.land address 0) then set_genstat data s
        else set_genstat (Z.shiftl data 8) s
      else s
    else if sel =? 0x060000 then
      (* DMA Count *)
      let s := set_dma_count (Z.land data 0x3FFF) s in
      let s := set_idmarw (Z.land data 0x4000 =? 0x4000) s in
      let s := set_dmaen (Z.land data 0x8000 =? 0x8000) s in
      (* This handles the "dummy DMA transfer" mentioned in the docs *)
      let s :=
        if negb (idmarw s) then
          let '(newAddr, s) := mapAddr s address true in
          set_base_ram (WR32 (base_ram s) newAddr (size_t (base_ram_size s - 1)) 0xDEAD) s
        else s in
      set_dma_count (dma_count s + 1) s
    else if sel =? 0x0A0000 then
      (* Miscellaneous Control Register *)
      let s := set_dma_reading (truthy (Z.land data 0x4000)) s in
      set_leds (Z.shiftr (Z.land (uint32 (Z.lnot data)) 0xF00) 8) s
    else if sel =? 0x0C0000 then
      (* Clear Status Register *)
      let s := set_genstat 0xFFFF s in
      let s := set_bsr0 0xFFFF s in
      set_bsr1 0xFFFF s
    else if sel =? 0x0D0000 then
      (* DMA Address Register *)
      if truthy (Z.land address 0x004000) then
        (* A14 high -- set most significant bits *)
        set_dma_address (Z.lor (Z.land (dma_address s) 0x1fe)
                               (Z.shiftl (Z.land address 0x3ffe) 8)) s
      else
        (* A14 low -- set least significant bits *)
        set_dma_address (Z.lor (Z.land (dma_address s) 0x3ffe00)
                               (Z.land address 0x1fe)) s
    else if sel =? 0x0E0000 then
      (* Disk Control Register *)
      (* B7 = FDD controller reset *)
      if Z.land data 0x80 =? 0 then set_fdc_ctx (WD2797.wd2797_reset (fdc_ctx s)) s
      else s
    else
      (* BSR0, BSR1, phone, line printer, RTC, TM/DIALWR: nothing is done *)
      s
  else if (0xC00000 <=? address) && (address <=? 0xFFFFFF) then
    (* I/O register space, zone B *)
    let zone := Z.land address 0xF00000 in
    if (zone =? 0xC00000) || (zone =? 0xD00000) then
      (* Expansion slots: a note is printed *)
      s
    else if (zone =? 0xE00000) || (zone =? 0xF00000) then
      (* HDC, FDC, MCR2 and RTC data bits *)
      let sel := Z.land address 0x070000 in
      if sel =? 0x010000 then
        (* [ef][19]xxxx ==> WD2797 floppy disc controller *)
        let s := m68k_end_timeslice s in
        set_fdc_ctx (WD2797.wd2797_write_reg (fdc_ctx s)
                       (uint8 (Z.land (Z.shiftr address 1) 3)) (uint8 data)) s
      else if sel =? 0x040000 then
        (* [ef][4c]xxxx ==> General Control Register *)
        let sub := Z.land address 0x077000 in
        if sub =? 0x041000 then
          (* [ef][4c][19]xxx ==> PIE *)
          set_pie (Z.land data 0x8000 =? 0x8000) s
        else if sub =? 0x043000 then
          (* [ef][4c][3B]xxx ==> ROMLMAP *)
          set_romlmap (Z.land data 0x8000 =? 0x8000) s
        else
          (* EE, BP, L1/L2 MODEM, D/N CONNECT, reverse video; the missing
             [break] runs on into the 8274 case, which breaks *)
          s
      else
        (* WD1010, MCR2, RTC data bits, 8274, control regs, 6850 *)
        s
    else s
  else s.

Definition IoRead (s : state_t) (address bits : Z) : Z * state_t :=
  let data := 0xFFFFFFFF in
  if (0x400000 <=? address) && (address <=? 0x7FFFFF) then
    (* I/O register space, zone A *)
    let sel := Z.land address 0x0F0000 in
    if sel =? 0x010000 then
      (* General Status Register *)
      (uint32 (Z.shiftl (genstat s) 16 + genstat s), s)
    else if sel =? 0x030000 then
      (* Bus Status Register 0 *)
      (uint32 (Z.shiftl (bsr0 s) 16 + bsr0 s), s)
    else if sel =? 0x040000 then
      (* Bus Status Register 1 *)
      (uint32 (Z.shiftl (bsr1 s) 16 + bsr1 s), s)
    else if sel =? 0x060000 then
      (* DMA Count *)
      (* Bit 14 is always unused, so leave it set *)
      (Z.lor (Z.land (dma_count s) 0x3fff) 0xC000, s)
    else if sel =? 0x070000 then
      (* Line Printer Status Register: no parity error, no line printer
         error, no irqs from FDD or HDD *)
      let data := 0x00120012 in
      (Z.lor data (if WD2797.irql (fdc_ctx s) then 0x00080008 else 0), s)
    else
      (data, s)
  else if (0xC00000 <=? address) && (address <=? 0xFFFFFF) then
    (* I/O register space, zone B *)
    let zone := Z.land address 0xF00000 in
    if (zone =? 0xE00000) || (zone =? 0xF00000) then
      if Z.land address 0x070000 =? 0x010000 then
        (* [ef][19]xxxx ==> WD2797 floppy disc controller *)
        let s := m68k_end_timeslice s in
        let '(v, ctx) := WD2797.wd2797_read_reg (fdc_ctx s)
                           (uint8 (Z.land (Z.shiftr address 1) 3)) in
        (v, set_fdc_ctx ctx s)
      else (data, s)
    else (data, s)
  else (data, s).

(** ** m68k memory read/write support functions for Musashi *)

Section Bus.

(** [ROM_SIZE] is a constant of a header that is not among the sources. *)
Variable ROM_SIZE : Z.

(** [if (!state.romlmap) address |= 0x800000;] *)
Definition rom_overlay (s : state_t) (address : Z) : Z :=
  if negb (romlmap s) then Z.lor address 0x800000 else address.

Definition m68k_read_memory_32 (s : state_t) (address : Z) : Z * state_t :=
  (* If ROMLMAP is set, force system to access ROM *)
  let address := rom_overlay s address in
  (* Check access permissions *)
  let '(fault, s) := ACCESS_CHECK_RD s address 32 in
  if fault then (0xFFFFFFFF, s)
  else if (0x800000 <=? address) && (address <=? 0xBFFFFF) then
    (* ROM access *)
    (RD32 (rom s) address (ROM_SIZE - 1), s)
  else if address <=? 0x3fffff then
    (* RAM access *)
    let '(newAddr, s) := mapAddr s address false in
    if newAddr <=? 0x1fffff then
      (RD32 (base_ram s) newAddr (size_t (base_ram_size s - 1)), s)
    else if newAddr <=? size_t (exp_ram_size s + 0x200000 - 1) then
      (RD32 (exp_ram s) (newAddr - 0x200000) (size_t (exp_ram_size s - 1)), s)
    else (0xffffffff, s)
  else if (0x400000 <=? address) && (address <=? 0x7FFFFF) then
    (* I/O register space, zone A *)
    let sel := Z.land address 0x0F0000 in
    if sel =? 0x000000 then
      (* Map RAM access *)
      (RD32 (map s) address 0x7FF, s)
    else if sel =? 0x020000 then
      (* Video RAM *)
      (RD32 (vram s) address 0x7FFF, s)
    else IoRead s address 32
  else IoRead s address 32.

Definition m68k_read_memory_16 (s : state_t) (address : Z) : Z * state_t :=
  let address := rom_overlay s address in
  let '(fault, s) := ACCESS_CHECK_RD s address 16 in
  if fault then (0xFFFFFFFF, s)
  else if (0x800000 <=? address) && (address <=? 0xBFFFFF) then
    (* ROM access *)
    (uint16 (RD16 (rom s) address (ROM_SIZE - 1)), s)
  else if address <=? 0x3fffff then
    (* RAM access *)
    let '(newAddr, s) := mapAddr s address false in
    if newAddr <=? 0x1fffff then
      (RD16 (base_ram s) newAddr (size_t (base_ram_size s - 1)), s)
    else if newAddr <=? size_t (exp_ram_size s + 0x200000 - 1) then
      (RD16 (exp_ram s) (newAddr - 0x200000) (size_t (exp_ram_size s - 1)), s)
    else (0xffff, s)
  else if (0x400000 <=? address) && (address <=? 0x7FFFFF) then
    (* I/O register space, zone A *)
    let sel := Z.land address 0x0F0000 in
    if sel =? 0x000000 then
      (* Map RAM access *)
      (uint16 (RD16 (map s) address 0x7FF), s)
    else if sel =? 0x020000 then
      (* Video RAM *)
      (uint16 (RD16 (vram s) address 0x7FFF), s)
    else
      let '(data, s) := IoRead s address 16 in (uint16 data, s)
  else
    let '(data, s) := IoRead s address 16 in (uint16 data, s).

Definition m68k_read_memory_8 (s : state_t) (address : Z) : Z * state_t :=
  let address := rom_overlay s address in
  let '(fault, s) := ACCESS_CHECK_RD s address 8 in
  if fault then (0xFFFFFFFF, s)
  else if (0x800000 <=? address) && (address <=? 0xBFFFFF) then
    (* ROM access *)
    (uint8 (RD8 (rom s) address (ROM_SIZE - 1)), s)
  else if address <=? 0x3fffff then
    (* RAM access *)
    let '(newAddr, s) := mapAddr s address false in
    if newAddr <=? 0x1fffff then
      (RD8 (base_ram s) newAddr (size_t (base_ram_size s - 1)), s)
    else if newAddr <=? size_t (exp_ram_size s + 0x200000 - 1) then
      (RD8 (exp_ram s) (newAddr - 0x200000) (size_t (exp_ram_size s - 1)), s)
    else (0xff, s)
  else if (0x400000 <=? address) && (address <=? 0x7FFFFF) then
    (* I/O register space, zone A *)
    let sel := Z.land address 0x0F0000 in
    if sel =? 0x000000 then
      (* Map RAM access *)
      (uint8 (RD8 (map s) address 0x7FF), s)
    else if sel =? 0x020000 then
      (* Video RAM *)
      (uint8 (RD8 (vram s) address 0x7FFF), s)
    else
      let '(data, s) := IoRead s address 8 in (uint8 data, s)
  else
    let '(data, s) := IoRead s address 8 in (uint8 data, s).

Definition m68k_write_memory_32 (s : state_t) (address value : Z) : state_t :=
  let address := rom_overlay s address in
  let '(fault, s) := ACCESS_CHECK_WR s address 32 in
  if fault then s
  else if (0x800000 <=? address) && (address <=? 0xBFFFFF) then
    (* ROM access *)
    s
  else if address <=? 0x3FFFFF then
    (* RAM access *)
    let '(newAddr, s) := mapAddr s address true in
    if newAddr <=? 0x1fffff then
      set_base_ram (WR32 (base_ram s) newAddr (size_t (base_ram_size s - 1)) value) s
    else
      set_exp_ram (WR32 (exp_ram s) (newAddr - 0x200000)
                     (size_t (exp_ram_size s - 1)) value) s
  else if (0x400000 <=? address) && (address <=? 0x7FFFFF) then
    (* I/O register space, zone A *)
    let sel := Z.land address 0x0F0000 in
    if sel =? 0x000000 then
      (* Map RAM access *)
      set_map (WR32 (map s) address 0x7FF value) s
    else if sel =? 0x020000 then
      (* Video RAM *)
      set_vram (WR32 (vram s) address 0x7FFF value) s
    else IoWrite s address value 32
  else IoWrite s address value 32.

Definition m68k_write_memory_16 (s : state_t) (address value : Z) : state_t :=
  let address := rom_overlay s address in
  let '(fault, s) := ACCESS_CHECK_WR s address 16 in
  if fault then s
  else if (0x800000 <=? address) && (address <=? 0xBFFFFF) then
    (* ROM access *)
    s
  else if address <=? 0x3FFFFF then
    (* RAM access *)
    let '(newAddr, s) := mapAddr s address true in
    if newAddr <=? 0x1fffff then
      set_base_ram (WR16 (base_ram s) newAddr (size_t (base_ram_size s - 1)) value) s
    else
      set_exp_ram (WR16 (exp_ram s) (newAddr - 0x200000)
                     (size_t (exp_ram_size s - 1)) value) s
  else if (0x400000 <=? address) && (address <=? 0x7FFFFF) then
    (* I/O register space, zone A *)
    let sel := Z.land address 0x0F0000 in
    if sel =? 0x000000 then
      (* Map RAM access *)
      set_map (WR16 (map s) address 0x7FF value) s
    else if sel =? 0x020000 then
      (* Video RAM *)
      set_vram (WR16 (vram s) address 0x7FFF value) s
    else IoWrite s address value 16
  else IoWrite s address value 16.

Definition m68k_write_memory_8 (s : state_t) (address value : Z) : state_t :=
  let address := rom_overlay s address in
  let '(fault, s) := ACCESS_CHECK_WR s address 8 in
  if fault then s
  else if (0x800000 <=? address) && (address <=? 0xBFFFFF) then
    (* ROM access (read only!) *)
    s
  else if address <=? 0x3FFFFF then
    (* RAM access *)
    let '(newAddr, s) := mapAddr s address true in
    if newAddr <=? 0x1fffff then
      set_base_ram (WR8 (base_ram s) newAddr (size_t (base_ram_size s - 1)) value) s
    else
      set_exp_ram (WR8 (exp_ram s) (newAddr - 0x200000)
                     (size_t (exp_ram_size s - 1)) value) s
  else if (0x400000 <=? address) && (address <=? 0x7FFFFF) then
    (* I/O register space, zone A *)
    let sel := Z.land address 0x0F0000 in
    if sel =? 0x000000 then
      (* Map RAM access *)
      set_map (WR8 (map s) address 0x7FF value) s
    else if sel =? 0x020000 then
      (* Video RAM *)
      set_vram (WR8 (vram s) address 0x7FFF value) s
    else IoWrite s address value 8
  else IoWrite s address value 8.

End Bus.

End Memory.

Import WD2797 Memory.

(** * Definitions used by the statements *)

(** ** Byte arrays hold bytes *)

Definition byteb (b : Z) : bool := (0 <=? b) && (b <? 256).

(** Every cell of a [uint8_t] array holds a byte. *)
Definition bytes_ok (a : list Z) : bool := forallb byteb a.

(** ** The Access Checker and the map entry in the words of the spec

    Spec 4.1: the map entry of a page is the big-endian 16-bit value at
    offset page*2 of map RAM.  Spec 4.2: the six steps of the check. *)
Definition spec_map_entry (s : state_t) (page : Z) : Z :=
  Z.lor (Z.shiftl (rd (map s) (page * 2)) 8) (rd (map s) (page * 2 + 1)).

Definition supervisor (s : state_t) : bool := Z.testbit (cpu_sr s) 13.

Definition spec_access_checker (s : state_t) (addr : Z) (writing : bool) : MEM_STATUS :=
  if supervisor s then MEM_ALLOWED
  else if 0x400000 <=? addr then MEM_UIE
  else
    let entry := spec_map_entry s (Z.land (Z.shiftr addr 12) 0x3FF) in
    let pagebits := Z.land (Z.shiftr entry 13) 0x07 in
    if Z.land pagebits 0x03 =? 0 then MEM_PAGEFAULT
    else if Z.land (Z.shiftr addr 19) 0x0F =? 0 then MEM_KERNEL
    else if writing && (Z.land pagebits 0x04 =? 0) then MEM_PAGE_NO_WE
    else MEM_ALLOWED.

(** The page of an address and the presence bits of its map entry. *)
Definition page_of (addr : Z) : Z := Z.land (Z.shiftr addr 12) 0x3FF.

Definition presence_bits (s : state_t) (addr : Z) : Z :=
  Z.land (Z.shiftr (spec_map_entry s (page_of addr)) 13) 0x03.

(** ** Sequences of FDC operations

    The host drives the controller by image loads, register reads and
    writes, resets (DISKCON bit 7) and DMA-miss signals. *)
Inductive fdc_op : Type :=
  | OpLoad (fp : list Z) (secsz spt heads writeable : Z) (malloc_ok : bool)
  | OpReadReg (addr : Z)
  | OpWriteReg (addr val : Z)
  | OpReset
  | OpDmaMiss.

Definition fdc_step (ctx : WD2797_CTX) (o : fdc_op) : WD2797_CTX :=
  match o with
  | OpLoad fp secsz spt heads w ok => snd (wd2797_load ctx fp secsz spt heads w ok)
  | OpReadReg addr => snd (wd2797_read_reg ctx addr)
  | OpWriteReg addr val => wd2797_write_reg ctx addr val
  | OpReset => wd2797_reset ctx
  | OpDmaMiss => wd2797_dma_miss ctx
  end.

Definition fdc_run (ops : list fdc_op) (ctx : WD2797_CTX) : WD2797_CTX :=
  fold_left fdc_step ops ctx.

(** The buffer invariant of spec section 3. *)
Definition buffer_invariant (c : WD2797_CTX) : Prop :=
  0 <= data_pos c /\ data_pos c <= data_len c /\ data_len c <= capacity c.

(** A load of positive geometry whose buffer allocation succeeds with
    [cap] bytes; any other operation. *)
Definition load_of_capacity (cap : Z) (o : fdc_op) : bool :=
  match o with
  | OpLoad _ secsz spt _ _ ok => ok && (0 <? secsz) && (0 <? spt) && (secsz * spt =? cap)
  | _ => true
  end.

(** ** Concrete states *)

(** A context as static storage holds it before [wd2797_init]. *)
Definition ctx_zero : WD2797_CTX :=
  mkCTX 0 0 0 0 0 0 0 0 false 0 false 0 0 None 0 0 None 0 0 false false.

(** A blank double-sided image of [tracks] tracks, 512 bytes per sector,
    10 sectors per track. *)
Definition blank_image (tracks : Z) : list Z :=
  replicate (Z.to_nat (tracks * 2 * 10 * 512)) 0.

(** The controller after [wd2797_init] and the load of a blank image of
    [tracks] tracks. *)
Definition ctx_loaded (tracks writeable : Z) : WD2797_CTX :=
  mkCTX 0 0 0 0 512 10 2 tracks false 0 false 0 (-1)
    (Some (replicate (Z.to_nat (512 * 10)) 0)) 0 0
    (Some (blank_image tracks)) writeable 0 false false.

(** A machine with 2 MiB of base RAM, [exp_size] bytes of expansion RAM,
    the CPU status register [sr], the map RAM [m] and ROMLMAP set. *)
Definition machine (sr : Z) (m : list Z) (exp_size : Z) : state_t :=
  mkState (replicate (Z.to_nat 0x8000) 0)
    (replicate (Z.to_nat 0x200000) 0) 0x200000
    (replicate (Z.to_nat exp_size) 0) exp_size
    m (replicate (Z.to_nat 0x8000) 0)
    0xFFFF 0xFFFF 0xFFFF false true false false false 0 0 0
    (wd2797_init ctx_zero) sr 0 false.

(** Map RAM with every page absent. *)
Definition map_empty : list Z := replicate 2048 0.

(** Map RAM whose entry of [page] is the 16-bit value [entry]. *)
Definition map_with (page entry : Z) : list Z :=
  WR16 map_empty (page * 2) 0x7FF entry.


(** ** The claims about the bus, as predicates *)

(** An address that selects the DMA count register of zone A. *)
Definition is_DMACOUNT (address : Z) : Prop :=
  0x400000 <= address <= 0x7FFFFF /\ Z.land address 0x0F0000 = 0x060000.

(** A write that is dropped leaves the four stores as they were. *)
Definition write_dropped (s s' : state_t) : Prop :=
  base_ram s' = base_ram s /\ exp_ram s' = exp_ram s
  /\ vram s' = vram s /\ map s' = map s.

(** The mapped physical address lies beyond the end of expansion RAM. *)
Definition beyond_exp_ram (s : state_t) (addr : Z) : Prop :=
  0x200000 + exp_ram_size s <= fst (mapAddr s addr true).

(** The map RAM after the Address Mapper's status update for a write. *)
Definition map_after_write (s : state_t) (addr : Z) : list Z :=
  if presence_bits s addr =? 0 then map s
  else <[Z.to_nat (page_of addr * 2) := Z.lor (rd (map s) (page_of addr * 2)) 0x60]> (map s).

(** What a write beyond the end of expansion RAM does, [W] being the
    store macro of its [width] in bytes: the store goes to the
    expansion RAM array at the offset reduced by the size mask, so that
    the low byte of the value is found at the last offset written;
    base RAM and video RAM are kept, and map RAM has the Address
    Mapper's status update. *)
Definition stored_beyond (W : list Z -> Z -> Z -> Z -> list Z) (width : Z)
    (s : state_t) (addr v : Z) (s' : state_t) : Prop :=
  let off := fst (mapAddr s addr true) - 0x200000 in
  let mask := exp_ram_size s - 1 in
  exp_ram s' = W (exp_ram s) off mask v
  /\ rd (exp_ram s') (Z.land (off + (width - 1)) mask) = uint8 v
  /\ length (exp_ram s') = length (exp_ram s)
  /\ exp_ram_size s' = exp_ram_size s
  /\ base_ram s' = base_ram s /\ vram s' = vram s
  /\ map s' = map_after_write s addr.

(** ** Relations between FDC states, for the buffer invariant *)

(** The fields of the track buffer and of the loaded image are equal. *)
Definition same_buffer (c c' : WD2797_CTX) : Prop :=
  data_pos c' = data_pos c /\ data_len c' = data_len c /\ data c' = data c
  /\ disc_image c' = disc_image c /\ geom_secsz c' = geom_secsz c
  /\ geom_spt c' = geom_spt c /\ writeable c' = writeable c.

(** The allocation, the presence of an image and the sector geometry
    are the same. *)
Definition same_store (c c' : WD2797_CTX) : Prop :=
  capacity c' = capacity c
  /\ (disc_image c' = None <-> disc_image c = None)
  /\ geom_secsz c' = geom_secsz c
  /\ geom_spt c' = geom_spt c.

(** A length a command may set: six bytes of ID record, at most a
    track of sectors, or the 7170 bytes of a track format. *)
Definition fresh_length (c : WD2797_CTX) (len : Z) : Prop :=
  0 <= len < 2 ^ 64
  /\ (0 < geom_secsz c -> 0 < geom_spt c ->
      len <= 6 \/ len <= geom_secsz c * geom_spt c \/ len = 7170).

(** What a command does to the buffer: nothing, or a restart at
    position 0 with a fresh length. *)
Definition buffer_step (c c' : WD2797_CTX) : Prop :=
  same_store c c'
  /\ ((data_pos c' = data_pos c /\ data_len c' = data_len c)
      \/ (data_pos c' = 0 /\ fresh_length c (data_len c'))).

(** Steps that move the position only. *)
Definition len_kept (c c' : WD2797_CTX) : Prop :=
  same_store c c' /\ data_len c' = data_len c.

(** The part of the buffer invariant that holds in every state. *)
Definition pos_le_len (c : WD2797_CTX) : Prop :=
  0 <= data_pos c /\ data_pos c <= data_len c /\ data_len c < 2 ^ 64.

(** The bound on the length while every load allocates [cap] bytes. *)
Definition within_track (cap : Z) (c : WD2797_CTX) : Prop :=
  match disc_image c with
  | None => data_len c = 0
  | Some _ =>
    capacity c = cap /\ 0 < geom_secsz c /\ 0 < geom_spt c
    /\ geom_secsz c * geom_spt c = cap
    /\ (data_len c <= cap \/ data_len c = 7170)
  end.

(** ** Predicates and drivers of the further properties *)

(** The page status bits [mapAddr] sets: accessed, and dirty on a write. *)
Definition status_mask (writing : bool) : Z := if writing then 0x60 else 0x40.

(** An address the bus sends to the I/O register file. *)
Definition is_io (address : Z) : Prop :=
  0xC00000 <= address
  \/ (0x400000 <= address <= 0x7FFFFF
      /\ Z.land address 0x0F0000 <> 0x000000 /\ Z.land address 0x0F0000 <> 0x020000).

(** Zone A register selected by [address & 0x0F0000]. *)
Definition zoneA_reg (sel address : Z) : Prop :=
  0x400000 <= address <= 0x7FFFFF /\ Z.land address 0x0F0000 = sel.

(** An address of the FDC registers, [ef][19]xxxx. *)
Definition is_FDC (address : Z) : Prop :=
  0xC00000 <= address <= 0xFFFFFF
  /\ (Z.land address 0xF00000 = 0xE00000 \/ Z.land address 0xF00000 = 0xF00000)
  /\ Z.land address 0x070000 = 0x010000.

(** An address of the general control register [sub], [ef][4c]sxxx. *)
Definition gcr_reg (sub address : Z) : Prop :=
  0xC00000 <= address <= 0xFFFFFF
  /\ (Z.land address 0xF00000 = 0xE00000 \/ Z.land address 0xF00000 = 0xF00000)
  /\ Z.land address 0x070000 = 0x040000
  /\ Z.land address 0x077000 = sub.

(** One of the three bus writes. *)
Definition bus_write (s : state_t) (A v : Z) (s' : state_t) : Prop :=
  s' = m68k_write_memory_8 s A v \/ s' = m68k_write_memory_16 s A v
  \/ s' = m68k_write_memory_32 s A v.

(** The bits of the DMA address that a write with A14 set takes from
    the address lines. *)
Definition dma_high (address : Z) : Z := Z.shiftl (Z.land address 0x3ffe) 8.

(** The bits of the DMA address that a write with A14 clear takes from
    the address lines. *)
Definition dma_low (address : Z) : Z := Z.land address 0x1fe.

(** The register number the bus passes to the FDC. *)
Definition fdc_reg (address : Z) : Z := Z.land (Z.shiftr address 1) 3.

(** What no register write and no rejected access changes. *)
Definition same_memory (s s' : state_t) : Prop :=
  rom s' = rom s /\ exp_ram s' = exp_ram s /\ map s' = map s /\ vram s' = vram s
  /\ base_ram_size s' = base_ram_size s /\ exp_ram_size s' = exp_ram_size s
  /\ cpu_sr s' = cpu_sr s.

(** One of the three bus reads. *)
Definition bus_read (ROM_SIZE : Z) (s : state_t) (A : Z) (r : Z * state_t) : Prop :=
  r = m68k_read_memory_8 ROM_SIZE s A \/ r = m68k_read_memory_16 ROM_SIZE s A
  \/ r = m68k_read_memory_32 ROM_SIZE s A.

(** The state a rejected access leaves: the fault is latched in the
    status registers and one bus error is raised; of the fields of the
    machine state only [genstat], [bsr0], [bsr1] and the count of bus
    errors are not kept. *)
Definition fault_recorded (address : Z) (s s' : state_t) : Prop :=
  same_memory s s' /\ base_ram s' = base_ram s /\ fdc_ctx s' = fdc_ctx s
  /\ romlmap s' = romlmap s /\ pie s' = pie s
  /\ dma_count s' = dma_count s /\ dma_address s' = dma_address s
  /\ bus_errors s' = S (bus_errors s)
  /\ bsr1 s' = Z.land address 0xffff
  /\ Z.land (bsr0 s') 0xFF = Z.land (Z.shiftr address 16) 0xFF
  /\ idmarw s' = idmarw s /\ dmaen s' = dmaen s /\ dma_reading s' = dma_reading s
  /\ leds s' = leds s /\ timeslice_ended s' = timeslice_ended s.

(** The general status word latched by a fault: [None] when the
    verdict leaves the register alone. *)
Definition fault_genstat (verdict : MEM_STATUS) (writing pie : bool) : option Z :=
  match verdict with
  | MEM_PAGEFAULT =>
    Some (Z.lor (if writing then 0x8BFF else 0xCBFF) (if pie then 0x0400 else 0))
  | MEM_UIE =>
    Some (Z.lor (if writing then 0x9AFF else 0xDAFF) (if pie then 0x0400 else 0))
  | _ => None
  end.

(** The general status register after a fault with [verdict]. *)
Definition genstat_after (verdict : MEM_STATUS) (writing : bool) (s s' : state_t) : Prop :=
  match fault_genstat verdict writing (pie s) with
  | Some g => genstat s' = g
  | None => genstat s' = genstat s
  end.

(** An address the bus serves from the ROM: the ROM window, or any
    address below 4 MiB while ROMLMAP is clear. *)
Definition rom_address (s : state_t) (A : Z) : Prop :=
  0x800000 <= A <= 0xBFFFFF \/ (romlmap s = false /\ 0 <= A < 0x400000).

(** An address of the map RAM window that selects the entry of [page]. *)
Definition map_ram_entry (page address : Z) : Prop :=
  zoneA_reg 0 address /\ 0 <= page < 1024 /\ Z.land address 0x7FF = 2 * page.

(** A Type 1 command: the top bit of the command byte is clear. *)
Definition is_type1_command (val : Z) : Prop := Z.land val 0xF0 < 0x80.

(** The direction of a step command: Step In is towards the last
    track, Step Out towards track 0, Step repeats the last direction. *)
Definition step_direction (n : Z) (c : WD2797_CTX) : Z :=
  if (n =? CMD_STEPIN) || (n =? CMD_STEPIN_TU) then 1
  else if (n =? CMD_STEPOUT) || (n =? CMD_STEPOUT_TU) then -1
  else last_step_dir c.

(** The host's transfer loop: [n] reads of the DATA register. *)
Fixpoint read_data (n : nat) (ctx : WD2797_CTX) : list Z * WD2797_CTX :=
  match n with
  | O => ([], ctx)
  | S n' =>
    let '(v, ctx) := wd2797_read_reg ctx WD2797_REG_DATA in
    let '(vs, ctx) := read_data n' ctx in
    (v :: vs, ctx)
  end.

(** The host's transfer loop: the bytes [bs] written to the DATA register. *)
Definition write_data_bytes (bs : list Z) (ctx : WD2797_CTX) : WD2797_CTX :=
  fold_left (fun c b => wd2797_write_reg c WD2797_REG_DATA b) bs ctx.

(** The linear block address of the sector under the head, as the
    sector commands compute it. *)
Definition chs_lba (c : WD2797_CTX) : Z :=
  track c * geom_heads c * geom_spt c + head c * geom_spt c + sector c - 1.

(** The sector count of a sector command. *)
Definition sector_count (n : Z) (c : WD2797_CTX) : Z :=
  if (n =? CMD_READ_SECTOR_MULTI) || (n =? CMD_WRITE_SECTOR_MULTI) then geom_spt c else 1.

(** The cylinder, head and sector selected by command byte [val] exist. *)
Definition chs_valid (val : Z) (c : WD2797_CTX) : Prop :=
  0 <= track c <= geom_tracks c - 1
  /\ head (select_head val c) <= geom_heads c - 1
  /\ 1 <= sector c <= geom_spt c.

(** The context with the data register, the buffer and the position
    replaced: what a byte of a transfer changes. *)
Definition with_transfer (r : Z) (d : option (list Z)) (p : Z) (c : WD2797_CTX)
    : WD2797_CTX :=
  mkCTX (track c) (head c) (sector c) (track_reg c) (geom_secsz c) (geom_spt c)
    (geom_heads c) (geom_tracks c) (irq c) (status c) (cmd_has_drq c)
    r (last_step_dir c) d p (data_len c)
    (disc_image c) (writeable c) (write_pos c) (formatting c) (irql c).

(** The sector length code of an ID field. *)
Definition size_code (secsz : Z) : Z :=
  if secsz =? 128 then 0
  else if secsz =? 256 then 1
  else if secsz =? 512 then 2
  else if secsz =? 1024 then 3
  else 0xFF.

(** ** Tactics *)

(** Reduces the projections of a context built by the setters. *)
Tactic Notation "ctx_cbn" :=
  cbn [track head sector track_reg geom_secsz geom_spt geom_heads geom_tracks irq
       status cmd_has_drq data_reg last_step_dir data data_pos data_len disc_image
       writeable write_pos formatting irql
       set_track set_head set_sector set_track_reg set_geom set_irq set_status
       set_cmd_has_drq set_data_reg set_last_step_dir set_data set_data_pos
       set_data_len set_disc_image set_writeable set_write_pos set_formatting
       data_store data_append status_drq select_head capacity option_map fst snd].

Tactic Notation "ctx_cbn" "in" hyp(H) :=
  cbn [track head sector track_reg geom_secsz geom_spt geom_heads geom_tracks irq
       status cmd_has_drq data_reg last_step_dir data data_pos data_len disc_image
       writeable write_pos formatting irql
       set_track set_head set_sector set_track_reg set_geom set_irq set_status
       set_cmd_has_drq set_data_reg set_last_step_dir set_data set_data_pos
       set_data_len set_disc_image set_writeable set_write_pos set_formatting
       data_store data_append status_drq select_head capacity option_map fst snd] in H.

(** Case analysis on the condition of a conditional of the goal. *)
Ltac case_if :=
  match goal with
  | |- context [if ?b then _ else _] => destruct b eqn:?
  end.

Ltac closed_Z x :=
  lazymatch x with
  | Z0 => idtac
  | Zpos ?p => assert_fails (is_var p)
  | ?a + ?b => closed_Z a; closed_Z b
  | size_t ?a => closed_Z a
  end.

(** Evaluates the [size_t] conversions of literals. *)
Ltac size_t_closed :=
  repeat match goal with
         | |- context [size_t ?x] =>
           closed_Z x;
           let v := eval vm_compute in (size_t x) in change (size_t x) with v
         end.

(** Closes a [buffer_step] goal whose buffer is untouched or reset. *)
Ltac step_trivial :=
  unfold buffer_step, same_store, fresh_length; ctx_cbn; size_t_closed;
  first
    [ solve [split; [tauto|]; left; split; reflexivity]
    | solve [split; [tauto|]; right; split; [reflexivity|];
             split; [lia | intros; lia]] ].

(** Unfolds a command write down to the command switches. *)
Ltac command_write Hcmd :=
  unfold wd2797_write_reg, write_command, CMD_MASK; rewrite Hcmd;
  change (0 =? WD2797_REG_COMMAND) with true; cbv iota.

(** * Facts about the fixed-width conversions and the bit operations *)

Section BitFacts.

Lemma uint8_land (x : Z) : uint8 x = Z.land x 0xFF.
Proof. unfold uint8. now rewrite <- (Z.land_ones x 8) by lia. Qed.

Lemma uint16_land (x : Z) : uint16 x = Z.land x 0xFFFF.
Proof. unfold uint16. now rewrite <- (Z.land_ones x 16) by lia. Qed.

Lemma uint32_land (x : Z) : uint32 x = Z.land x 0xFFFFFFFF.
Proof. unfold uint32. now rewrite <- (Z.land_ones x 32) by lia. Qed.

Lemma uint8_small (x : Z) : 0 <= x < 2 ^ 8 -> uint8 x = x.
Proof. intros H. unfold uint8. now apply Z.mod_small. Qed.

Lemma uint16_small (x : Z) : 0 <= x < 2 ^ 16 -> uint16 x = x.
Proof. intros H. unfold uint16. now apply Z.mod_small. Qed.

Lemma uint32_small (x : Z) : 0 <= x < 2 ^ 32 -> uint32 x = x.
Proof. intros H. unfold uint32. now apply Z.mod_small. Qed.

Lemma size_t_small (x : Z) : 0 <= x < 2 ^ 64 -> size_t x = x.
Proof. intros H. unfold size_t. now apply Z.mod_small. Qed.

Lemma size_t_range (x : Z) : 0 <= size_t x < 2 ^ 64.
Proof. unfold size_t. apply Z.mod_pos_bound. lia. Qed.

(** Masking with [2^n - 1] leaves a value below [2^n]. *)
Lemma land_ones_range (x n : Z) : 0 <= n -> 0 <= Z.land x (Z.ones n) < 2 ^ n.
Proof.
  intros Hn. rewrite Z.land_ones by assumption.
  apply Z.mod_pos_bound. apply Z.pow_pos_nonneg; lia.
Qed.

Lemma land_ones_small (x n : Z) : 0 <= n -> 0 <= x < 2 ^ n -> Z.land x (Z.ones n) = x.
Proof. intros Hn Hx. rewrite Z.land_ones by assumption. now apply Z.mod_small. Qed.

(** A right shift of a bounded value is bounded. *)
Lemma shiftr_range (x n k : Z) :
  0 <= n -> 0 <= k -> 0 <= x < 2 ^ (n + k) -> 0 <= Z.shiftr x n < 2 ^ k.
Proof.
  intros Hn Hk [Hx0 Hx]. rewrite Z.shiftr_div_pow2 by assumption.
  assert (Hp : 0 < 2 ^ n) by (apply Z.pow_pos_nonneg; lia).
  split.
  - now apply Z.div_pos.
  - apply Z.div_lt_upper_bound; [assumption|].
    now rewrite <- Z.pow_add_r by assumption.
Qed.

(** No bit of [a << n] meets a bit of a value below [2^n]. *)
Lemma land_shiftl_low (a b n : Z) :
  0 <= n -> 0 <= b < 2 ^ n -> Z.land (Z.shiftl a n) b = 0.
Proof.
  intros Hn Hb. apply Z.bits_inj'. intros i Hi.
  rewrite Z.land_spec, Z.bits_0.
  destruct (Z.lt_ge_cases i n) as [Hlt | Hge].
  - now rewrite Z.shiftl_spec_low.
  - rewrite andb_comm.
    replace (Z.testbit b i) with false; [reflexivity|].
    symmetry. destruct (Z.eq_dec b 0) as [-> | Hb0]; [apply Z.bits_0|].
    apply Z.bits_above_log2; [lia|].
    apply Z.lt_le_trans with n; [|assumption].
    apply Z.log2_lt_pow2; lia.
Qed.

(** So adding such a value to [a << n] is the same as or-ing it in. *)
Lemma shiftl_add_lor (a b n : Z) :
  0 <= n -> 0 <= b < 2 ^ n -> Z.shiftl a n + b = Z.lor (Z.shiftl a n) b.
Proof. intros Hn Hb. apply Z.add_nocarry_lor. now apply land_shiftl_low. Qed.

(** Or-ing two values below [2^n] stays below [2^n]. *)
Lemma lor_range (a b n : Z) :
  0 <= n -> 0 <= a < 2 ^ n -> 0 <= b < 2 ^ n -> 0 <= Z.lor a b < 2 ^ n.
Proof.
  intros Hn Ha Hb. split; [apply Z.lor_nonneg; lia|].
  destruct (Z.eq_dec (Z.lor a b) 0) as [-> | Hz]; [apply Z.pow_pos_nonneg; lia|].
  assert (H0 : 0 < Z.lor a b) by (pose proof (proj2 (Z.lor_nonneg a b)); lia).
  assert (Hn0 : 0 < n).
  { destruct (Z.eq_dec n 0) as [-> | Hne]; [|lia].
    assert (a = 0) by (change (2 ^ 0) with 1 in Ha; lia).
    assert (b = 0) by (change (2 ^ 0) with 1 in Hb; lia).
    subst. rewrite Z.lor_0_l in H0. lia. }
  apply Z.log2_lt_pow2; [assumption|].
  rewrite Z.log2_lor by lia.
  assert (La : Z.log2 a < n).
  { destruct (Z.eq_dec a 0) as [-> | Hne]; [exact Hn0|]. apply Z.log2_lt_pow2; lia. }
  assert (Lb : Z.log2 b < n).
  { destruct (Z.eq_dec b 0) as [-> | Hne]; [exact Hn0|]. apply Z.log2_lt_pow2; lia. }
  lia.
Qed.

End BitFacts.

(** * The WD2797 registers *)

(** C8.  After a read of the STATUS register (register index 0), from
    any FDC state whatsoever, the interrupt request flag is false: the
    read returns the context with [irq] cleared and nothing else
    changed, so that [wd2797_get_irq] answers false. *)
Theorem status_read_clears_irq (ctx : WD2797_CTX) :
  let ctx' := snd (wd2797_read_reg ctx WD2797_REG_STATUS) in
  irq ctx' = false
  /\ wd2797_get_irq ctx' = false
  /\ ctx' = set_irq false ctx.
Proof.
  intros ctx'. subst ctx'. unfold wd2797_read_reg.
  change (Z.land WD2797_REG_STATUS 0x03 =? WD2797_REG_STATUS) with true.
  cbv iota zeta. cbn [snd].
  split; [|split]; reflexivity.
Qed.

(** The same holds for every register address that selects STATUS
    (the function decodes [addr & 0x03]). *)
Lemma irq_cleared_by_status_mirror (ctx : WD2797_CTX) (addr : Z) :
  Z.land addr 0x03 = 0 -> irq (snd (wd2797_read_reg ctx addr)) = false.
Proof. intros H. unfold wd2797_read_reg. rewrite H. reflexivity. Qed.

(** C10.  For every byte [v] and every FDC state, a write of [v] to the
    TRACK register (register index 1) sets the head position [track] and
    the track register [track_reg] to [v] and changes no other field of
    the FDC context. *)
Theorem write_track_register (ctx : WD2797_CTX) (v : Z) :
  wd2797_write_reg ctx WD2797_REG_TRACK v =
  mkCTX v (head ctx) (sector ctx) v (geom_secsz ctx) (geom_spt ctx)
    (geom_heads ctx) (geom_tracks ctx) (irq ctx) (status ctx) (cmd_has_drq ctx)
    (data_reg ctx) (last_step_dir ctx) (data ctx) (data_pos ctx) (data_len ctx)
    (disc_image ctx) (writeable ctx) (write_pos ctx) (formatting ctx) (irql ctx).
Proof.
  unfold wd2797_write_reg.
  change (WD2797_REG_TRACK =? WD2797_REG_COMMAND) with false.
  change (WD2797_REG_TRACK =? WD2797_REG_TRACK) with true.
  cbv iota zeta. destruct ctx. reflexivity.
Qed.

(** In particular the head moves without any check against the
    geometry of the image. *)
Lemma track_write_moves_head (ctx : WD2797_CTX) (v : Z) :
  track (wd2797_write_reg ctx WD2797_REG_TRACK v) = v
  /\ track_reg (wd2797_write_reg ctx WD2797_REG_TRACK v) = v.
Proof. split; reflexivity. Qed.

(** C5.  What the code does on a SEEK (top nibble 0x1) beyond the last
    track of a loaded image: the seek-error status 0x10 set in the SEEK
    case is overwritten by the Type 1 status byte, so that the status
    register ends as 0x20, or 0x24 on track 0, with bit 0x10 clear;
    [track] and [track_reg] are unchanged and the interrupt is raised. *)
Theorem seek_error_status_overwritten (ctx : WD2797_CTX) (val : Z) :
  disc_image ctx <> None ->
  Z.land val 0xF0 = 0x10 ->
  geom_tracks ctx <= data_reg ctx ->
  let ctx' := wd2797_write_reg ctx WD2797_REG_COMMAND val in
  status ctx' = (if track ctx =? 0 then 0x24 else 0x20)
  /\ Z.land (status ctx') 0x10 = 0
  /\ track ctx' = track ctx
  /\ track_reg ctx' = track_reg ctx
  /\ irq ctx' = true.
Proof.
  intros Himg Hcmd Hreg ctx'. subst ctx'. command_write Hcmd.
  destruct ctx; simpl in *. destruct disc_image0; [|congruence].
  apply Z.ltb_ge in Hreg. rewrite Hreg. simpl.
  destruct (track0 =? 0); simpl; repeat split; reflexivity.
Qed.

(** The scenario of spec section 8: 40 tracks, data register 50,
    command 0x1F. *)
Lemma seek_error_status_overwritten_witness :
  let ctx := wd2797_write_reg (ctx_loaded 40 1) WD2797_REG_DATA 50 in
  let ctx' := wd2797_write_reg ctx WD2797_REG_COMMAND 0x1F in
  disc_image ctx <> None
  /\ Z.land 0x1F 0xF0 = 0x10
  /\ geom_tracks ctx <= data_reg ctx
  /\ status ctx' = 0x24
  /\ Z.land (status ctx') 0x10 = 0
  /\ track ctx' = 0
  /\ track_reg ctx' = 0
  /\ irq ctx' = true.
Proof.
  intros ctx ctx'.
  assert (H1 : disc_image ctx <> None) by discriminate.
  assert (H2 : Z.land 0x1F 0xF0 = 0x10) by reflexivity.
  assert (H3 : geom_tracks ctx <= data_reg ctx) by (lazy; discriminate).
  split; [exact H1|]. split; [exact H2|]. split; [exact H3|].
  exact (seek_error_status_overwritten ctx 0x1F H1 H2 H3).
Defined.

(** C6.  What the code does on a FORCE INTERRUPT (top nibble 0xD) with a
    loaded image: on track 0 the status register is assigned 0x04, which
    drops the bits 0x20 and 0x40 set just before; elsewhere it is 0x20,
    or 0x60 when the image is not writeable.  The buffer is reset.  The
    interrupt test is made on the command byte masked with 0xF0, whose
    bit 3 is always clear: the interrupt is never raised. *)
Theorem force_interrupt_status (ctx : WD2797_CTX) (val : Z) :
  disc_image ctx <> None ->
  Z.land val 0xF0 = 0xD0 ->
  let ctx' := wd2797_write_reg ctx WD2797_REG_COMMAND val in
  status ctx' = (if track ctx =? 0 then 0x04
                 else if writeable ctx =? 0 then 0x60 else 0x20)
  /\ data_pos ctx' = 0
  /\ data_len ctx' = 0
  /\ irq ctx' = false.
Proof.
  intros Himg Hcmd ctx'. subst ctx'. command_write Hcmd.
  destruct ctx; simpl in *. destruct disc_image0; [|congruence].
  rewrite andb_false_r. unfold command_switch, truthy. simpl.
  destruct (writeable0 =? 0); simpl; destruct (track0 =? 0); simpl;
    repeat split; reflexivity.
Qed.

(** Track 0, image not writeable, command 0xD8 (bit 3 set): the status
    is 0x04, not 0x64, and no interrupt is raised. *)
Lemma force_interrupt_status_witness :
  let ctx := ctx_loaded 40 0 in
  let ctx' := wd2797_write_reg ctx WD2797_REG_COMMAND 0xD8 in
  disc_image ctx <> None
  /\ Z.land 0xD8 0xF0 = 0xD0
  /\ Z.testbit 0xD8 3 = true
  /\ track ctx = 0
  /\ writeable ctx = 0
  /\ status ctx' = 0x04
  /\ data_pos ctx' = 0
  /\ data_len ctx' = 0
  /\ irq ctx' = false.
Proof.
  intros ctx ctx'.
  assert (H1 : disc_image ctx <> None) by discriminate.
  assert (H2 : Z.land 0xD8 0xF0 = 0xD0) by reflexivity.
  split; [exact H1|]. split; [exact H2|].
  split; [reflexivity|]. split; [reflexivity|]. split; [reflexivity|].
  exact (force_interrupt_status ctx 0xD8 H1 H2).
Defined.

(** * The Access Checker *)

Lemma byteb_spec (b : Z) : byteb b = true <-> 0 <= b < 256.
Proof. unfold byteb. rewrite andb_true_iff, Z.leb_le, Z.ltb_lt. tauto. Qed.

(** A cell read from an array of bytes is a byte. *)
Lemma rd_byte (a : list Z) (i : Z) : bytes_ok a = true -> 0 <= rd a i < 256.
Proof.
  intros H. unfold rd. destruct (a !! Z.to_nat i) as [b|] eqn:E; simpl; [|lia].
  unfold bytes_ok in H. rewrite forallb_forall in H.
  apply byteb_spec, H. apply list_elem_of_In. eapply list_elem_of_lookup_2. exact E.
Qed.

(** [x & (1 << n)] is nonzero exactly when bit [n] of [x] is set. *)
Lemma truthy_land_bit (x n : Z) : 0 <= n -> truthy (Z.land x (2 ^ n)) = Z.testbit x n.
Proof.
  intros Hn. unfold truthy. destruct (Z.testbit x n) eqn:E.
  - apply negb_true_iff, Z.eqb_neq. intros H0.
    assert (Hb : Z.testbit (Z.land x (2 ^ n)) n = true).
    { rewrite Z.land_spec, E, Z.pow2_bits_true by lia. reflexivity. }
    rewrite H0, Z.bits_0 in Hb. discriminate.
  - apply negb_false_iff, Z.eqb_eq. apply Z.bits_inj'. intros i Hi.
    rewrite Z.land_spec, Z.bits_0, Z.pow2_bits_eqb by lia.
    destruct (Z.eqb_spec n i) as [->|]; [now rewrite E|apply andb_false_r].
Qed.

(** [(x & (1 << n)) == (1 << n)] tests bit [n] as well. *)
Lemma land_bit_eqb (x n : Z) : 0 <= n -> (Z.land x (2 ^ n) =? 2 ^ n) = Z.testbit x n.
Proof.
  intros Hn. pose proof (truthy_land_bit x n Hn) as H. unfold truthy in H.
  destruct (Z.testbit x n) eqn:E.
  - apply Z.eqb_eq. apply Z.bits_inj'. intros i Hi.
    rewrite Z.land_spec, Z.pow2_bits_eqb by lia.
    destruct (Z.eqb_spec n i) as [->|]; [now rewrite E|apply andb_false_r].
  - apply negb_false_iff, Z.eqb_eq in H. rewrite H.
    apply Z.eqb_neq. pose proof (Z.pow_pos_nonneg 2 n). lia.
Qed.

Lemma truthy_land_1 (x : Z) : truthy (Z.land x 1) = Z.odd x.
Proof. rewrite <- Z.bit0_odd. exact (truthy_land_bit x 0 ltac:(lia)). Qed.

Lemma land_land_mask (x m k : Z) : Z.land (Z.land x m) k = Z.land x (Z.land m k).
Proof. now rewrite Z.land_assoc. Qed.

Lemma uint8_land_mask (x m : Z) : 0 <= m < 256 -> uint8 (Z.land x m) = Z.land x m.
Proof.
  intros Hm. rewrite uint8_land, <- Z.land_assoc.
  f_equal. change 0xFF with (Z.ones 8). apply land_ones_small; [lia|].
  change (2 ^ 8) with 256. lia.
Qed.

(** The sum of the [MAPRAM] macro is the big-endian entry. *)
Lemma MAPRAM_entry (s : state_t) (page : Z) :
  bytes_ok (map s) = true -> MAPRAM s page = spec_map_entry s page.
Proof.
  intros H. unfold MAPRAM, spec_map_entry.
  pose proof (rd_byte (map s) (page * 2) H) as Hh.
  pose proof (rd_byte (map s) (page * 2 + 1) H) as Hl.
  rewrite !uint16_small by (change (2 ^ 16) with 65536; lia).
  apply shiftl_add_lor; [lia|]. change (2 ^ 8) with 256. lia.
Qed.

Lemma page_of_range (addr : Z) : 0 <= page_of addr < 1024.
Proof.
  unfold page_of. change 0x3FF with (Z.ones 10). change 1024 with (2 ^ 10).
  apply land_ones_range. lia.
Qed.

Lemma page_uint16 (addr : Z) : uint16 (Z.land (Z.shiftr addr 12) 0x3FF) = page_of addr.
Proof.
  fold (page_of addr). apply uint16_small.
  pose proof (page_of_range addr). change (2 ^ 16) with 65536. lia.
Qed.

Lemma supervisor_bit (s : state_t) : truthy (Z.land (cpu_sr s) 0x2000) = supervisor s.
Proof. unfold supervisor. exact (truthy_land_bit (cpu_sr s) 13 ltac:(lia)). Qed.

(** The code of the check computes the function of spec 4.2. *)
Lemma checkMemoryAccess_refines (s : state_t) (addr : Z) (writing : bool) :
  bytes_ok (map s) = true ->
  checkMemoryAccess s addr writing = spec_access_checker s addr writing.
Proof.
  intros Hb. unfold checkMemoryAccess, spec_access_checker. rewrite supervisor_bit.
  destruct (supervisor s); [reflexivity|].
  destruct (0x400000 <=? addr); [reflexivity|].
  rewrite page_uint16, MAPRAM_entry by assumption.
  rewrite uint8_land_mask by lia. reflexivity.
Qed.

Lemma supervisor_allowed (s : state_t) (addr : Z) (writing : bool) :
  supervisor s = true -> checkMemoryAccess s addr writing = MEM_ALLOWED.
Proof.
  intros H. unfold checkMemoryAccess. rewrite supervisor_bit, H. reflexivity.
Qed.

(** C1.  The Access Checker is the total function of (addr, writing) of
    spec 4.2: ALLOWED when the supervisor bit 0x2000 of the status
    register is set; else UIE for addr >= 0x400000; else, with pagebits
    the bits 13..15 of the map entry of page (addr >> 12) & 0x3FF,
    PAGEFAULT when (pagebits & 0x03) == 0, KERNEL when
    ((addr >> 19) & 0x0F) == 0, PAGE_NO_WE when writing and
    (pagebits & 0x04) == 0, and ALLOWED otherwise.  In particular the
    verdict is ALLOWED for every (addr, writing) in supervisor mode. *)
Theorem checkMemoryAccess_spec (s : state_t) (addr : Z) (writing : bool) :
  bytes_ok (map s) = true ->
  checkMemoryAccess s addr writing = spec_access_checker s addr writing
  /\ (supervisor s = true -> checkMemoryAccess s addr writing = MEM_ALLOWED).
Proof.
  intros Hb. split.
  - now apply checkMemoryAccess_refines.
  - apply supervisor_allowed.
Qed.

(** A user-mode write to a present, write-enabled page above the kernel
    region. *)
Lemma checkMemoryAccess_spec_witness :
  let s := machine 0 (map_with 0x100 0xA005) 0x80000 in
  bytes_ok (map s) = true
  /\ checkMemoryAccess s 0x100000 true = spec_access_checker s 0x100000 true
  /\ (supervisor s = true -> checkMemoryAccess s 0x100000 true = MEM_ALLOWED).
Proof.
  intros s.
  assert (H : bytes_ok (map s) = true) by reflexivity.
  split; [exact H|]. exact (checkMemoryAccess_spec s 0x100000 true H).
Defined.

(** The five verdicts on concrete pages. *)
Example access_checker_verdicts :
  let user := machine 0 (map_with 0x100 0x2005) 0x80000 in
  checkMemoryAccess user 0x100000 false = MEM_ALLOWED
  /\ checkMemoryAccess user 0x100000 true = MEM_PAGE_NO_WE
  /\ checkMemoryAccess user 0x101000 false = MEM_PAGEFAULT
  /\ checkMemoryAccess user 0x400000 false = MEM_UIE
  /\ checkMemoryAccess (machine 0 (map_with 0 0x2005) 0x80000) 0 false = MEM_KERNEL
  /\ checkMemoryAccess (machine 0x2000 map_empty 0x80000) 0x101000 true = MEM_ALLOWED.
Proof. repeat split; reflexivity. Qed.

(** * Bus errors *)

Lemma absent_page_faults (s : state_t) (addr : Z) (writing : bool) :
  supervisor s = false -> 0 <= addr < 0x400000 -> presence_bits s addr = 0 ->
  spec_access_checker s addr writing = MEM_PAGEFAULT.
Proof.
  intros Hs Ha Hp. unfold spec_access_checker. rewrite Hs.
  replace (0x400000 <=? addr) with false by (symmetry; apply Z.leb_gt; lia).
  fold (page_of addr). cbv zeta. rewrite land_land_mask.
  change (Z.land 7 3) with 3. unfold presence_bits in Hp. rewrite Hp. reflexivity.
Qed.

(** C2.  For every user-mode 8-bit read of an address A of the paged
    window whose map entry has presence bits 00, with ROMLMAP set, the
    read pulses a CPU bus error and returns 0xFFFFFFFF, sets genstat to
    0xCBFF (ORed with 0x0400 when PIE is set), sets bsr0 to 0x7D00 for
    an odd A and 0x7E00 for an even one, ORed with (A >> 16) & 0xFF,
    and sets bsr1 to A & 0xFFFF. *)
Theorem read8_page_fault (ROM_SIZE : Z) (s : state_t) (A : Z) :
  bytes_ok (map s) = true ->
  supervisor s = false ->
  romlmap s = true ->
  0 <= A < 0x400000 ->
  presence_bits s A = 0 ->
  let r := m68k_read_memory_8 ROM_SIZE s A in
  fst r = 0xFFFFFFFF
  /\ bus_errors (snd r) = S (bus_errors s)
  /\ genstat (snd r) = Z.lor 0xCBFF (if pie s then 0x0400 else 0)
  /\ bsr0 (snd r) = Z.lor (if Z.odd A then 0x7D00 else 0x7E00)
                          (Z.land (Z.shiftr A 16) 0xFF)
  /\ bsr1 (snd r) = Z.land A 0xFFFF.
Proof.
  intros Hb Hs Hr Ha Hp r. subst r.
  unfold m68k_read_memory_8, rom_overlay, ACCESS_CHECK_RD. rewrite Hr. cbv [negb].
  rewrite checkMemoryAccess_refines, absent_page_faults by assumption.
  cbv beta iota zeta.
  assert (Hsh : 0 <= Z.shiftr A 16 < 2 ^ 6).
  { apply shiftr_range; [lia | lia |]. change (2 ^ (16 + 6)) with 0x400000. lia. }
  change (2 ^ 6) with 64 in Hsh.
  unfold fault_registers. change (16 <=? 8) with false. cbv iota.
  rewrite truthy_land_1.
  split; [reflexivity|]. split; [reflexivity|]. split; [|split].
  - destruct s; simpl. destruct pie0; reflexivity.
  - destruct s; simpl.
    change 0xFF with (Z.ones 8).
    rewrite (land_ones_small (Z.shiftr A 16) 8) by (change (2 ^ 8) with 256; lia).
    destruct (Z.odd A).
    + rewrite (uint16_small 0x7D00) by (change (2 ^ 16) with 65536; lia).
      apply uint16_small, lor_range; change (2 ^ 16) with 65536; lia.
    + rewrite (uint16_small 0x7E00) by (change (2 ^ 16) with 65536; lia).
      apply uint16_small, lor_range; change (2 ^ 16) with 65536; lia.
  - destruct s; simpl. apply uint16_small.
    change 0xffff with (Z.ones 16). apply land_ones_range. lia.
Qed.

(** Scenario 2 of spec section 8: user mode, page 0x100 absent,
    [read8(0x100000)]. *)
Lemma read8_page_fault_witness :
  let s := machine 0 map_empty 0x80000 in
  let r := m68k_read_memory_8 0x8000 s 0x100000 in
  bytes_ok (map s) = true
  /\ supervisor s = false
  /\ romlmap s = true
  /\ 0 <= 0x100000 < 0x400000
  /\ presence_bits s 0x100000 = 0
  /\ fst r = 0xFFFFFFFF
  /\ bus_errors (snd r) = 1%nat
  /\ genstat (snd r) = 0xCBFF
  /\ bsr0 (snd r) = 0x7E10
  /\ bsr1 (snd r) = 0x0000.
Proof.
  intros s r.
  assert (H1 : bytes_ok (map s) = true) by reflexivity.
  assert (H2 : supervisor s = false) by reflexivity.
  assert (H3 : romlmap s = true) by reflexivity.
  assert (H4 : 0 <= 0x100000 < 0x400000) by lia.
  assert (H5 : presence_bits s 0x100000 = 0) by reflexivity.
  split; [exact H1|]. split; [exact H2|]. split; [exact H3|].
  split; [exact H4|]. split; [exact H5|].
  exact (read8_page_fault 0x8000 s 0x100000 H1 H2 H3 H4 H5).
Defined.

(** With PIE set the same read leaves 0xCFFF in genstat. *)
Example page_fault_with_pie :
  let s := set_pie true (machine 0 map_empty 0x80000) in
  genstat (snd (m68k_read_memory_8 0x8000 s 0x100000)) = 0xCFFF.
Proof. reflexivity. Qed.

(** Above the paged window a user-mode read is a UIE fault, whatever
    the map holds: genstat becomes 0xDAFF. *)
Example read8_above_window :
  let r := m68k_read_memory_8 0x8000 (machine 0 map_empty 0x80000) 0x500000 in
  fst r = 0xFFFFFFFF /\ genstat (snd r) = 0xDAFF /\ bsr0 (snd r) = 0x7E50.
Proof. repeat split; reflexivity. Qed.

(** * The Address Mapper *)

Lemma mapAddr_high (s : state_t) (addr : Z) (writing : bool) :
  0x400000 <= addr -> mapAddr s addr writing = (addr, s).
Proof.
  intros H. unfold mapAddr.
  replace (addr <? 0x400000) with false by (symmetry; apply Z.ltb_ge; lia).
  reflexivity.
Qed.

(** The value and the state of [mapAddr] below 4 MiB, in terms of the
    map entry. *)
Lemma mapAddr_low (s : state_t) (addr : Z) (writing : bool) :
  bytes_ok (map s) = true -> addr < 0x400000 ->
  mapAddr s addr writing =
  (Z.lor (Z.shiftl (Z.land (spec_map_entry s (page_of addr)) 0x3FF) 12) (Z.land addr 0xFFF),
   if presence_bits s addr =? 0 then s
   else set_map (<[Z.to_nat (page_of addr * 2) :=
                     Z.lor (rd (map s) (page_of addr * 2)) (if writing then 0x60 else 0x40)]>
                   (map s)) s).
Proof.
  intros Hb Ha. unfold mapAddr.
  replace (addr <? 0x400000) with true by (symmetry; apply Z.ltb_lt; lia).
  rewrite page_uint16, MAPRAM_entry by assumption.
  set (entry := spec_map_entry s (page_of addr)).
  assert (Hp : 0 <= Z.land entry 0x3FF < 2 ^ 10).
  { change 0x3FF with (Z.ones 10). apply land_ones_range. lia. }
  assert (Ho : 0 <= Z.land addr 0xFFF < 2 ^ 12).
  { change 0xFFF with (Z.ones 12). apply land_ones_range. lia. }
  change (2 ^ 10) with 1024 in Hp.
  rewrite (uint32_small (Z.land entry 0x3FF)) by (change (2 ^ 32) with 4294967296; lia).
  rewrite uint8_land_mask by lia.
  f_equal.
  - rewrite shiftl_add_lor by (assumption || lia).
    rewrite <- shiftl_add_lor by (assumption || lia).
    apply uint32_small. rewrite Z.shiftl_mul_pow2 by lia.
    change (2 ^ 12) with 4096 in *. change (2 ^ 32) with 4294967296. lia.
  - unfold presence_bits. fold entry.
    destruct (Z.land (Z.shiftr entry 13) 3 =? 0); simpl; [reflexivity|].
    pose proof (rd_byte (map s) (page_of addr * 2) Hb) as Hh.
    unfold wr.
    destruct writing;
      (rewrite uint8_small; [reflexivity | apply lor_range; change (2 ^ 8) with 256; lia]).
Qed.

(** C3.  For every address addr < 0x400000 and flag writing, [mapAddr]
    returns (phys_page << 12) | (addr & 0xFFF), where phys_page is the
    low 10 bits of the big-endian map entry of page (addr >> 12) & 0x3FF;
    when the presence bits (entry >> 13) & 0x03 of the entry are nonzero
    it ORs the high byte of the entry in map RAM with 0x60 on a write
    and 0x40 on a read, and touches nothing else; when they are zero
    the state is unchanged.  For addr >= 0x400000 it returns addr and
    changes no byte of map RAM. *)
Theorem mapAddr_spec (s : state_t) (addr : Z) (writing : bool) :
  bytes_ok (map s) = true ->
  length (map s) = 2048%nat ->
  let entry := spec_map_entry s (page_of addr) in
  let hi := rd (map s) (page_of addr * 2) in
  let mask := if writing then 0x60 else 0x40 in
  let r := mapAddr s addr writing in
  (addr < 0x400000 ->
     fst r = Z.lor (Z.shiftl (Z.land entry 0x3FF) 12) (Z.land addr 0xFFF)
     /\ (Z.land (Z.shiftr entry 13) 0x03 <> 0 ->
           snd r = set_map (<[Z.to_nat (page_of addr * 2) := Z.lor hi mask]> (map s)) s
           /\ rd (map (snd r)) (page_of addr * 2) = Z.lor hi mask
           /\ (forall i : nat, i <> Z.to_nat (page_of addr * 2) ->
                 map (snd r) !! i = map s !! i))
     /\ (Z.land (Z.shiftr entry 13) 0x03 = 0 -> snd r = s))
  /\ (0x400000 <= addr -> r = (addr, s)).
Proof.
  intros Hb Hlen entry hi mask r. subst r. split.
  - intros Ha. rewrite (mapAddr_low s addr writing Hb Ha). cbv [fst snd].
    fold entry hi mask. unfold presence_bits. fold entry.
    split; [reflexivity|]. split.
    + intros Hne. apply Z.eqb_neq in Hne. rewrite Hne.
      split; [reflexivity|].
      assert (Hi : (Z.to_nat (page_of addr * 2) < length (map s))%nat).
      { pose proof (page_of_range addr). rewrite Hlen. lia. }
      split.
      * destruct s; cbn [map set_map]. unfold rd.
        cbn [map] in Hi. now rewrite list_lookup_insert_eq.
      * intros i Hi'. destruct s; cbn [map set_map].
        apply list_lookup_insert_ne. congruence.
    + intros ->. reflexivity.
  - intros Ha. now apply mapAddr_high.
Qed.

(** A write to page 0x100, whose entry 0x2005 is present and maps to
    physical page 5: the high byte 0x20 of the entry becomes 0x60. *)
Lemma mapAddr_spec_witness :
  let s := machine 0 (map_with 0x100 0x2005) 0x80000 in
  let r := mapAddr s 0x100234 true in
  bytes_ok (map s) = true
  /\ length (map s) = 2048%nat
  /\ fst r = 0x5234
  /\ rd (map s) 0x200 = 0x20
  /\ rd (map (snd r)) 0x200 = 0x60
  /\ mapAddr s 0x400000 true = (0x400000, s).
Proof.
  intros s r.
  assert (H1 : bytes_ok (map s) = true) by reflexivity.
  assert (H2 : length (map s) = 2048%nat) by reflexivity.
  destruct (mapAddr_spec s 0x100234 true H1 H2) as [Hlow _].
  destruct (mapAddr_spec s 0x400000 true H1 H2) as [_ Hhigh].
  destruct (Hlow ltac:(lia)) as (Hv & Hpresent & _).
  destruct (Hpresent ltac:(discriminate)) as (_ & Hhi & _).
  split; [exact H1|]. split; [exact H2|]. split; [exact Hv|].
  split; [reflexivity|]. split; [exact Hhi|]. apply Hhigh. lia.
Defined.

(** A read marks the page referenced only: 0x20 becomes 0x60 as well,
    since 0x20 | 0x40 = 0x60, while an absent page is left alone. *)
Example mapAddr_read_and_absent :
  let s := machine 0 (map_with 0x100 0x2005) 0x80000 in
  rd (map (snd (mapAddr s 0x100234 false))) 0x200 = 0x60
  /\ snd (mapAddr s 0x101234 true) = s.
Proof. split; reflexivity. Qed.

(** * The DMA count register *)

Lemma zoneA_true (a : Z) :
  0x400000 <= a <= 0x7FFFFF -> (0x400000 <=? a) && (a <=? 0x7FFFFF) = true.
Proof. intros H. apply andb_true_iff. rewrite !Z.leb_le. lia. Qed.

(** A write to DMACOUNT: the count, the two flags, and what it leaves
    alone.  The dummy transfer touches base RAM only. *)
Lemma IoWrite_DMACOUNT (s : state_t) (a v bits : Z) :
  is_DMACOUNT a ->
  dma_count (IoWrite s a v bits) = uint32 (uint32 (Z.land v 0x3FFF) + 1)
  /\ idmarw (IoWrite s a v bits) = (Z.land v 0x4000 =? 0x4000)
  /\ dmaen (IoWrite s a v bits) = (Z.land v 0x8000 =? 0x8000)
  /\ romlmap (IoWrite s a v bits) = romlmap s
  /\ cpu_sr (IoWrite s a v bits) = cpu_sr s.
Proof.
  intros [Hz Hsel]. unfold IoWrite. rewrite (zoneA_true a Hz), Hsel. cbv iota.
  change (0x060000 =? 0x010000) with false. change (0x060000 =? 0x060000) with true.
  cbv iota.
  rewrite mapAddr_high by lia.
  destruct s; simpl. destruct (Z.land v 16384 =? 16384); simpl; repeat split; reflexivity.
Qed.

Lemma IoRead_DMACOUNT (s : state_t) (a bits : Z) :
  is_DMACOUNT a ->
  IoRead s a bits = (Z.lor (Z.land (dma_count s) 0x3fff) 0xC000, s).
Proof.
  intros [Hz Hsel]. unfold IoRead. rewrite (zoneA_true a Hz), Hsel. reflexivity.
Qed.

Lemma dma_count_after (v : Z) :
  uint32 (uint32 (Z.land v 0x3FFF) + 1) = Z.land v 0x3FFF + 1.
Proof.
  assert (H : 0 <= Z.land v 0x3FFF < 2 ^ 14).
  { change 0x3FFF with (Z.ones 14). apply land_ones_range. lia. }
  change (2 ^ 14) with 16384 in H.
  rewrite (uint32_small (Z.land v 0x3FFF)) by (change (2 ^ 32) with 4294967296; lia).
  apply uint32_small. change (2 ^ 32) with 4294967296; lia.
Qed.

Lemma dmacount_value_range (x : Z) : 0 <= Z.lor (Z.land x 0x3FFF) 0xC000 < 2 ^ 16.
Proof.
  apply lor_range; [lia| |change (2 ^ 16) with 65536; lia].
  pose proof (land_ones_range x 14 ltac:(lia)) as H.
  change (Z.ones 14) with 0x3FFF in H. change (2 ^ 14) with 16384 in H.
  change (2 ^ 16) with 65536. lia.
Qed.

(** C9.  For every value v, in particular every 16-bit one, a 16-bit
    write of v to the DMACOUNT register followed by a 16-bit read of
    DMACOUNT yields ((v & 0x3FFF) + 1) & 0x3FFF | 0xC000, whatever the
    bits 14 and 15 of v, which go to idmarw and dmaen: the dummy DMA
    transfer they may trigger leaves dma_count as it is.  This holds
    at the register file ([IoWrite], [IoRead]) and, in supervisor mode
    with ROMLMAP set, through the bus entry points. *)
Theorem dmacount_write_read (ROM_SIZE : Z) (s : state_t) (aw ar v : Z) :
  is_DMACOUNT aw -> is_DMACOUNT ar ->
  let expected := Z.lor (Z.land (Z.land v 0x3FFF + 1) 0x3FFF) 0xC000 in
  fst (IoRead (IoWrite s aw v 16) ar 16) = expected
  /\ dma_count (IoWrite s aw v 16) = Z.land v 0x3FFF + 1
  /\ idmarw (IoWrite s aw v 16) = Z.testbit v 14
  /\ dmaen (IoWrite s aw v 16) = Z.testbit v 15
  /\ (supervisor s = true -> romlmap s = true ->
      fst (m68k_read_memory_16 ROM_SIZE (m68k_write_memory_16 s aw v) ar) = expected).
Proof.
  intros Hw Hr expected.
  destruct (IoWrite_DMACOUNT s aw v 16 Hw) as (Hc & Hi & He & Hrl & Hsr).
  rewrite dma_count_after in Hc.
  split; [|split; [|split; [|split]]].
  - rewrite IoRead_DMACOUNT by assumption. simpl. rewrite Hc. reflexivity.
  - exact Hc.
  - rewrite Hi. exact (land_bit_eqb v 14 ltac:(lia)).
  - rewrite He. exact (land_bit_eqb v 15 ltac:(lia)).
  - intros Hs Hm.
    assert (Hwr : m68k_write_memory_16 s aw v = IoWrite s aw v 16).
    { unfold m68k_write_memory_16, rom_overlay, ACCESS_CHECK_WR.
      rewrite Hm. cbv [negb]. rewrite supervisor_allowed by assumption.
      cbv beta iota zeta. destruct Hw as [Hz Hsel].
      replace ((0x800000 <=? aw) && (aw <=? 0xBFFFFF)) with false
        by (symmetry; apply andb_false_iff; left; apply Z.leb_gt; lia).
      replace (aw <=? 0x3FFFFF) with false by (symmetry; apply Z.leb_gt; lia).
      rewrite (zoneA_true aw Hz), Hsel. reflexivity. }
    rewrite Hwr. set (s1 := IoWrite s aw v 16) in *.
    unfold m68k_read_memory_16, rom_overlay, ACCESS_CHECK_RD.
    rewrite Hrl, Hm. cbv [negb].
    rewrite supervisor_allowed by (unfold supervisor in *; rewrite Hsr; assumption).
    cbv beta iota zeta. pose proof Hr as [Hz Hsel].
    replace ((0x800000 <=? ar) && (ar <=? 0xBFFFFF)) with false
      by (symmetry; apply andb_false_iff; left; apply Z.leb_gt; lia).
    replace (ar <=? 0x3fffff) with false by (symmetry; apply Z.leb_gt; lia).
    rewrite (zoneA_true ar Hz), Hsel.
    change (0x060000 =? 0x000000) with false. change (0x060000 =? 0x020000) with false.
    cbv iota. rewrite IoRead_DMACOUNT by assumption. simpl.
    rewrite Hc. apply uint16_small, dmacount_value_range.
Qed.

(** The register at 0x460000, written with 0x3FFF (the count wraps to
    0, bits 14 and 15 clear, so the dummy transfer runs). *)
Lemma dmacount_write_read_witness :
  let s := machine 0x2000 map_empty 0x80000 in
  is_DMACOUNT 0x460000
  /\ supervisor s = true
  /\ romlmap s = true
  /\ fst (IoRead (IoWrite s 0x460000 0x3FFF 16) 0x460000 16) = 0xC000
  /\ dma_count (IoWrite s 0x460000 0x3FFF 16) = 0x4000
  /\ fst (m68k_read_memory_16 0x8000 (m68k_write_memory_16 s 0x460000 0x3FFF) 0x460000)
     = 0xC000.
Proof.
  intros s.
  assert (H1 : is_DMACOUNT 0x460000) by (split; [lia | reflexivity]).
  assert (H2 : supervisor s = true) by reflexivity.
  assert (H3 : romlmap s = true) by reflexivity.
  destruct (dmacount_write_read 0x8000 s 0x460000 0x460000 0x3FFF H1 H1)
    as (Ha & Hb & _ & _ & Hc).
  split; [exact H1|]. split; [exact H2|]. split; [exact H3|].
  split; [exact Ha|]. split; [exact Hb|]. exact (Hc H2 H3).
Defined.

(** * RAM accesses *)

(** A supervisor-mode 16-bit write to mapped base RAM is read back, at
    the three widths, big-endian; the page is marked dirty. *)
Example ram_write_read :
  let s := machine 0x2000 (map_with 1 0x2002) 0x80000 in
  let s' := m68k_write_memory_16 s 0x1010 0x1234 in
  fst (m68k_read_memory_16 0x8000 s' 0x1010) = 0x1234
  /\ fst (m68k_read_memory_8 0x8000 s' 0x1010) = 0x12
  /\ fst (m68k_read_memory_8 0x8000 s' 0x1011) = 0x34
  /\ fst (m68k_read_memory_32 0x8000 s' 0x1010) = 0x12340000
  /\ rd (base_ram s') 0x2010 = 0x12
  /\ rd (map s') 2 = 0x60.
Proof. repeat split; reflexivity. Qed.

(** * Accesses beyond the end of expansion RAM *)

(** The mapped address does not depend on the direction. *)
Lemma mapAddr_fst_writing (s : state_t) (addr : Z) :
  fst (mapAddr s addr false) = fst (mapAddr s addr true).
Proof. unfold mapAddr. destruct (addr <? 0x400000); reflexivity. Qed.

(** [mapAddr] writes to map RAM only. *)
Lemma mapAddr_frame (s : state_t) (addr : Z) (writing : bool) :
  let s' := snd (mapAddr s addr writing) in
  base_ram s' = base_ram s /\ exp_ram s' = exp_ram s /\ vram s' = vram s
  /\ base_ram_size s' = base_ram_size s /\ exp_ram_size s' = exp_ram_size s.
Proof.
  unfold mapAddr. destruct (addr <? 0x400000); cbv [snd]; [|repeat split; reflexivity].
  destruct (negb _); [destruct writing|]; repeat split; reflexivity.
Qed.

Lemma mapAddr_fst_range (s : state_t) (addr : Z) :
  addr < 0x400000 -> 0 <= fst (mapAddr s addr true) < 2 ^ 32.
Proof.
  intros H. unfold mapAddr.
  replace (addr <? 0x400000) with true by (symmetry; apply Z.ltb_lt; lia).
  cbv [fst]. unfold uint32 at 1. apply Z.mod_pos_bound. lia.
Qed.

Section Beyond.

Variables (ROM_SIZE : Z) (s : state_t) (addr : Z).
Hypothesis Hsup : supervisor s = true.
Hypothesis Hrom : romlmap s = true.
Hypothesis Haddr : 0 <= addr < 0x400000.
Hypothesis Hexp : 0 <= exp_ram_size s.
Hypothesis Hbeyond : beyond_exp_ram s addr.

(** The RAM branch of a write, for any of the three store macros [W]:
    the store goes to the expansion RAM array, without a bound check. *)
Lemma write_path_beyond (W : list Z -> Z -> Z -> Z -> list Z) (v : Z) :
  let s1 := snd (mapAddr s addr true) in
  (let '(newAddr, s) := mapAddr s addr true in
    if newAddr <=? 0x1fffff then
      set_base_ram (W (base_ram s) newAddr (size_t (base_ram_size s - 1)) v) s
    else
      set_exp_ram (W (exp_ram s) (newAddr - 0x200000) (size_t (exp_ram_size s - 1)) v) s)
  = set_exp_ram (W (exp_ram s1) (fst (mapAddr s addr true) - 0x200000)
                   (size_t (exp_ram_size s1 - 1)) v) s1.
Proof.
  intros s1. subst s1. unfold beyond_exp_ram in Hbeyond.
  destruct (mapAddr s addr true) as [m s1]. cbv [fst snd] in *.
  replace (m <=? 0x1fffff) with false by (symmetry; apply Z.leb_gt; lia).
  reflexivity.
Qed.

(** The head of a bus access that ends in RAM. *)
Ltac bus_ram_access :=
  unfold rom_overlay, ACCESS_CHECK_WR, ACCESS_CHECK_RD; rewrite Hrom; cbv [negb];
  rewrite supervisor_allowed by assumption; cbv beta iota zeta;
  replace ((0x800000 <=? addr) && (addr <=? 0xBFFFFF)) with false
    by (symmetry; apply andb_false_iff; left; apply Z.leb_gt; lia);
  replace (addr <=? 0x3FFFFF) with true by (symmetry; apply Z.leb_le; lia).

Lemma write8_beyond (v : Z) :
  let s1 := snd (mapAddr s addr true) in
  m68k_write_memory_8 s addr v =
  set_exp_ram (WR8 (exp_ram s1) (fst (mapAddr s addr true) - 0x200000)
                 (size_t (exp_ram_size s1 - 1)) v) s1.
Proof. unfold m68k_write_memory_8. bus_ram_access. exact (write_path_beyond WR8 v). Qed.

Lemma write16_beyond (v : Z) :
  let s1 := snd (mapAddr s addr true) in
  m68k_write_memory_16 s addr v =
  set_exp_ram (WR16 (exp_ram s1) (fst (mapAddr s addr true) - 0x200000)
                 (size_t (exp_ram_size s1 - 1)) v) s1.
Proof. unfold m68k_write_memory_16. bus_ram_access. exact (write_path_beyond WR16 v). Qed.

Lemma write32_beyond (v : Z) :
  let s1 := snd (mapAddr s addr true) in
  m68k_write_memory_32 s addr v =
  set_exp_ram (WR32 (exp_ram s1) (fst (mapAddr s addr true) - 0x200000)
                 (size_t (exp_ram_size s1 - 1)) v) s1.
Proof. unfold m68k_write_memory_32. bus_ram_access. exact (write_path_beyond WR32 v). Qed.

(** The RAM branch of a read, for any of the three load macros [R]:
    the bound check sends it to the all-ones value. *)
Lemma read_path_beyond (R : list Z -> Z -> Z -> Z) (ones : Z) :
  fst (let '(newAddr, s) := mapAddr s addr false in
       if newAddr <=? 0x1fffff then
         (R (base_ram s) newAddr (size_t (base_ram_size s - 1)), s)
       else if newAddr <=? size_t (exp_ram_size s + 0x200000 - 1) then
         (R (exp_ram s) (newAddr - 0x200000) (size_t (exp_ram_size s - 1)), s)
       else (ones, s)) = ones.
Proof.
  unfold beyond_exp_ram in Hbeyond.
  pose proof (mapAddr_fst_writing s addr) as Hf.
  pose proof (mapAddr_fst_range s addr ltac:(lia)) as Hr.
  pose proof (mapAddr_frame s addr false) as (_ & _ & _ & _ & He).
  destruct (mapAddr s addr false) as [m s1]. cbv [fst snd] in *.
  rewrite <- Hf in *. rewrite He.
  replace (m <=? 0x1fffff) with false by (symmetry; apply Z.leb_gt; lia).
  rewrite size_t_small by (change (2 ^ 32) with 4294967296 in Hr;
                           change (2 ^ 64) with 18446744073709551616; lia).
  replace (m <=? exp_ram_size s + 0x200000 - 1) with false
    by (symmetry; apply Z.leb_gt; lia).
  reflexivity.
Qed.

Lemma read8_beyond : fst (m68k_read_memory_8 ROM_SIZE s addr) = 0xff.
Proof. unfold m68k_read_memory_8. bus_ram_access. exact (read_path_beyond RD8 0xff). Qed.

Lemma read16_beyond : fst (m68k_read_memory_16 ROM_SIZE s addr) = 0xffff.
Proof. unfold m68k_read_memory_16. bus_ram_access. exact (read_path_beyond RD16 0xffff). Qed.

Lemma read32_beyond : fst (m68k_read_memory_32 ROM_SIZE s addr) = 0xffffffff.
Proof. unfold m68k_read_memory_32. bus_ram_access. exact (read_path_beyond RD32 0xffffffff). Qed.

(** What a write beyond expansion RAM leaves alone, whatever is stored
    into the expansion RAM array. *)
Lemma beyond_frame (e : list Z) :
  bytes_ok (map s) = true ->
  let s' := set_exp_ram e (snd (mapAddr s addr true)) in
  base_ram s' = base_ram s /\ vram s' = vram s /\ map s' = map_after_write s addr.
Proof.
  intros Hb s'. subst s'.
  destruct (mapAddr_frame s addr true) as (Hbr & _ & Hv & _ & _).
  split; [exact Hbr|]. split; [exact Hv|].
  rewrite (mapAddr_low s addr true Hb) by lia. cbv [snd].
  unfold map_after_write. destruct (presence_bits s addr =? 0); reflexivity.
Qed.

End Beyond.

(** ** The unchecked store of the write path *)

(** A masked offset lies inside an array as long as the mask says. *)
Lemma land_mask_range (a m : Z) : 0 <= m -> 0 <= Z.land a m <= m.
Proof.
  intros Hm.
  assert (H0 : Z.land (Z.land a m) (Z.ldiff m a) = 0).
  { apply Z.bits_inj'. intros i Hi.
    rewrite !Z.land_spec, Z.ldiff_spec, Z.bits_0.
    destruct (Z.testbit a i), (Z.testbit m i); reflexivity. }
  assert (H1 : Z.lor (Z.land a m) (Z.ldiff m a) = m).
  { apply Z.bits_inj'. intros i Hi.
    rewrite Z.lor_spec, !Z.land_spec, Z.ldiff_spec.
    destruct (Z.testbit a i), (Z.testbit m i); reflexivity. }
  apply Z.add_nocarry_lor in H0. rewrite H1 in H0.
  assert (0 <= Z.ldiff m a) by (apply Z.ldiff_nonneg; now left).
  assert (0 <= Z.land a m) by (apply Z.land_nonneg; now right).
  lia.
Qed.

Lemma masked_index_inside (a : list Z) (n x : Z) :
  Z.of_nat (length a) = n -> 0 < n -> (Z.to_nat (Z.land x (n - 1)) < length a)%nat.
Proof. intros Hl Hn. pose proof (land_mask_range x (n - 1) ltac:(lia)). lia. Qed.

Lemma wr_length (a : list Z) (i v : Z) : length (wr a i v) = length a.
Proof. unfold wr. apply length_insert. Qed.

Lemma rd_wr_eq (a : list Z) (i v : Z) :
  (Z.to_nat i < length a)%nat -> rd (wr a i v) i = uint8 v.
Proof. intros H. unfold rd, wr. now rewrite list_lookup_insert_eq. Qed.

(** The last byte a store macro writes is the low byte of the value. *)
Lemma WR8_stored (a : list Z) (n off v : Z) :
  Z.of_nat (length a) = n -> 0 < n ->
  rd (WR8 a off (n - 1) v) (Z.land (off + (1 - 1)) (n - 1)) = uint8 v
  /\ length (WR8 a off (n - 1) v) = length a.
Proof.
  intros Hl Hn. unfold WR8. rewrite wr_length. split; [|reflexivity].
  replace (off + (1 - 1)) with off by lia.
  apply rd_wr_eq. now apply masked_index_inside.
Qed.

Lemma WR16_stored (a : list Z) (n off v : Z) :
  Z.of_nat (length a) = n -> 0 < n ->
  rd (WR16 a off (n - 1) v) (Z.land (off + (2 - 1)) (n - 1)) = uint8 v
  /\ length (WR16 a off (n - 1) v) = length a.
Proof.
  intros Hl Hn. unfold WR16. cbv zeta. rewrite !wr_length. split; [|reflexivity].
  replace (off + (2 - 1)) with (off + 1) by lia.
  apply rd_wr_eq. rewrite wr_length. now apply masked_index_inside.
Qed.

Lemma WR32_stored (a : list Z) (n off v : Z) :
  Z.of_nat (length a) = n -> 0 < n ->
  rd (WR32 a off (n - 1) v) (Z.land (off + (4 - 1)) (n - 1)) = uint8 v
  /\ length (WR32 a off (n - 1) v) = length a.
Proof.
  intros Hl Hn. unfold WR32. cbv zeta.
  destruct (WR16_stored a n off (Z.shiftr v 16) Hl Hn) as [_ L1].
  destruct (WR16_stored (WR16 a off (n - 1) (Z.shiftr v 16)) n (off + 2) v) as [R2 L2];
    [now rewrite L1 | exact Hn |].
  split; [|now rewrite L2].
  replace (off + (4 - 1)) with (off + 2 + (2 - 1)) by lia. exact R2.
Qed.

(** The state of a write beyond expansion RAM, for a store macro [W]
    whose last byte is the low byte of the value. *)
Lemma store_lands_beyond (W : list Z -> Z -> Z -> Z -> list Z) (width : Z)
    (s : state_t) (addr v : Z) :
  (forall a n off, Z.of_nat (length a) = n -> 0 < n ->
     rd (W a off (n - 1) v) (Z.land (off + (width - 1)) (n - 1)) = uint8 v
     /\ length (W a off (n - 1) v) = length a) ->
  bytes_ok (map s) = true -> 0 <= addr < 0x400000 ->
  0 < exp_ram_size s < 2 ^ 64 ->
  Z.of_nat (length (exp_ram s)) = exp_ram_size s ->
  let s1 := snd (mapAddr s addr true) in
  stored_beyond W width s addr v
    (set_exp_ram (W (exp_ram s1) (fst (mapAddr s addr true) - 0x200000)
                    (size_t (exp_ram_size s1 - 1)) v) s1).
Proof.
  intros HW Hb Haddr Hsz Hlen s1.
  destruct (mapAddr_frame s addr true) as (_ & He & _ & _ & Hes).
  fold s1 in He, Hes.
  destruct (beyond_frame s addr Haddr
              (W (exp_ram s1) (fst (mapAddr s addr true) - 0x200000)
                 (size_t (exp_ram_size s1 - 1)) v) Hb) as (Hbr & Hv & Hm).
  fold s1 in Hbr, Hv, Hm.
  unfold stored_beyond. cbv zeta.
  split; [|split; [|split; [|split; [|split; [exact Hbr | split; [exact Hv | exact Hm]]]]]].
  - change (exp_ram (set_exp_ram ?e ?x)) with e.
    rewrite He, Hes, size_t_small by lia. reflexivity.
  - change (exp_ram (set_exp_ram ?e ?x)) with e.
    rewrite He, Hes, size_t_small by lia.
    apply (HW (exp_ram s) (exp_ram_size s)); [exact Hlen | lia].
  - change (exp_ram (set_exp_ram ?e ?x)) with e.
    rewrite He, Hes, size_t_small by lia.
    apply (HW (exp_ram s) (exp_ram_size s)); [exact Hlen | lia].
  - change (exp_ram_size (set_exp_ram ?e ?x)) with (exp_ram_size x). exact Hes.
Qed.

(** C4, as stated, fails on expansion RAM alone.  Supervisor mode,
    ROMLMAP set, 512 KiB of expansion RAM, page 0 absent (entry 0x0300,
    physical page 0x300): the 16-bit write to address 0 maps to
    0x300000, beyond the end of expansion RAM at 0x280000.  Map RAM,
    base RAM and video RAM are unchanged, and the write is not dropped:
    the offset 0x100000 is reduced by the size mask 0x7FFFF to 0, and
    the two bytes of the value are stored at offsets 0 and 1 of
    expansion RAM. *)
Lemma write16_beyond_exp_ram_not_dropped :
  let s := machine 0x2000 (map_with 0 0x0300) 0x80000 in
  let s' := m68k_write_memory_16 s 0 0x1234 in
  supervisor s = true
  /\ romlmap s = true
  /\ 0 <= 0 < 0x400000
  /\ beyond_exp_ram s 0
  /\ map s' = map s
  /\ rd (exp_ram s) 0 = 0 /\ rd (exp_ram s) 1 = 0
  /\ rd (exp_ram s') 0 = 0x12 /\ rd (exp_ram s') 1 = 0x34
  /\ ~ write_dropped s s'.
Proof.
  intros s s'.
  split; [reflexivity|]. split; [reflexivity|]. split; [lia|].
  split; [unfold beyond_exp_ram; lazy; discriminate|].
  split; [lazy; reflexivity|].
  assert (Hold : rd (exp_ram s) 0 = 0) by reflexivity.
  assert (Hnew : rd (exp_ram s') 0 = 0x12) by reflexivity.
  split; [exact Hold|]. split; [reflexivity|].
  split; [exact Hnew|]. split; [reflexivity|].
  intros (_ & Hexp & _ & _).
  rewrite Hexp, Hold in Hnew. discriminate.
Qed.

(** With the page present (entry 0x2300) the store lands in the same
    place, and the Address Mapper has set the referenced and dirty bits
    of the page besides: the high byte 0x23 of the entry becomes
    0x63. *)
Example write16_beyond_exp_ram_wraps :
  let s := machine 0x2000 (map_with 0 0x2300) 0x80000 in
  let s' := m68k_write_memory_16 s 0 0x1234 in
  beyond_exp_ram s 0
  /\ rd (exp_ram s) 0 = 0 /\ rd (exp_ram s') 0 = 0x12 /\ rd (exp_ram s') 1 = 0x34
  /\ rd (map s) 0 = 0x23 /\ rd (map s') 0 = 0x63.
Proof.
  intros s s'. split; [unfold beyond_exp_ram; lazy; discriminate|].
  repeat split; reflexivity.
Qed.

(** C4.  What the code does on a supervisor-mode write of width 8, 16
    or 32, with ROMLMAP set, to an address below 0x400000 whose mapped
    physical address is >= 0x200000 + exp_ram_size, when there is
    expansion RAM (an array as long as its size says, so that every
    store is inside it) and map RAM has its 2048 bytes: the write is
    not dropped.  The write path has
    no bound check, and the value is stored in expansion RAM at the
    offset reduced by the size mask: expansion RAM is the array the
    store macro returns, and the low byte of the value is found at the
    last offset written.  Base RAM and video RAM are unchanged, map RAM
    changes by the Address Mapper's status update only, and the read of
    such an address returns all-ones at its width, as claimed. *)
Theorem write_beyond_exp_ram (ROM_SIZE : Z) (s : state_t) (addr v : Z) :
  bytes_ok (map s) = true -> length (map s) = 2048%nat ->
  supervisor s = true ->
  romlmap s = true ->
  0 <= addr < 0x400000 ->
  0 < exp_ram_size s < 2 ^ 64 ->
  Z.of_nat (length (exp_ram s)) = exp_ram_size s ->
  beyond_exp_ram s addr ->
  stored_beyond WR8 1 s addr v (m68k_write_memory_8 s addr v)
  /\ stored_beyond WR16 2 s addr v (m68k_write_memory_16 s addr v)
  /\ stored_beyond WR32 4 s addr v (m68k_write_memory_32 s addr v)
  /\ fst (m68k_read_memory_8 ROM_SIZE s addr) = 0xFF
  /\ fst (m68k_read_memory_16 ROM_SIZE s addr) = 0xFFFF
  /\ fst (m68k_read_memory_32 ROM_SIZE s addr) = 0xFFFFFFFF.
Proof.
  intros Hb Hmap Hsup Hrom Haddr Hsz Hlen Hbeyond.
  assert (Hexp : 0 <= exp_ram_size s) by lia.
  split; [|split; [|split; [|split; [|split]]]].
  - rewrite write8_beyond by assumption.
    apply store_lands_beyond; try assumption. intros a n off. apply WR8_stored.
  - rewrite write16_beyond by assumption.
    apply store_lands_beyond; try assumption. intros a n off. apply WR16_stored.
  - rewrite write32_beyond by assumption.
    apply store_lands_beyond; try assumption. intros a n off. apply WR32_stored.
  - apply read8_beyond; assumption.
  - apply read16_beyond; assumption.
  - apply read32_beyond; assumption.
Qed.

(** The input of the counterexample: the low byte 0x34 of the value is
    in expansion RAM at offset 1, where 0 was, and the read of the
    address returns 0xFFFF. *)
Lemma write_beyond_exp_ram_witness :
  let s := machine 0x2000 (map_with 0 0x0300) 0x80000 in
  let s' := m68k_write_memory_16 s 0 0x1234 in
  bytes_ok (map s) = true
  /\ length (map s) = 2048%nat
  /\ supervisor s = true
  /\ romlmap s = true
  /\ 0 <= 0 < 0x400000
  /\ 0 < exp_ram_size s < 2 ^ 64
  /\ Z.of_nat (length (exp_ram s)) = exp_ram_size s
  /\ beyond_exp_ram s 0
  /\ stored_beyond WR16 2 s 0 0x1234 s'
  /\ fst (m68k_read_memory_16 0x8000 s 0) = 0xFFFF.
Proof.
  intros s s'.
  assert (H1 : bytes_ok (map s) = true) by reflexivity.
  assert (H0 : length (map s) = 2048%nat) by reflexivity.
  assert (H2 : supervisor s = true) by reflexivity.
  assert (H3 : romlmap s = true) by reflexivity.
  assert (H4 : 0 <= 0 < 0x400000) by lia.
  assert (H5 : 0 < exp_ram_size s < 2 ^ 64) by (split; reflexivity).
  assert (H6 : Z.of_nat (length (exp_ram s)) = exp_ram_size s).
  { change (exp_ram s) with (replicate (Z.to_nat 0x80000) 0).
    change (exp_ram_size s) with 0x80000. rewrite length_replicate. lia. }
  assert (H7 : beyond_exp_ram s 0) by (unfold beyond_exp_ram; lazy; discriminate).
  destruct (write_beyond_exp_ram 0x8000 s 0 0x1234 H1 H0 H2 H3 H4 H5 H6 H7)
    as (_ & Hw & _ & _ & Hr & _).
  split; [exact H1|]. split; [exact H0|]. split; [exact H2|]. split; [exact H3|]. split; [exact H4|].
  split; [exact H5|]. split; [exact H6|]. split; [exact H7|].
  split; [exact Hw | exact Hr].
Defined.

(** * The track buffer of the FDC *)


(** [ctx_loaded] is what [wd2797_init] followed by a successful load of
    the blank image gives. *)
Lemma ctx_loaded_is_load (tracks w : Z) :
  1 <= tracks ->
  wd2797_load (wd2797_init ctx_zero) (blank_image tracks) 512 10 2 w true
  = (WD2797_ERR_OK, ctx_loaded tracks w).
Proof.
  intros Ht. unfold wd2797_load, blank_image.
  rewrite length_replicate, Z2Nat.id by lia.
  change (int_to_size_t 512) with 512. change (int_to_size_t 10) with 10.
  change (int_to_size_t 2) with 2.
  replace (tracks * 2 * 10 * 512 / 512 / 10 / 2) with tracks.
  2:{ rewrite !Z.div_div by lia. apply Z.div_unique_exact; lia. }
  replace (tracks <? 1) with false by (symmetry; apply Z.ltb_ge; lia).
  reflexivity.
Qed.

Lemma size_t_le (x : Z) : 0 <= x -> size_t x <= x.
Proof. intros H. unfold size_t. apply Z.mod_le; lia. Qed.

Lemma next_pos (p l : Z) : 0 <= p -> p < l -> l < 2 ^ 64 -> size_t (p + 1) = p + 1.
Proof. intros. apply size_t_small. lia. Qed.

Lemma blit_length (src a : list Z) (off : nat) : length (blit a off src) = length a.
Proof.
  revert a off. induction src as [|b src IH]; intros a off; simpl; [reflexivity|].
  now rewrite IH, length_insert.
Qed.

Lemma fread_length (img : list Z) (pos n : Z) :
  Z.of_nat (length (fread img pos n)) <= Z.max 0 n.
Proof. unfold fread. rewrite length_take. lia. Qed.

Lemma capacity_after_wr (buf : list Z) (i v : Z) :
  Z.of_nat (length (wr buf i v)) = Z.of_nat (length buf).
Proof. unfold wr. now rewrite length_insert. Qed.

(** ** Relations that compose *)

Lemma same_buffer_trans (c c1 c2 : WD2797_CTX) :
  same_buffer c c1 -> same_buffer c1 c2 -> same_buffer c c2.
Proof. unfold same_buffer. intuition congruence. Qed.

Lemma buffer_step_after (c c1 c2 : WD2797_CTX) :
  same_buffer c c1 -> buffer_step c1 c2 -> buffer_step c c2.
Proof.
  unfold same_buffer, buffer_step, same_store, fresh_length, capacity.
  intros (Hp & Hl & Hd & Hi & Hs & Ht & Hw) ((Hc & Hi' & Hs' & Ht') & H).
  rewrite Hp, Hl, Hd, Hi, Hs, Ht in *. tauto.
Qed.

Lemma len_kept_buffer (c c' : WD2797_CTX) : same_buffer c c' -> len_kept c c'.
Proof.
  unfold same_buffer, len_kept, same_store, capacity.
  intros (Hp & Hl & Hd & Hi & Hs & Ht & Hw). rewrite Hd, Hi. tauto.
Qed.

Lemma pos_le_len_buffer (c c' : WD2797_CTX) :
  same_buffer c c' -> pos_le_len c -> pos_le_len c'.
Proof. unfold same_buffer, pos_le_len. intros (-> & -> & _). tauto. Qed.

Lemma pos_le_len_step (c c' : WD2797_CTX) :
  buffer_step c c' -> pos_le_len c -> pos_le_len c'.
Proof.
  unfold buffer_step, fresh_length, pos_le_len.
  intros (_ & [(-> & ->) | (-> & Hr & _)]) H; [assumption|lia].
Qed.

Lemma within_track_step (cap : Z) (c c' : WD2797_CTX) :
  6 <= cap -> buffer_step c c' -> disc_image c <> None ->
  within_track cap c -> within_track cap c'.
Proof.
  unfold buffer_step, same_store, fresh_length, within_track.
  intros Hcap ((Hc & Hi & Hs & Ht) & H) Himg Hinv.
  destruct (disc_image c) eqn:E; [|congruence].
  destruct (disc_image c') eqn:E'; [|exfalso; apply Himg; tauto].
  rewrite Hc, Hs, Ht. destruct Hinv as (H1 & H2 & H3 & H4 & H5).
  repeat split; try assumption.
  destruct H as [(_ & ->) | (_ & _ & Hf)]; [assumption|].
  specialize (Hf H2 H3). lia.
Qed.

Lemma within_track_kept (cap : Z) (c c' : WD2797_CTX) :
  len_kept c c' -> within_track cap c -> within_track cap c'.
Proof.
  unfold len_kept, same_store, within_track.
  intros ((Hc & Hi & Hs & Ht) & Hl) H.
  destruct (disc_image c) eqn:E, (disc_image c') eqn:E'; rewrite ?Hc, ?Hs, ?Ht, ?Hl.
  - assumption.
  - exfalso. assert (Some l = None) by tauto. discriminate.
  - exfalso. assert (Some l = None) by tauto. discriminate.
  - assumption.
Qed.

Lemma within_track_bound (cap : Z) (c : WD2797_CTX) :
  6 <= cap -> within_track cap c -> data_len c <= capacity c \/ data_len c = 7170.
Proof.
  unfold within_track. intros Hcap H. destruct (disc_image c).
  - destruct H as (-> & _ & _ & _ & H). exact H.
  - left. rewrite H. unfold capacity. destruct (data c); lia.
Qed.

(** ** The commands *)

(** The Type 1 switch moves the head and leaves the buffer alone. *)
Lemma type1_switch_buffer (cmd : Z) (c : WD2797_CTX) :
  same_buffer c (snd (type1_switch cmd c)).
Proof.
  unfold type1_switch, same_buffer. destruct c. cbv zeta.
  repeat case_if; ctx_cbn; repeat split; reflexivity.
Qed.

(** One sector read: the position and the geometry stay, the length
    grows by at most a sector, the buffer keeps its size. *)
Lemma read_sector_body_effect (i : Z) (c : WD2797_CTX) :
  let c' := read_sector_body i c in
  data_pos c' = data_pos c
  /\ disc_image c' = disc_image c
  /\ geom_secsz c' = geom_secsz c
  /\ geom_spt c' = geom_spt c
  /\ 0 <= data_len c' < 2 ^ 64
  /\ (0 <= data_len c -> data_len c' <= data_len c + Z.max 0 (geom_secsz c))
  /\ capacity c' = capacity c.
Proof.
  unfold read_sector_body. destruct c. ctx_cbn. cbv zeta. ctx_cbn.
  repeat split; try apply size_t_range.
  - intros H. destruct disc_image0 as [img|].
    + etransitivity; [apply size_t_le; lia|].
      pose proof (fread_length img
        (size_t (size_t (track0 * geom_heads0 * geom_spt0 + head0 * geom_spt0 + sector0 + i - 1)
                 * geom_secsz0)) geom_secsz0). lia.
    + simpl. etransitivity; [apply size_t_le; lia|]. lia.
  - destruct data0; ctx_cbn; [|reflexivity]. now rewrite blit_length.
Qed.

(** The loop, by induction on the number of sectors. *)
Lemma read_sector_loop_effect (n : nat) : forall (i : Z) (c : WD2797_CTX),
  let c' := read_sector_loop n i c in
  data_pos c' = data_pos c
  /\ disc_image c' = disc_image c
  /\ geom_secsz c' = geom_secsz c
  /\ geom_spt c' = geom_spt c
  /\ (0 <= data_len c < 2 ^ 64 -> 0 <= data_len c' < 2 ^ 64)
  /\ (0 <= data_len c ->
      data_len c' <= data_len c + Z.of_nat n * Z.max 0 (geom_secsz c))
  /\ capacity c' = capacity c.
Proof.
  induction n as [|n IH]; intros i c; simpl.
  - repeat split; auto; lia.
  - destruct (read_sector_body_effect i c) as (Hp & Hi & Hs & Ht & Hr & Hl & Hc).
    destruct (IH (i + 1) (read_sector_body i c)) as (Hp' & Hi' & Hs' & Ht' & Hr' & Hl' & Hc').
    split; [congruence|]. split; [congruence|]. split; [congruence|].
    split; [congruence|]. split; [intros _; apply Hr'; exact Hr|].
    split; [|congruence].
    intros H0. specialize (Hl H0). specialize (Hl' (proj1 Hr)).
    rewrite Hs in Hl'. lia.
Qed.

(** READ ADDRESS puts six bytes into the buffer. *)
Lemma read_address_step (val : Z) (c : WD2797_CTX) :
  let ctx := select_head val c in
  let ctx := set_data_len 0 ctx in
  let ctx := set_data_pos 0 ctx in
  let ctx := data_append (track ctx) ctx in
  let ctx := data_append (head ctx) ctx in
  let ctx := data_append (sector ctx) ctx in
  let ctx :=
    if geom_secsz ctx =? 128 then data_append 0 ctx
    else if geom_secsz ctx =? 256 then data_append 1 ctx
    else if geom_secsz ctx =? 512 then data_append 2 ctx
    else if geom_secsz ctx =? 1024 then data_append 3 ctx
    else data_append 0xFF ctx in
  let ctx := data_append 0 ctx in
  let ctx := data_append 0 ctx in
  let ctx := set_status 0 ctx in
  buffer_step c (status_drq ctx).
Proof.
  unfold buffer_step, same_store, fresh_length. destruct c. ctx_cbn.
  repeat (case_if; ctx_cbn).
  all: size_t_closed.
  all: (split; [split; [|split; [tauto|split; reflexivity]]|]).
  all: try (destruct data0; ctx_cbn; [rewrite !capacity_after_wr|]; reflexivity).
  all: right; split; [reflexivity|]; split; [lia|intros; lia].
Qed.

(** READ SECTOR reads one sector, READ SECTOR MULTI a track of them. *)
Lemma read_sector_step (multi : bool) (val : Z) (c : WD2797_CTX) :
  let ctx := select_head val c in
  let ctx := set_data_len 0 ctx in
  let ctx := set_data_pos 0 ctx in
  let temp := if multi then geom_spt ctx else 1 in
  let ctx := read_sector_loop (Z.to_nat temp) 0 ctx in
  let ctx := set_status 0 ctx in
  buffer_step c (status_drq ctx).
Proof.
  cbv zeta.
  set (c1 := set_data_pos 0 (set_data_len 0 (select_head val c))).
  set (n := Z.to_nat (if multi then geom_spt c1 else 1)).
  destruct (read_sector_loop_effect n 0 c1) as (Hp & Hi & Hs & Ht & Hr & Hl & Hc).
  set (c2 := read_sector_loop n 0 c1) in *.
  assert (E : data_pos c1 = 0 /\ data_len c1 = 0 /\ disc_image c1 = disc_image c
              /\ geom_secsz c1 = geom_secsz c /\ geom_spt c1 = geom_spt c
              /\ capacity c1 = capacity c).
  { subst c1. destruct c. ctx_cbn. repeat split; reflexivity. }
  destruct E as (E1 & E2 & E3 & E4 & E5 & E6).
  assert (F : data_pos (status_drq (set_status 0 c2)) = data_pos c2
              /\ data_len (status_drq (set_status 0 c2)) = data_len c2
              /\ disc_image (status_drq (set_status 0 c2)) = disc_image c2
              /\ geom_secsz (status_drq (set_status 0 c2)) = geom_secsz c2
              /\ geom_spt (status_drq (set_status 0 c2)) = geom_spt c2
              /\ capacity (status_drq (set_status 0 c2)) = capacity c2).
  { destruct c2. ctx_cbn. repeat split; reflexivity. }
  destruct F as (F1 & F2 & F3 & F4 & F5 & F6).
  unfold buffer_step, same_store, fresh_length.
  rewrite F1, F2, F3, F4, F5, F6, Hp, Hi, Hs, Ht, Hc, E1, E3, E4, E5, E6.
  split; [tauto|]. right. split; [reflexivity|].
  rewrite E2 in Hr, Hl.
  split; [apply Hr; change (2 ^ 64) with 18446744073709551616; lia|].
  intros Hsz Hspt. right. left.
  specialize (Hl ltac:(lia)). rewrite E4 in Hl.
  assert (Hn : Z.of_nat n <= geom_spt c).
  { subst n. rewrite E5. destruct multi; lia. }
  nia.
Qed.

(** The Type 2, 3 and 4 commands. *)
Lemma command_switch_step (cmd val : Z) (c : WD2797_CTX) :
  buffer_step c (command_switch cmd val c).
Proof.
  unfold command_switch.
  destruct (cmd =? CMD_READ_ADDRESS); [apply read_address_step|].
  destruct ((cmd =? CMD_READ_SECTOR) || (cmd =? CMD_READ_SECTOR_MULTI)).
  { cbv zeta. case_if.
    - destruct c. step_trivial.
    - exact (read_sector_step (cmd =? CMD_READ_SECTOR_MULTI) val c). }
  destruct (cmd =? CMD_READ_TRACK); [destruct c; step_trivial|].
  destruct ((cmd =? CMD_WRITE_SECTOR) || (cmd =? CMD_WRITE_SECTOR_MULTI)).
  { unfold buffer_step, same_store, fresh_length. destruct c. ctx_cbn. size_t_closed.
    split; [tauto|]. right. split; [reflexivity|].
    split; [apply size_t_range|]. intros Hsz Hspt. right. left.
    destruct (cmd =? CMD_WRITE_SECTOR_MULTI);
      (etransitivity; [apply size_t_le; nia | nia]). }
  destruct (cmd =? CMD_FORMAT_TRACK); [destruct c; step_trivial|].
  destruct (cmd =? CMD_FORCE_INTERRUPT).
  { destruct c. ctx_cbn. repeat (case_if; ctx_cbn); step_trivial. }
  destruct c; step_trivial.
Qed.

(** A write to the command register. *)
Lemma write_command_step (val : Z) (c : WD2797_CTX) :
  buffer_step c (write_command val c).
Proof.
  unfold write_command. cbv zeta.
  set (cmd := uint8 (Z.land val CMD_MASK)).
  destruct (disc_image (set_irq false c)) eqn:Himg; [|destruct c; step_trivial].
  pose proof (type1_switch_buffer cmd (set_irq false c)) as Hsw.
  destruct (type1_switch cmd (set_irq false c)) as [is_type1 c1]. cbv [snd] in Hsw.
  assert (H0 : same_buffer c (set_irq false c)).
  { destruct c. unfold same_buffer. ctx_cbn. repeat split; reflexivity. }
  assert (H1 : same_buffer c c1)
    by (apply same_buffer_trans with (set_irq false c); assumption).
  destruct is_type1.
  - apply buffer_step_after with c1; [assumption|].
    destruct c1. unfold type1_status. step_trivial.
  - apply buffer_step_after with (set_cmd_has_drq true c1).
    { apply same_buffer_trans with c1; [assumption|].
      destruct c1. unfold same_buffer. ctx_cbn. repeat split; reflexivity. }
    destruct (disc_image (set_cmd_has_drq true c1)).
    + case_if.
      * destruct c1; step_trivial.
      * apply command_switch_step.
    + destruct c1; step_trivial.
Qed.

(** Without an image a command touches neither position nor length. *)
Lemma write_command_not_ready (val : Z) (c : WD2797_CTX) :
  disc_image c = None ->
  data_pos (write_command val c) = data_pos c
  /\ data_len (write_command val c) = data_len c
  /\ disc_image (write_command val c) = None.
Proof.
  intros H. unfold write_command. destruct c. cbn [disc_image] in H. subst.
  ctx_cbn. repeat split; reflexivity.
Qed.

(** ** The other operations *)

(** A register read moves the position by one byte at most. *)
Lemma read_reg_step (c : WD2797_CTX) (addr : Z) :
  let c' := snd (wd2797_read_reg c addr) in
  len_kept c c' /\ (pos_le_len c -> pos_le_len c').
Proof.
  unfold wd2797_read_reg, len_kept, same_store, pos_le_len. destruct c. ctx_cbn.
  repeat (case_if; ctx_cbn); (split; [repeat split; tauto|]); try tauto.
  all: intros (H0 & H1 & H2);
    match goal with
    | H : (?p <? ?l) = true |- _ =>
      apply Z.ltb_lt in H; rewrite (next_pos p l) by assumption; lia
    end.
Qed.

(** So does a write to the data register. *)
Lemma write_data_step (c : WD2797_CTX) (val : Z) :
  let c' := write_data val c in
  len_kept c c' /\ (pos_le_len c -> pos_le_len c').
Proof.
  unfold write_data, len_kept, same_store, pos_le_len. destruct c.
  destruct formatting0, disc_image0, data0; ctx_cbn.
  all: repeat (case_if; ctx_cbn).
  all: rewrite ?capacity_after_wr.
  all: (split; [repeat split; try tauto; intros; discriminate|]).
  all: try tauto.
  all: intros (H0 & H1 & H2);
    match goal with
    | H : ((?p <? ?l) && _) = true |- _ =>
      apply andb_true_iff in H; destruct H as [H _]; apply Z.ltb_lt in H;
      rewrite (next_pos p l) by assumption; lia
    end.
Qed.

Lemma dma_miss_step (c : WD2797_CTX) :
  let c' := wd2797_dma_miss c in
  len_kept c c' /\ (pos_le_len c -> pos_le_len c').
Proof.
  unfold wd2797_dma_miss, len_kept, same_store, pos_le_len. destruct c. ctx_cbn.
  split; [repeat split; tauto|]. intros (H0 & H1 & H2).
  rewrite size_t_small by lia. lia.
Qed.

Lemma write_track_sector_buffer (c : WD2797_CTX) (addr val : Z) :
  addr <> WD2797_REG_COMMAND -> addr <> WD2797_REG_DATA ->
  same_buffer c (wd2797_write_reg c addr val).
Proof.
  intros H0 H3. unfold wd2797_write_reg.
  apply Z.eqb_neq in H0, H3. rewrite H0, H3.
  destruct c. unfold same_buffer.
  repeat (case_if; ctx_cbn); repeat split; reflexivity.
Qed.

Lemma pos_le_len_write_reg (c : WD2797_CTX) (addr val : Z) :
  pos_le_len c -> pos_le_len (wd2797_write_reg c addr val).
Proof.
  intros H.
  destruct (Z.eq_dec addr WD2797_REG_COMMAND) as [-> | H0].
  { apply pos_le_len_step with c; [apply write_command_step | assumption]. }
  destruct (Z.eq_dec addr WD2797_REG_DATA) as [-> | H3].
  { apply write_data_step. assumption. }
  apply pos_le_len_buffer with c; [|assumption].
  now apply write_track_sector_buffer.
Qed.

Lemma within_track_write_reg (cap : Z) (c : WD2797_CTX) (addr val : Z) :
  6 <= cap -> within_track cap c -> within_track cap (wd2797_write_reg c addr val).
Proof.
  intros Hcap H.
  destruct (Z.eq_dec addr WD2797_REG_COMMAND) as [-> | H0].
  { change (wd2797_write_reg c WD2797_REG_COMMAND val) with (write_command val c).
    destruct (disc_image c) eqn:E.
    - apply within_track_step with c; try assumption; [apply write_command_step|congruence].
    - destruct (write_command_not_ready val c E) as (_ & Hl & Hi).
      unfold within_track in *. rewrite E in H. rewrite Hi, Hl. assumption. }
  destruct (Z.eq_dec addr WD2797_REG_DATA) as [-> | H3].
  { apply within_track_kept with c; [apply write_data_step | assumption]. }
  apply within_track_kept with c; [|assumption].
  now apply len_kept_buffer, write_track_sector_buffer.
Qed.

Lemma reset_invariants (cap : Z) (c : WD2797_CTX) :
  pos_le_len (wd2797_reset c)
  /\ (within_track cap c -> within_track cap (wd2797_reset c)).
Proof.
  unfold wd2797_reset, pos_le_len, within_track. destruct c. ctx_cbn. size_t_closed.
  split; [lia|]. destruct disc_image0; [|reflexivity].
  intros (H1 & H2 & H3 & H4 & H5). repeat split; try assumption. lia.
Qed.

Lemma init_invariants (cap : Z) (c0 : WD2797_CTX) :
  pos_le_len (wd2797_init c0) /\ within_track cap (wd2797_init c0).
Proof.
  unfold wd2797_init, pos_le_len, within_track. destruct c0. ctx_cbn. size_t_closed.
  split; [lia | reflexivity].
Qed.

(** A load, successful or not, leaves position and length alone. *)
Lemma load_positions (c : WD2797_CTX) (fp : list Z) (secsz spt heads w : Z) (ok : bool) :
  let c' := snd (wd2797_load c fp secsz spt heads w ok) in
  data_pos c' = data_pos c /\ data_len c' = data_len c.
Proof.
  unfold wd2797_load. destruct c. destruct ok; ctx_cbn; repeat (case_if; ctx_cbn);
    split; reflexivity.
Qed.

Lemma load_within_track (cap : Z) (c : WD2797_CTX) (fp : list Z) (secsz spt heads w : Z) :
  6 <= cap -> 0 < secsz -> 0 < spt -> secsz * spt = cap ->
  within_track cap c ->
  within_track cap (snd (wd2797_load c fp secsz spt heads w true)).
Proof.
  intros Hcap Hs Ht Hm H. unfold wd2797_load. cbv zeta.
  destruct (_ <? 1); [exact H|].
  unfold within_track in *. destruct c. ctx_cbn. ctx_cbn in H.
  rewrite length_replicate, Z2Nat.id by lia.
  repeat split; try assumption.
  destruct disc_image0; [tauto | lia].
Qed.

(** ** Every operation keeps the invariants *)

Lemma pos_le_len_op (c : WD2797_CTX) (o : fdc_op) :
  pos_le_len c -> pos_le_len (fdc_step c o).
Proof.
  intros H. destruct o as [fp secsz spt heads w ok | addr | addr val | | ]; simpl.
  - destruct (load_positions c fp secsz spt heads w ok) as [Hp Hl].
    unfold pos_le_len in *. rewrite Hp, Hl. assumption.
  - apply read_reg_step. assumption.
  - apply pos_le_len_write_reg. assumption.
  - apply (reset_invariants 0).
  - apply dma_miss_step. assumption.
Qed.

Lemma within_track_op (cap : Z) (c : WD2797_CTX) (o : fdc_op) :
  6 <= cap -> load_of_capacity cap o = true ->
  within_track cap c -> within_track cap (fdc_step c o).
Proof.
  intros Hcap Ho H. destruct o as [fp secsz spt heads w ok | addr | addr val | | ]; simpl.
  - simpl in Ho. rewrite !andb_true_iff in Ho. destruct Ho as [[[-> Hs] Ht] Hm].
    apply Z.ltb_lt in Hs, Ht. apply Z.eqb_eq in Hm.
    now apply load_within_track.
  - apply within_track_kept with c; [apply read_reg_step | assumption].
  - now apply within_track_write_reg.
  - now apply reset_invariants.
  - apply within_track_kept with c; [apply dma_miss_step | assumption].
Qed.

(** By induction on the sequence of operations. *)
Lemma fdc_run_invariants (cap : Z) (ops : list fdc_op) : forall c : WD2797_CTX,
  pos_le_len c ->
  pos_le_len (fdc_run ops c)
  /\ (6 <= cap -> forallb (load_of_capacity cap) ops = true ->
      within_track cap c -> within_track cap (fdc_run ops c)).
Proof.
  induction ops as [|o ops IH]; intros c Hc; simpl.
  - tauto.
  - destruct (IH (fdc_step c o) (pos_le_len_op c o Hc)) as [IH1 IH2].
    split; [exact IH1|].
    intros Hcap Hall Hw. apply andb_true_iff in Hall. destruct Hall as [Ho Hall].
    apply IH2; try assumption. now apply within_track_op.
Qed.

(** FORMAT TRACK on a writeable image: 7170 bytes, whatever the buffer. *)
Lemma format_track_length (c : WD2797_CTX) (val : Z) :
  disc_image c <> None -> writeable c <> 0 -> Z.land val 0xF0 = 0xF0 ->
  data_pos (wd2797_write_reg c WD2797_REG_COMMAND val) = 0
  /\ data_len (wd2797_write_reg c WD2797_REG_COMMAND val) = 7170.
Proof.
  intros Hi Hw Hc. command_write Hc.
  destruct c. cbn [disc_image writeable] in Hi, Hw. ctx_cbn.
  destruct disc_image0; [|congruence]. simpl.
  unfold truthy. apply Z.eqb_neq in Hw. rewrite Hw. simpl. split; reflexivity.
Qed.

(** C7, as stated, fails.  Initialise the controller, load a writeable
    one-track image (512 bytes per sector, 10 sectors per track: a
    buffer of 5120 bytes) and write the FORMAT TRACK command 0xF0: the
    length is 7170, beyond the capacity of the buffer. *)
Lemma format_track_breaks_buffer_invariant :
  let c := fdc_run [OpLoad (blank_image 1) 512 10 2 1 true;
                    OpWriteReg WD2797_REG_COMMAND 0xF0]
                   (wd2797_init ctx_zero) in
  capacity c = 5120 /\ data_len c = 7170 /\ ~ buffer_invariant c.
Proof.
  intros c.
  assert (Hc : capacity c = 5120) by (vm_compute; reflexivity).
  assert (Hl : data_len c = 7170) by (vm_compute; reflexivity).
  split; [exact Hc|]. split; [exact Hl|].
  unfold buffer_invariant. rewrite Hc, Hl. lia.
Qed.

(** C7, amended.  In every FDC state reachable from [wd2797_init] by
    any sequence of loads, register reads and writes, resets and
    DMA-miss signals, 0 <= data_pos <= data_len.  When every load has
    positive sector size and sector count, allocates the same capacity
    sector_size * sectors_per_track >= 6 and the allocation succeeds,
    data_len <= capacity(data) or data_len = 7170; the latter is the
    length a FORMAT TRACK command on a writeable image sets, with
    data_pos = 0, whatever the capacity. *)
Theorem fdc_buffer_positions (c0 : WD2797_CTX) (ops : list fdc_op) :
  let c := fdc_run ops (wd2797_init c0) in
  (0 <= data_pos c /\ data_pos c <= data_len c)
  /\ (forall cap, 6 <= cap -> forallb (load_of_capacity cap) ops = true ->
      data_len c <= capacity c \/ data_len c = 7170)
  /\ (forall val, disc_image c <> None -> writeable c <> 0 -> Z.land val 0xF0 = 0xF0 ->
      data_pos (wd2797_write_reg c WD2797_REG_COMMAND val) = 0
      /\ data_len (wd2797_write_reg c WD2797_REG_COMMAND val) = 7170).
Proof.
  intros c. split; [|split].
  - destruct (fdc_run_invariants 0 ops (wd2797_init c0)) as [H _].
    { apply (init_invariants 0). }
    unfold pos_le_len in H. tauto.
  - intros cap Hcap Hall.
    destruct (fdc_run_invariants cap ops (wd2797_init c0)) as [_ H].
    { apply (init_invariants 0). }
    apply within_track_bound with cap; [assumption|].
    apply H; try assumption. apply init_invariants.
  - intros val. apply format_track_length.
Qed.

(** A session on a one-track image: sector register 1, READ SECTOR
    (0x88), two reads of the data register, then a DMA miss. *)
Lemma fdc_buffer_positions_witness :
  let ops := [OpLoad (blank_image 1) 512 10 2 1 true;
              OpWriteReg WD2797_REG_SECTOR 1;
              OpWriteReg WD2797_REG_COMMAND 0x88;
              OpReadReg WD2797_REG_DATA;
              OpReadReg WD2797_REG_DATA;
              OpDmaMiss] in
  let c := fdc_run ops (wd2797_init ctx_zero) in
  6 <= 5120
  /\ forallb (load_of_capacity 5120) ops = true
  /\ disc_image c <> None
  /\ writeable c <> 0
  /\ Z.land 0xF0 0xF0 = 0xF0
  /\ (0 <= data_pos c /\ data_pos c <= data_len c)
  /\ (data_len c <= capacity c \/ data_len c = 7170)
  /\ data_len (wd2797_write_reg c WD2797_REG_COMMAND 0xF0) = 7170.
Proof.
  intros ops c.
  assert (H1 : 6 <= 5120) by lia.
  assert (H2 : forallb (load_of_capacity 5120) ops = true) by reflexivity.
  assert (H3 : disc_image c <> None) by (vm_compute; discriminate).
  assert (H4 : writeable c <> 0) by (vm_compute; discriminate).
  assert (H5 : Z.land 0xF0 0xF0 = 0xF0) by reflexivity.
  destruct (fdc_buffer_positions ctx_zero ops) as (Ha & Hb & Hc).
  split; [exact H1|]. split; [exact H2|]. split; [exact H3|].
  split; [exact H4|]. split; [exact H5|]. split; [exact Ha|].
  split; [exact (Hb 5120 H1 H2)|]. exact (proj2 (Hc 0xF0 H3 H4 H5)).
Defined.

(** The states of that session. *)
Example fdc_read_sector_session :
  let c := fdc_run [OpLoad (blank_image 1) 512 10 2 1 true;
                    OpWriteReg WD2797_REG_SECTOR 1;
                    OpWriteReg WD2797_REG_COMMAND 0x88]
                   (wd2797_init ctx_zero) in
  data_pos c = 0 /\ data_len c = 512 /\ status c = 0x02 /\ wd2797_get_drq c = true
  /\ fst (wd2797_read_reg c WD2797_REG_STATUS) = 0x83.
Proof. vm_compute. repeat split; reflexivity. Qed.

(** * Further properties of the memory subsystem *)

(** ** The status update of the Address Mapper *)

Tactic Notation "state_cbn" :=
  cbn [rom base_ram base_ram_size exp_ram exp_ram_size map vram genstat bsr0 bsr1
       pie romlmap idmarw dmaen dma_reading leds dma_count dma_address fdc_ctx
       cpu_sr bus_errors timeslice_ended
       set_base_ram set_exp_ram set_map set_vram set_genstat set_bsr0 set_bsr1
       set_pie set_romlmap set_idmarw set_dmaen set_dma_reading set_leds
       set_dma_count set_dma_address set_fdc_ctx set_bus_errors
       set_timeslice_ended m68k_pulse_bus_error m68k_end_timeslice fst snd].

(** [rd] through a list update. *)
Lemma rd_insert_eq (a : list Z) (i : Z) (x : Z) :
  (Z.to_nat i < length a)%nat -> rd (<[Z.to_nat i := x]> a) i = x.
Proof. intros H. unfold rd. now rewrite list_lookup_insert_eq. Qed.

Lemma rd_insert_ne (a : list Z) (i j : Z) (x : Z) :
  Z.to_nat i <> Z.to_nat j -> rd (<[Z.to_nat i := x]> a) j = rd a j.
Proof. intros H. unfold rd. now rewrite list_lookup_insert_ne. Qed.

Lemma bytes_ok_insert (a : list Z) (i : nat) (x : Z) :
  bytes_ok a = true -> 0 <= x < 256 -> bytes_ok (<[i := x]> a) = true.
Proof.
  unfold bytes_ok. rewrite !forallb_forall. intros H Hx y Hy.
  apply list_elem_of_In in Hy. apply list_elem_of_lookup in Hy. destruct Hy as [j Hj].
  destruct (decide (i = j)) as [->|Hne].
  - destruct (decide (j < length a)%nat) as [Hlt|Hge].
    + rewrite list_lookup_insert_eq in Hj by assumption. inversion Hj; subst.
      apply byteb_spec. assumption.
    + rewrite list_insert_ge in Hj by lia. apply H, list_elem_of_In.
      eapply list_elem_of_lookup_2; eauto.
  - rewrite list_lookup_insert_ne in Hj by assumption.
    apply H, list_elem_of_In. eapply list_elem_of_lookup_2; eauto.
Qed.

(** The entry of page [q] after the status update of page [p]. *)
Lemma entry_after_update (s : state_t) (p q m : Z) :
  bytes_ok (map s) = true -> length (map s) = 2048%nat ->
  0 <= p < 1024 -> 0 <= q < 1024 -> 0 <= m < 256 ->
  let s' := set_map (<[Z.to_nat (p * 2) := Z.lor (rd (map s) (p * 2)) m]> (map s)) s in
  spec_map_entry s' q =
  if q =? p then Z.lor (spec_map_entry s q) (Z.shiftl m 8) else spec_map_entry s q.
Proof.
  intros Hb Hl Hp Hq Hm s'. subst s'. unfold spec_map_entry. destruct s. state_cbn.
  cbn [map] in Hb, Hl.
  destruct (Z.eqb_spec q p) as [->|Hne].
  - rewrite rd_insert_eq by lia. rewrite rd_insert_ne by lia.
    rewrite Z.shiftl_lor. rewrite <- !Z.lor_assoc. f_equal. apply Z.lor_comm.
  - rewrite !rd_insert_ne by lia. reflexivity.
Qed.

Lemma status_mask_facts w :
  0 <= status_mask w < 256
  /\ Z.land (Z.shiftl (status_mask w) 8) 0x3FF = 0
  /\ Z.land (Z.shiftr (Z.shiftl (status_mask w) 8) 13) 0x03 <> 0
  /\ Z.land (Z.shiftr (Z.shiftl (status_mask w) 8) 13) 0x04 = 0.
Proof. destruct w; cbv; repeat split; congruence. Qed.

(** The state [mapAddr] returns: the one given, or one map update. *)
Lemma mapAddr_snd_cases (s : state_t) (a : Z) (w : bool) :
  bytes_ok (map s) = true ->
  snd (mapAddr s a w) = s
  \/ (a < 0x400000 /\ presence_bits s a <> 0
      /\ snd (mapAddr s a w) =
         set_map (<[Z.to_nat (page_of a * 2) :=
                      Z.lor (rd (map s) (page_of a * 2)) (status_mask w)]> (map s)) s).
Proof.
  intros Hb. destruct (Z.lt_ge_cases a 0x400000) as [Hlt|Hge].
  - rewrite (mapAddr_low s a w Hb Hlt). cbv [snd].
    destruct (Z.eqb_spec (presence_bits s a) 0) as [E|E]; [left; reflexivity|].
    right. repeat split; assumption.
  - left. now rewrite mapAddr_high.
Qed.

Lemma updated_map_ok (s : state_t) (p m : Z) :
  bytes_ok (map s) = true -> length (map s) = 2048%nat -> 0 <= m < 256 ->
  let s' := set_map (<[Z.to_nat (p * 2) := Z.lor (rd (map s) (p * 2)) m]> (map s)) s in
  bytes_ok (map s') = true /\ length (map s') = 2048%nat /\ cpu_sr s' = cpu_sr s.
Proof.
  intros Hb Hl Hm s'. subst s'. destruct s. state_cbn. cbn [map] in Hb, Hl.
  split; [|split; [now rewrite length_insert | reflexivity]].
  apply bytes_ok_insert; [assumption|].
  pose proof (rd_byte map0 (p * 2) Hb).
  change 256 with (2 ^ 8). apply lor_range; change (2 ^ 8) with 256; lia.
Qed.

Lemma mapAddr_keeps_map_ok (s : state_t) (a : Z) (w : bool) :
  bytes_ok (map s) = true -> length (map s) = 2048%nat ->
  let s' := snd (mapAddr s a w) in
  bytes_ok (map s') = true /\ length (map s') = 2048%nat /\ cpu_sr s' = cpu_sr s.
Proof.
  intros Hb Hl s'. subst s'.
  destruct (mapAddr_snd_cases s a w Hb) as [-> | (_ & _ & ->)]; [tauto|].
  apply updated_map_ok; try assumption. apply status_mask_facts.
Qed.

(** The entry of page [q] after a translation of [a]. *)
Lemma entry_after_mapAddr (s : state_t) (a : Z) (w : bool) (q : Z) :
  bytes_ok (map s) = true -> length (map s) = 2048%nat -> 0 <= q < 1024 ->
  spec_map_entry (snd (mapAddr s a w)) q = spec_map_entry s q
  \/ (Z.land (Z.shiftr (spec_map_entry s q) 13) 0x03 <> 0
      /\ spec_map_entry (snd (mapAddr s a w)) q
         = Z.lor (spec_map_entry s q) (Z.shiftl (status_mask w) 8)).
Proof.
  intros Hb Hl Hq.
  destruct (mapAddr_snd_cases s a w Hb) as [-> | (Ha & Hp & ->)]; [left; reflexivity|].
  rewrite (entry_after_update s (page_of a) q (status_mask w) Hb Hl
             (page_of_range a) Hq (proj1 (status_mask_facts w))).
  destruct (Z.eqb_spec q (page_of a)) as [->|]; [right|left; reflexivity].
  split; [exact Hp | reflexivity].
Qed.

Lemma phys_page_stable e w :
  Z.land (Z.lor e (Z.shiftl (status_mask w) 8)) 0x3FF = Z.land e 0x3FF.
Proof.
  rewrite Z.land_lor_distr_l.
  destruct (status_mask_facts w) as (_ & -> & _). apply Z.lor_0_r.
Qed.

(** A translation is not changed by the status update of an earlier
    translation. *)
Lemma translation_after_mapAddr (s : state_t) (a a' : Z) (w w' : bool) :
  bytes_ok (map s) = true -> length (map s) = 2048%nat ->
  fst (mapAddr (snd (mapAddr s a w)) a' w') = fst (mapAddr s a' w').
Proof.
  intros Hb Hl.
  destruct (mapAddr_keeps_map_ok s a w Hb Hl) as (Hb' & Hl' & _).
  destruct (Z.lt_ge_cases a' 0x400000) as [Hlt|Hge].
  - rewrite (mapAddr_low (snd (mapAddr s a w)) a' w' Hb' Hlt), (mapAddr_low s a' w' Hb Hlt).
    cbv [fst].
    destruct (entry_after_mapAddr s a w (page_of a') Hb Hl (page_of_range a'))
      as [-> | (_ & ->)]; [reflexivity|].
    now rewrite phys_page_stable.
  - now rewrite (mapAddr_high _ a' w' Hge), (mapAddr_high s a' w' Hge).
Qed.

Lemma pagebits_after e w :
  Z.land (Z.shiftr e 13) 0x03 <> 0 ->
  let e' := Z.lor e (Z.shiftl (status_mask w) 8) in
  Z.land (Z.land (Z.shiftr e' 13) 0x07) 0x03 <> 0
  /\ Z.land (Z.land (Z.shiftr e 13) 0x07) 0x03 <> 0
  /\ Z.land (Z.land (Z.shiftr e' 13) 0x07) 0x04 = Z.land (Z.land (Z.shiftr e 13) 0x07) 0x04.
Proof.
  intros H e'. subst e'. rewrite !land_land_mask.
  change (Z.land 7 3) with 3. change (Z.land 7 4) with 4.
  rewrite Z.shiftr_lor, !Z.land_lor_distr_l.
  destruct (status_mask_facts w) as (_ & _ & Hn & ->).
  rewrite Z.lor_0_r. repeat split; try assumption.
  intros E. apply Z.lor_eq_0_iff in E. tauto.
Qed.

(** X1.  The page status update that [mapAddr] makes for one access
    changes neither the physical address computed for any later access
    nor the verdict of [checkMemoryAccess] for it, whatever the two
    addresses and directions: the update only sets status bits of an
    entry whose presence bits are nonzero already, and leaves the
    physical page and the write-enable bit alone. *)
Theorem mapAddr_status_transparent (s : state_t) (a a' : Z) (w w' : bool) :
  bytes_ok (map s) = true -> length (map s) = 2048%nat ->
  fst (mapAddr (snd (mapAddr s a w)) a' w') = fst (mapAddr s a' w')
  /\ checkMemoryAccess (snd (mapAddr s a w)) a' w' = checkMemoryAccess s a' w'.
Proof.
  intros Hb Hl. split; [now apply translation_after_mapAddr|].
  destruct (mapAddr_keeps_map_ok s a w Hb Hl) as (Hb' & Hl' & Hsr).
  rewrite !checkMemoryAccess_refines by assumption.
  unfold spec_access_checker, supervisor. rewrite Hsr.
  destruct (Z.testbit (cpu_sr s) 13); [reflexivity|].
  destruct (0x400000 <=? a'); [reflexivity|].
  fold (page_of a'). cbv zeta.
  destruct (entry_after_mapAddr s a w (page_of a') Hb Hl (page_of_range a'))
    as [-> | (Hp & ->)]; [reflexivity|].
  destruct (pagebits_after (spec_map_entry s (page_of a')) w Hp) as (H1 & H2 & H3).
  apply Z.eqb_neq in H1, H2. rewrite H1, H2, H3. reflexivity.
Qed.

(** A user-mode machine whose page 1 is present and write enabled:
    the update made by a write to page 1 changes neither the
    translation nor the verdict of a later access to the page. *)
Lemma mapAddr_status_transparent_witness :
  let s := machine 0 (map_with 1 0xE002) 0 in
  bytes_ok (map s) = true
  /\ length (map s) = 2048%nat
  /\ fst (mapAddr (snd (mapAddr s 0x1010 true)) 0x1FFF false) = fst (mapAddr s 0x1FFF false)
  /\ checkMemoryAccess (snd (mapAddr s 0x1010 true)) 0x1FFF false
     = checkMemoryAccess s 0x1FFF false.
Proof.
  intros s.
  assert (H1 : bytes_ok (map s) = true) by reflexivity.
  assert (H2 : length (map s) = 2048%nat) by reflexivity.
  split; [exact H1|]. split; [exact H2|].
  exact (mapAddr_status_transparent s 0x1010 0x1FFF true false H1 H2).
Defined.

Lemma set_map_set_map (x y : list Z) (s : state_t) : set_map x (set_map y s) = set_map x s.
Proof. destruct s. reflexivity. Qed.

Lemma status_mask_absorb (w w' : bool) :
  implb w' w = true -> Z.lor (status_mask w) (status_mask w') = status_mask w.
Proof. destruct w, w'; simpl; intros H; try discriminate; reflexivity. Qed.

(** X2.  Translating the same address a second time, for a read or for
    the same direction as the first time, changes the map RAM no
    further: the state after the two translations is the state after
    the first. *)
Theorem mapAddr_status_absorbed (s : state_t) (a : Z) (w w' : bool) :
  bytes_ok (map s) = true -> length (map s) = 2048%nat ->
  implb w' w = true ->
  snd (mapAddr (snd (mapAddr s a w)) a w') = snd (mapAddr s a w).
Proof.
  intros Hb Hl Hw.
  destruct (Z.lt_ge_cases a 0x400000) as [Ha|Hge];
    [|now rewrite !(mapAddr_high _ a _ Hge)].
  rewrite (mapAddr_low s a w Hb Ha). cbv [snd].
  destruct (Z.eqb_spec (presence_bits s a) 0) as [E0|Hp].
  - rewrite (mapAddr_low s a w' Hb Ha). cbv [snd].
    apply Z.eqb_eq in E0. now rewrite E0.
  - fold (status_mask w). set (s1 := set_map _ s).
    destruct (updated_map_ok s (page_of a) (status_mask w) Hb Hl
                ltac:(apply status_mask_facts)) as (Hb1 & Hl1 & _).
    fold s1 in Hb1, Hl1.
    rewrite (mapAddr_low s1 a w' Hb1 Ha). cbv [snd].
    assert (Hp1 : presence_bits s1 a <> 0).
    { unfold presence_bits. subst s1.
      rewrite (entry_after_update s (page_of a) (page_of a) (status_mask w) Hb Hl
                 (page_of_range a) (page_of_range a) (proj1 (status_mask_facts w))).
      rewrite Z.eqb_refl, Z.shiftr_lor, Z.land_lor_distr_l.
      intros E0. apply Z.lor_eq_0_iff in E0. apply Hp, E0. }
    apply Z.eqb_neq in Hp1. rewrite Hp1.
    subst s1. rewrite set_map_set_map. f_equal.
    destruct s; state_cbn. cbn [map] in Hl.
    assert (Hi : (Z.to_nat (page_of a * 2) < length map0)%nat).
    { pose proof (page_of_range a). lia. }
    rewrite rd_insert_eq by assumption.
    rewrite list_insert_insert_eq. fold (status_mask w').
    now rewrite <- Z.lor_assoc, status_mask_absorb.
Qed.

(** The same machine: a read after a write of page 1 leaves the map
    RAM as the write left it. *)
Lemma mapAddr_status_absorbed_witness :
  let s := machine 0 (map_with 1 0xE002) 0 in
  bytes_ok (map s) = true
  /\ length (map s) = 2048%nat
  /\ implb false true = true
  /\ snd (mapAddr (snd (mapAddr s 0x1010 true)) 0x1010 false) = snd (mapAddr s 0x1010 true).
Proof.
  intros s.
  assert (H1 : bytes_ok (map s) = true) by reflexivity.
  assert (H2 : length (map s) = 2048%nat) by reflexivity.
  assert (H3 : implb false true = true) by reflexivity.
  split; [exact H1|]. split; [exact H2|]. split; [exact H3|].
  exact (mapAddr_status_absorbed s 0x1010 true false H1 H2 H3).
Defined.

(** ** Bus accesses that end in the I/O register file *)

Lemma bus_dispatch_io {A : Type} (a : Z) (rom ram mapram vramv io : A) :
  is_io a ->
  (if (0x800000 <=? a) && (a <=? 0xBFFFFF) then rom
   else if a <=? 0x3FFFFF then ram
   else if (0x400000 <=? a) && (a <=? 0x7FFFFF) then
     if Z.land a 0x0F0000 =? 0x000000 then mapram
     else if Z.land a 0x0F0000 =? 0x020000 then vramv
     else io
   else io) = io.
Proof.
  intros [H | (H & H1 & H2)].
  - replace ((0x800000 <=? a) && (a <=? 0xBFFFFF)) with false
      by (symmetry; apply andb_false_iff; right; apply Z.leb_gt; lia).
    replace (a <=? 0x3FFFFF) with false by (symmetry; apply Z.leb_gt; lia).
    replace ((0x400000 <=? a) && (a <=? 0x7FFFFF)) with false
      by (symmetry; apply andb_false_iff; right; apply Z.leb_gt; lia).
    reflexivity.
  - replace ((0x800000 <=? a) && (a <=? 0xBFFFFF)) with false
      by (symmetry; apply andb_false_iff; left; apply Z.leb_gt; lia).
    replace (a <=? 0x3FFFFF) with false by (symmetry; apply Z.leb_gt; lia).
    rewrite (zoneA_true a H).
    apply Z.eqb_neq in H1, H2. rewrite H1, H2. reflexivity.
Qed.

Section SupervisorIo.
Variables (ROM_SIZE : Z) (s : state_t) (A : Z).
Hypothesis Hsup : supervisor s = true.
Hypothesis Hio : is_io (rom_overlay s A).

Ltac sup_access :=
  unfold ACCESS_CHECK_WR, ACCESS_CHECK_RD;
  rewrite supervisor_allowed by assumption; cbv beta iota zeta.

Lemma write8_io v : m68k_write_memory_8 s A v = IoWrite s (rom_overlay s A) v 8.
Proof.
  unfold m68k_write_memory_8. cbv zeta. sup_access.
  now rewrite (bus_dispatch_io (rom_overlay s A)).
Qed.

Lemma write16_io v : m68k_write_memory_16 s A v = IoWrite s (rom_overlay s A) v 16.
Proof.
  unfold m68k_write_memory_16. cbv zeta. sup_access.
  now rewrite (bus_dispatch_io (rom_overlay s A)).
Qed.

Lemma write32_io v : m68k_write_memory_32 s A v = IoWrite s (rom_overlay s A) v 32.
Proof.
  unfold m68k_write_memory_32. cbv zeta. sup_access.
  now rewrite (bus_dispatch_io (rom_overlay s A)).
Qed.

Lemma read8_io :
  m68k_read_memory_8 ROM_SIZE s A =
  (uint8 (fst (IoRead s (rom_overlay s A) 8)), snd (IoRead s (rom_overlay s A) 8)).
Proof.
  unfold m68k_read_memory_8. cbv zeta. sup_access.
  rewrite (bus_dispatch_io (rom_overlay s A)) by assumption.
  now destruct (IoRead s (rom_overlay s A) 8).
Qed.

Lemma read16_io :
  m68k_read_memory_16 ROM_SIZE s A =
  (uint16 (fst (IoRead s (rom_overlay s A) 16)), snd (IoRead s (rom_overlay s A) 16)).
Proof.
  unfold m68k_read_memory_16. cbv zeta. sup_access.
  rewrite (bus_dispatch_io (rom_overlay s A)) by assumption.
  now destruct (IoRead s (rom_overlay s A) 16).
Qed.

Lemma read32_io :
  m68k_read_memory_32 ROM_SIZE s A = IoRead s (rom_overlay s A) 32.
Proof.
  unfold m68k_read_memory_32. cbv zeta. sup_access.
  now rewrite (bus_dispatch_io (rom_overlay s A)).
Qed.
End SupervisorIo.

(** ** The register addresses *)

Lemma zoneA_is_io sel a : zoneA_reg sel a -> sel <> 0 -> sel <> 0x020000 -> is_io a.
Proof. intros [H <-] H1 H2. right. tauto. Qed.

Lemma zoneB_true a : 0xC00000 <= a <= 0xFFFFFF ->
  (0x400000 <=? a) && (a <=? 0x7FFFFF) = false /\ (0xC00000 <=? a) && (a <=? 0xFFFFFF) = true.
Proof.
  intros H. split.
  - apply andb_false_iff. right. apply Z.leb_gt. lia.
  - apply andb_true_iff. rewrite !Z.leb_le. lia.
Qed.

Lemma zoneEF_true a :
  Z.land a 0xF00000 = 0xE00000 \/ Z.land a 0xF00000 = 0xF00000 ->
  (Z.land a 0xF00000 =? 0xC00000) || (Z.land a 0xF00000 =? 0xD00000) = false
  /\ (Z.land a 0xF00000 =? 0xE00000) || (Z.land a 0xF00000 =? 0xF00000) = true.
Proof. intros [-> | ->]; split; reflexivity. Qed.

(** Bit 23 is already set. *)
Lemma lor_bit23 a : 0x800000 <= a < 0x1000000 -> Z.lor a 0x800000 = a.
Proof.
  intros H. assert (Hb : Z.testbit a 23 = true).
  { apply Z.testbit_true; [lia|]. change (2 ^ 23) with 0x800000.
    replace (a / 0x800000) with 1; [reflexivity|].
    apply Z.div_unique with (a - 0x800000); lia. }
  apply Z.bits_inj'. intros i Hi. rewrite Z.lor_spec.
  change 0x800000 with (2 ^ 23). rewrite Z.pow2_bits_eqb by lia.
  destruct (Z.eqb_spec 23 i) as [<-|]; [now rewrite Hb | apply orb_false_r].
Qed.

Lemma rom_overlay_high s a : 0x800000 <= a < 0x1000000 -> rom_overlay s a = a.
Proof. intros H. unfold rom_overlay. destruct (romlmap s); simpl; [reflexivity|now apply lor_bit23]. Qed.

Lemma rom_overlay_set s a : romlmap s = true -> rom_overlay s a = a.
Proof. intros H. unfold rom_overlay. now rewrite H. Qed.

(** [IoWrite] and [IoRead] at the status registers. *)
Lemma IoWrite_CLRSTAT s a d b : zoneA_reg 0x0C0000 a ->
  IoWrite s a d b = set_bsr1 0xFFFF (set_bsr0 0xFFFF (set_genstat 0xFFFF s)).
Proof. intros [Hz Hsel]. unfold IoWrite. rewrite (zoneA_true a Hz), Hsel. reflexivity. Qed.

Lemma IoWrite_GENSTAT s a d b : zoneA_reg 0x010000 a ->
  IoWrite s a d b =
  if b =? 16 then set_genstat (Z.land d 0xffff) s
  else if b =? 8 then set_genstat (Z.shiftl d 8) s else s.
Proof.
  intros [Hz Hsel]. unfold IoWrite. rewrite (zoneA_true a Hz), Hsel, Z.land_0_r.
  reflexivity.
Qed.

Lemma IoRead_zoneA_status s a b :
  0x400000 <= a <= 0x7FFFFF ->
  IoRead s a b =
  (if Z.land a 0x0F0000 =? 0x010000 then uint32 (Z.shiftl (genstat s) 16 + genstat s)
   else if Z.land a 0x0F0000 =? 0x030000 then uint32 (Z.shiftl (bsr0 s) 16 + bsr0 s)
   else if Z.land a 0x0F0000 =? 0x040000 then uint32 (Z.shiftl (bsr1 s) 16 + bsr1 s)
   else if Z.land a 0x0F0000 =? 0x060000 then Z.lor (Z.land (dma_count s) 0x3fff) 0xC000
   else if Z.land a 0x0F0000 =? 0x070000 then
     Z.lor 0x00120012 (if irql (fdc_ctx s) then 0x00080008 else 0)
   else 0xFFFFFFFF, s).
Proof.
  intros Hz. unfold IoRead. rewrite (zoneA_true a Hz). cbv zeta.
  repeat (destruct (_ =? _); [reflexivity|]). reflexivity.
Qed.

(** A 16-bit register duplicated in both halves, truncated to 16 bits. *)
Lemma dup16_low g : 0 <= g < 2 ^ 16 -> uint16 (uint32 (Z.shiftl g 16 + g)) = g.
Proof.
  intros H. change (2 ^ 16) with 65536 in H.
  rewrite Z.shiftl_mul_pow2 by lia. change (2 ^ 16) with 65536.
  rewrite uint32_small by (change (2 ^ 32) with 4294967296; lia).
  unfold uint16. change (2 ^ 16) with 65536.
  rewrite Z.add_comm, Z.mod_add by lia. apply Z.mod_small. lia.
Qed.

Lemma uint16_range x : 0 <= uint16 x < 2 ^ 16.
Proof. unfold uint16. apply Z.mod_pos_bound. lia. Qed.

Lemma uint16_idem x : uint16 (uint16 x) = uint16 x.
Proof. apply uint16_small, uint16_range. Qed.

(** ** The status registers *)

Lemma bus_write_io s A v s' :
  supervisor s = true -> is_io (rom_overlay s A) -> bus_write s A v s' ->
  exists bits, s' = IoWrite s (rom_overlay s A) v bits.
Proof.
  intros Hs Hio [-> | [-> | ->]].
  - exists 8. now apply write8_io.
  - exists 16. now apply write16_io.
  - exists 32. now apply write32_io.
Qed.

Lemma read16_zoneA ROM_SIZE s a :
  supervisor s = true -> romlmap s = true ->
  0x400000 <= a <= 0x7FFFFF ->
  Z.land a 0x0F0000 <> 0 -> Z.land a 0x0F0000 <> 0x020000 ->
  m68k_read_memory_16 ROM_SIZE s a = (uint16 (fst (IoRead s a 16)), s)
  /\ m68k_read_memory_32 ROM_SIZE s a = (fst (IoRead s a 32), s).
Proof.
  intros Hs Hr Hz H1 H2.
  assert (Hio : is_io (rom_overlay s a)) by (rewrite rom_overlay_set by assumption; right; tauto).
  rewrite read16_io, read32_io by assumption.
  rewrite rom_overlay_set by assumption.
  rewrite !IoRead_zoneA_status by assumption. split; reflexivity.
Qed.

(** X3.  In supervisor mode with ROMLMAP set, a bus write of any width
    and any value to the clear-status register (zone A, register select
    0x0C) sets GENSTAT, BSR0 and BSR1 to 0xFFFF; each of the three
    registers then reads 0xFFFF at 16 bits and 0xFFFFFFFF at 32 bits. *)
Theorem clear_status_register (ROM_SIZE : Z) (s s' : state_t) (ac v : Z) :
  supervisor s = true -> romlmap s = true ->
  zoneA_reg 0x0C0000 ac ->
  bus_write s ac v s' ->
  genstat s' = 0xFFFF /\ bsr0 s' = 0xFFFF /\ bsr1 s' = 0xFFFF
  /\ (forall sel ar, sel = 0x010000 \/ sel = 0x030000 \/ sel = 0x040000 ->
        zoneA_reg sel ar ->
        fst (m68k_read_memory_16 ROM_SIZE s' ar) = 0xFFFF
        /\ fst (m68k_read_memory_32 ROM_SIZE s' ar) = 0xFFFFFFFF).
Proof.
  intros Hs Hr Hc Hw.
  assert (Hio : is_io (rom_overlay s ac)).
  { rewrite rom_overlay_set by assumption.
    apply (zoneA_is_io 0x0C0000); [assumption | lia | lia]. }
  destruct (bus_write_io s ac v s' Hs Hio Hw) as [bits ->].
  rewrite rom_overlay_set by assumption.
  rewrite (IoWrite_CLRSTAT s ac v bits Hc).
  set (s1 := set_bsr1 _ _).
  assert (Hs1 : supervisor s1 = true) by (destruct s; exact Hs).
  assert (Hr1 : romlmap s1 = true) by (destruct s; exact Hr).
  split; [destruct s; reflexivity|]. split; [destruct s; reflexivity|].
  split; [destruct s; reflexivity|].
  intros sel ar Hsel [Hz Ha].
  destruct (read16_zoneA ROM_SIZE s1 ar Hs1 Hr1 Hz) as [-> ->]; try (rewrite Ha; lia).
  rewrite !IoRead_zoneA_status by assumption. rewrite Ha. cbv [fst].
  destruct Hsel as [-> | [-> | ->]]; destruct s; split; reflexivity.
Qed.

(** A 16-bit write to 0x4C0000 in supervisor mode. *)
Lemma clear_status_register_witness :
  let s := set_genstat 0x1234 (machine 0x2000 map_empty 0) in
  let s' := m68k_write_memory_16 s 0x4C0000 0 in
  supervisor s = true
  /\ romlmap s = true
  /\ zoneA_reg 0x0C0000 0x4C0000
  /\ bus_write s 0x4C0000 0 s'
  /\ genstat s' = 0xFFFF /\ bsr0 s' = 0xFFFF /\ bsr1 s' = 0xFFFF
  /\ fst (m68k_read_memory_16 0x8000 s' 0x410000) = 0xFFFF.
Proof.
  intros s s'.
  assert (H1 : supervisor s = true) by reflexivity.
  assert (H2 : romlmap s = true) by reflexivity.
  assert (H3 : zoneA_reg 0x0C0000 0x4C0000) by (split; [lia | reflexivity]).
  assert (H4 : bus_write s 0x4C0000 0 s') by (right; left; reflexivity).
  assert (H5 : zoneA_reg 0x010000 0x410000) by (split; [lia | reflexivity]).
  destruct (clear_status_register 0x8000 s s' 0x4C0000 0 H1 H2 H3 H4) as (Ha & Hb & Hc & Hd).
  destruct (Hd 0x010000 0x410000 (or_introl eq_refl) H5) as [He _].
  repeat (split; [assumption|]). exact He.
Defined.

Lemma IoWrite_keeps_mode_zoneA s a d b :
  0x400000 <= a <= 0x7FFFFF ->
  cpu_sr (IoWrite s a d b) = cpu_sr s /\ romlmap (IoWrite s a d b) = romlmap s.
Proof.
  intros Hz. unfold IoWrite. rewrite (zoneA_true a Hz). cbv zeta.
  rewrite mapAddr_high by lia.
  destruct s; state_cbn. repeat (case_if; state_cbn); split; reflexivity.
Qed.

(** X4.  The general status register in supervisor mode with ROMLMAP
    set: a 16-bit write stores the low 16 bits of the value, which a
    16-bit read returns and a 32-bit read returns in both halves; an
    8-bit write stores the byte in the high half at every address (the
    test [address & 0] of the source never holds); a 32-bit write
    leaves the register as it was. *)
Theorem genstat_write_read (ROM_SIZE : Z) (s : state_t) (aw ar v : Z) :
  supervisor s = true -> romlmap s = true ->
  zoneA_reg 0x010000 aw -> zoneA_reg 0x010000 ar ->
  fst (m68k_read_memory_16 ROM_SIZE (m68k_write_memory_16 s aw v) ar) = Z.land v 0xFFFF
  /\ fst (m68k_read_memory_32 ROM_SIZE (m68k_write_memory_16 s aw v) ar)
     = Z.shiftl (Z.land v 0xFFFF) 16 + Z.land v 0xFFFF
  /\ fst (m68k_read_memory_16 ROM_SIZE (m68k_write_memory_8 s aw v) ar)
     = Z.land (Z.shiftl v 8) 0xFFFF
  /\ genstat (m68k_write_memory_32 s aw v) = genstat s.
Proof.
  intros Hs Hr Hw Ha.
  assert (Hio : is_io (rom_overlay s aw)).
  { rewrite rom_overlay_set by assumption.
    apply (zoneA_is_io 0x010000); [assumption | lia | lia]. }
  rewrite write16_io, write8_io, write32_io by assumption.
  rewrite rom_overlay_set by assumption.
  rewrite !(IoWrite_GENSTAT s aw v _ Hw).
  change (16 =? 16) with true. change (8 =? 16) with false. change (8 =? 8) with true.
  change (32 =? 16) with false. change (32 =? 8) with false. cbv iota.
  destruct Ha as [Hz Hsel].
  assert (Hrd : forall g, m68k_read_memory_16 ROM_SIZE (set_genstat g s) ar
                          = (uint16 g, set_genstat g s)
                       /\ m68k_read_memory_32 ROM_SIZE (set_genstat g s) ar
                          = (Z.shiftl (uint16 g) 16 + uint16 g, set_genstat g s)).
  { intros g.
    destruct (read16_zoneA ROM_SIZE (set_genstat g s) ar) as [-> ->];
      try assumption; try (rewrite Hsel; lia); try (destruct s; assumption).
    rewrite !IoRead_zoneA_status by assumption. rewrite Hsel. cbv [fst].
    change (0x010000 =? 0x010000) with true. cbv iota.
    replace (genstat (set_genstat g s)) with (uint16 g) by (destruct s; reflexivity).
    pose proof (uint16_range g) as Hg. change (2 ^ 16) with 65536 in Hg.
    split; f_equal.
    - apply dup16_low. change (2 ^ 16) with 65536. lia.
    - apply uint32_small. rewrite Z.shiftl_mul_pow2 by lia.
      change (2 ^ 16) with 65536. change (2 ^ 32) with 4294967296. lia. }
  destruct (Hrd (Z.land v 0xffff)) as [-> ->].
  destruct (Hrd (Z.shiftl v 8)) as [-> _]. cbv [fst].
  rewrite (uint16_small (Z.land v 0xffff)).
  2:{ change 0xffff with (Z.ones 16). apply land_ones_range. lia. }
  rewrite uint16_land. repeat split; reflexivity.
Qed.

(** The general status register at 0x410000, written with 0x1234. *)
Lemma genstat_write_read_witness :
  let s := machine 0x2000 map_empty 0 in
  supervisor s = true
  /\ romlmap s = true
  /\ zoneA_reg 0x010000 0x410000
  /\ fst (m68k_read_memory_16 0x8000 (m68k_write_memory_16 s 0x410000 0x1234) 0x410000)
     = Z.land 0x1234 0xFFFF
  /\ fst (m68k_read_memory_16 0x8000 (m68k_write_memory_8 s 0x410000 0x12) 0x410000)
     = Z.land (Z.shiftl 0x12 8) 0xFFFF
  /\ genstat (m68k_write_memory_32 s 0x410000 0x1234) = genstat s.
Proof.
  intros s.
  assert (H1 : supervisor s = true) by reflexivity.
  assert (H2 : romlmap s = true) by reflexivity.
  assert (H3 : zoneA_reg 0x010000 0x410000) by (split; [lia | reflexivity]).
  split; [exact H1|]. split; [exact H2|]. split; [exact H3|].
  split; [exact (proj1 (genstat_write_read 0x8000 s 0x410000 0x410000 0x1234 H1 H2 H3 H3))|].
  split; [exact (proj1 (proj2 (proj2
            (genstat_write_read 0x8000 s 0x410000 0x410000 0x12 H1 H2 H3 H3))))|].
  exact (proj2 (proj2 (proj2 (genstat_write_read 0x8000 s 0x410000 0x410000 0x1234 H1 H2 H3 H3)))).
Defined.

(** X5.  BSR0 and BSR1 are read-only: in supervisor mode with ROMLMAP
    set, a bus write of any width to either leaves the whole machine
    state unchanged, and a 16-bit read returns the register (a 16-bit
    value) and changes nothing. *)
Theorem bus_status_registers_read_only (ROM_SIZE : Z) (s s' : state_t) (a v : Z) :
  supervisor s = true -> romlmap s = true ->
  zoneA_reg 0x030000 a \/ zoneA_reg 0x040000 a ->
  bus_write s a v s' ->
  0 <= bsr0 s < 2 ^ 16 -> 0 <= bsr1 s < 2 ^ 16 ->
  s' = s
  /\ fst (m68k_read_memory_16 ROM_SIZE s a)
     = (if Z.land a 0x0F0000 =? 0x030000 then bsr0 s else bsr1 s)
  /\ snd (m68k_read_memory_16 ROM_SIZE s a) = s.
Proof.
  intros Hs Hr Ha Hw H0 H1.
  assert (Hz : 0x400000 <= a <= 0x7FFFFF) by (destruct Ha as [[? _]|[? _]]; assumption).
  assert (Hsel : Z.land a 0x0F0000 = 0x030000 \/ Z.land a 0x0F0000 = 0x040000)
    by (destruct Ha as [[_ ?]|[_ ?]]; tauto).
  assert (Hio : is_io (rom_overlay s a)).
  { rewrite rom_overlay_set by assumption. right. split; [assumption|]. lia. }
  split.
  - destruct (bus_write_io s a v s' Hs Hio Hw) as [bits ->].
    rewrite rom_overlay_set by assumption.
    unfold IoWrite. rewrite (zoneA_true a Hz).
    destruct Hsel as [-> | ->]; reflexivity.
  - destruct (read16_zoneA ROM_SIZE s a Hs Hr Hz) as [-> _]; try lia.
    rewrite IoRead_zoneA_status by assumption. cbv [fst snd]. split; [|reflexivity].
    destruct Hsel as [-> | ->]; cbv iota; simpl; now apply dup16_low.
Qed.

(** A write to BSR0 at 0x430000. *)
Lemma bus_status_registers_read_only_witness :
  let s := set_bsr0 0x7C40 (machine 0x2000 map_empty 0) in
  let s' := m68k_write_memory_16 s 0x430000 0 in
  supervisor s = true
  /\ romlmap s = true
  /\ zoneA_reg 0x030000 0x430000
  /\ bus_write s 0x430000 0 s'
  /\ 0 <= bsr0 s < 2 ^ 16
  /\ 0 <= bsr1 s < 2 ^ 16
  /\ s' = s
  /\ fst (m68k_read_memory_16 0x8000 s 0x430000)
     = (if Z.land 0x430000 0x0F0000 =? 0x030000 then bsr0 s else bsr1 s).
Proof.
  intros s s'.
  assert (H1 : supervisor s = true) by reflexivity.
  assert (H2 : romlmap s = true) by reflexivity.
  assert (H3 : zoneA_reg 0x030000 0x430000) by (split; [lia | reflexivity]).
  assert (H4 : bus_write s 0x430000 0 s') by (right; left; reflexivity).
  assert (H5 : 0 <= bsr0 s < 2 ^ 16) by (split; [lazy; discriminate | reflexivity]).
  assert (H6 : 0 <= bsr1 s < 2 ^ 16) by (split; [lazy; discriminate | reflexivity]).
  destruct (bus_status_registers_read_only 0x8000 s s' 0x430000 0 H1 H2 (or_introl H3) H4 H5 H6)
    as (Ha & Hb & _).
  repeat (split; [assumption|]). exact Hb.
Defined.

(** ** The DMA address, control and disk control registers *)

(** Evaluates [Z.land], [Z.shiftl] and [Z.shiftr] on literals. *)
Ltac mask_closed :=
  repeat match goal with
         | |- context [Z.land (Zpos ?p) (Zpos ?q)] =>
           let v := eval cbv in (Z.land (Zpos p) (Zpos q)) in
           change (Z.land (Zpos p) (Zpos q)) with v
         | |- context [Z.shiftr (Zpos ?p) (Zpos ?q)] =>
           let v := eval cbv in (Z.shiftr (Zpos p) (Zpos q)) in
           change (Z.shiftr (Zpos p) (Zpos q)) with v
         | |- context [Z.shiftl (Zpos ?p) (Zpos ?q)] =>
           let v := eval cbv in (Z.shiftl (Zpos p) (Zpos q)) in
           change (Z.shiftl (Zpos p) (Zpos q)) with v
         end.

(** Normal form of masks: an or of variables and-ed with one literal. *)
Ltac mask_norm :=
  rewrite ?uint32_land, ?uint16_land, ?uint8_land;
  repeat (rewrite ?Z.shiftl_land, ?Z.shiftr_land, ?Z.land_lor_distr_l, ?land_land_mask;
          mask_closed);
  rewrite ?Z.land_0_r, ?Z.lor_0_l, ?Z.lor_0_r.

Lemma IoWrite_DMAADDR s a d b : zoneA_reg 0x0D0000 a ->
  IoWrite s a d b =
  if Z.testbit a 14
  then set_dma_address (Z.lor (Z.land (dma_address s) 0x1fe) (dma_high a)) s
  else set_dma_address (Z.lor (Z.land (dma_address s) 0x3ffe00) (dma_low a)) s.
Proof.
  intros [Hz Hsel]. unfold IoWrite. rewrite (zoneA_true a Hz), Hsel.
  change (851968 =? 65536) with false. change (851968 =? 393216) with false.
  change (851968 =? 655360) with false. change (851968 =? 786432) with false.
  change (851968 =? 851968) with true. cbv iota zeta.
  change 0x004000 with (2 ^ 14). rewrite truthy_land_bit by lia. reflexivity.
Qed.

(** X6.  The DMA address register is loaded from the address lines:
    a write with A14 set supplies [dma_high] of the address, one with
    A14 clear supplies [dma_low]; after one write of each kind, in
    either order, the register holds the two parts, whatever it held
    before, and neither the data written nor the width plays a part. *)
Theorem dma_address_halves (s : state_t) (ah al d d' b b' : Z) :
  zoneA_reg 0x0D0000 ah -> zoneA_reg 0x0D0000 al ->
  Z.testbit ah 14 = true -> Z.testbit al 14 = false ->
  dma_address (IoWrite (IoWrite s ah d b) al d' b') = Z.lor (dma_high ah) (dma_low al)
  /\ dma_address (IoWrite (IoWrite s al d b) ah d' b') = Z.lor (dma_low al) (dma_high ah)
  /\ IoWrite s ah d b = IoWrite s ah d' b'.
Proof.
  intros Hh Hl Bh Bl.
  rewrite !(IoWrite_DMAADDR _ ah) by assumption.
  rewrite !(IoWrite_DMAADDR _ al) by assumption. rewrite Bh, Bl.
  split; [|split; [|reflexivity]].
  - destruct s; state_cbn. unfold dma_high, dma_low. mask_norm. reflexivity.
  - destruct s; state_cbn. unfold dma_high, dma_low. mask_norm. reflexivity.
Qed.

(** The two halves written through 0x4D5234 (A14 set) and 0x4D01FE. *)
Lemma dma_address_halves_witness :
  let s := machine 0x2000 map_empty 0 in
  zoneA_reg 0x0D0000 0x4D5234
  /\ zoneA_reg 0x0D0000 0x4D01FE
  /\ Z.testbit 0x4D5234 14 = true
  /\ Z.testbit 0x4D01FE 14 = false
  /\ dma_address (IoWrite (IoWrite s 0x4D5234 0 16) 0x4D01FE 0 16)
     = Z.lor (dma_high 0x4D5234) (dma_low 0x4D01FE).
Proof.
  intros s.
  assert (H1 : zoneA_reg 0x0D0000 0x4D5234) by (split; [lia | reflexivity]).
  assert (H2 : zoneA_reg 0x0D0000 0x4D01FE) by (split; [lia | reflexivity]).
  assert (H3 : Z.testbit 0x4D5234 14 = true) by reflexivity.
  assert (H4 : Z.testbit 0x4D01FE 14 = false) by reflexivity.
  repeat (split; [assumption|]).
  exact (proj1 (dma_address_halves s 0x4D5234 0x4D01FE 0 0 16 16 H1 H2 H3 H4)).
Defined.

Ltac eqb_closed :=
  repeat match goal with
         | |- context [Zpos ?p =? Zpos ?q] =>
           let v := eval cbv in (Zpos p =? Zpos q) in
           change (Zpos p =? Zpos q) with v
         | |- context [Zpos ?p =? 0] => change (Zpos p =? 0) with false
         | |- context [0 =? Zpos ?p] => change (0 =? Zpos p) with false
         end;
  cbv iota.

Lemma IoWrite_MISCCON s a d b : zoneA_reg 0x0A0000 a ->
  IoWrite s a d b =
  set_leds (Z.land (Z.shiftr (Z.lnot d) 8) 0xF) (set_dma_reading (Z.testbit d 14) s).
Proof.
  intros [Hz Hsel]. unfold IoWrite. rewrite (zoneA_true a Hz), Hsel. eqb_closed.
  cbv zeta. change 0x4000 with (2 ^ 14). rewrite truthy_land_bit by lia.
  f_equal. mask_norm. reflexivity.
Qed.

Lemma leds_value d :
  uint8 (Z.land (Z.shiftr (Z.lnot d) 8) 0xF) = Z.land (Z.shiftr (Z.lnot d) 8) 0xF.
Proof. apply uint8_land_mask. lia. Qed.

(** X7.  A write to the miscellaneous control register stores the
    complement of data bits 8 to 11 as the four LED bits (a value below
    16) and data bit 14 as the DMA direction, and leaves GENSTAT, the
    DMA count and the FDC alone. *)
Theorem misccon_leds (s : state_t) (a d b : Z) :
  zoneA_reg 0x0A0000 a ->
  let s' := IoWrite s a d b in
  (forall i, 0 <= i < 4 -> Z.testbit (leds s') i = negb (Z.testbit d (i + 8)))
  /\ 0 <= leds s' < 16
  /\ dma_reading s' = Z.testbit d 14
  /\ genstat s' = genstat s /\ dma_count s' = dma_count s /\ fdc_ctx s' = fdc_ctx s.
Proof.
  intros Ha s'. subst s'. rewrite (IoWrite_MISCCON s a d b Ha).
  destruct s; state_cbn. rewrite leds_value.
  split; [|split; [|repeat split]].
  - intros i Hi. rewrite Z.land_spec, Z.shiftr_spec, Z.lnot_spec by lia.
    change 0xF with (Z.ones 4). rewrite Z.ones_spec_low by lia.
    now rewrite andb_true_r.
  - change 0xF with (Z.ones 4). apply (land_ones_range _ 4). lia.
Qed.

(** MISCCON at 0x4A0000 written with 0x4500: LEDs 0 and 2 are off
    (their bits are set), the DMA direction is "read". *)
Lemma misccon_leds_witness :
  let s' := IoWrite (machine 0x2000 map_empty 0) 0x4A0000 0x4500 16 in
  zoneA_reg 0x0A0000 0x4A0000
  /\ 0 <= leds s' < 16
  /\ dma_reading s' = Z.testbit 0x4500 14.
Proof.
  intros s'.
  assert (H1 : zoneA_reg 0x0A0000 0x4A0000) by (split; [lia | reflexivity]).
  destruct (misccon_leds (machine 0x2000 map_empty 0) 0x4A0000 0x4500 16 H1)
    as (_ & Ha & Hb & _).
  split; [exact H1|]. split; [exact Ha | exact Hb].
Defined.

Lemma zoneB_is_io a : 0xC00000 <= a -> is_io a.
Proof. intros H. now left. Qed.

Lemma IoWrite_FDC s a d b : is_FDC a ->
  IoWrite s a d b =
  set_fdc_ctx (wd2797_write_reg (fdc_ctx s) (uint8 (Z.land (Z.shiftr a 1) 3)) (uint8 d))
    (m68k_end_timeslice s).
Proof.
  intros (Hz & Hef & Hsel). unfold IoWrite.
  destruct (zoneB_true a Hz) as [-> ->]. cbv zeta.
  destruct (zoneEF_true a Hef) as [-> ->]. rewrite Hsel. eqb_closed.
  destruct s; reflexivity.
Qed.

Lemma IoRead_FDC s a b : is_FDC a ->
  IoRead s a b =
  (fst (wd2797_read_reg (fdc_ctx s) (uint8 (Z.land (Z.shiftr a 1) 3))),
   set_fdc_ctx (snd (wd2797_read_reg (fdc_ctx s) (uint8 (Z.land (Z.shiftr a 1) 3))))
     (m68k_end_timeslice s)).
Proof.
  intros (Hz & Hef & Hsel). unfold IoRead.
  destruct (zoneB_true a Hz) as [-> ->]. cbv zeta.
  destruct (zoneEF_true a Hef) as [_ ->]. rewrite Hsel. eqb_closed.
  destruct s; state_cbn. destruct (wd2797_read_reg _ _). reflexivity.
Qed.

Lemma IoWrite_GCR s a d b sub : gcr_reg sub a ->
  IoWrite s a d b =
  if sub =? 0x041000 then set_pie (Z.testbit d 15) s
  else if sub =? 0x043000 then set_romlmap (Z.testbit d 15) s
  else s.
Proof.
  intros (Hz & Hef & Hsel & Hsub). unfold IoWrite.
  destruct (zoneB_true a Hz) as [-> ->]. cbv zeta.
  destruct (zoneEF_true a Hef) as [-> ->]. rewrite Hsel, Hsub. eqb_closed.
  change 0x8000 with (2 ^ 15). rewrite land_bit_eqb by lia. reflexivity.
Qed.

(** X8.  In supervisor mode a bus write of any width to [ef][4c]3xxx
    stores data bit 15 in ROMLMAP, and one to [ef][4c]1xxx stores it in
    PIE, and nothing else changes.  This holds whatever ROMLMAP is: the
    ROM overlay does not affect addresses from 0x800000 up. *)
Theorem general_control_register (s s' : state_t) (a v : Z) :
  supervisor s = true ->
  bus_write s a v s' ->
  (gcr_reg 0x043000 a -> s' = set_romlmap (Z.testbit v 15) s)
  /\ (gcr_reg 0x041000 a -> s' = set_pie (Z.testbit v 15) s).
Proof.
  intros Hs Hw.
  assert (H : forall sub, gcr_reg sub a ->
            exists bits, s' = IoWrite s a v bits).
  { intros sub Hg. pose proof Hg as (Hz & _).
    assert (Ho : rom_overlay s a = a) by (apply rom_overlay_high; lia).
    assert (Hio : is_io (rom_overlay s a)) by (rewrite Ho; apply zoneB_is_io; lia).
    destruct (bus_write_io s a v s' Hs Hio Hw) as [bits ->].
    exists bits. now rewrite Ho. }
  split; intros Hg; destruct (H _ Hg) as [bits ->];
    now rewrite (IoWrite_GCR s a v bits _ Hg).
Qed.

(** ROMLMAP is set through 0xE43000 while it is still clear. *)
Lemma general_control_register_witness :
  let s := set_romlmap false (machine 0x2000 map_empty 0) in
  let s' := m68k_write_memory_16 s 0xE43000 0x8000 in
  supervisor s = true
  /\ bus_write s 0xE43000 0x8000 s'
  /\ gcr_reg 0x043000 0xE43000
  /\ s' = set_romlmap (Z.testbit 0x8000 15) s.
Proof.
  intros s s'.
  assert (H1 : supervisor s = true) by reflexivity.
  assert (H2 : bus_write s 0xE43000 0x8000 s') by (right; left; reflexivity).
  assert (H3 : gcr_reg 0x043000 0xE43000).
  { split; [lia|]. split; [left; reflexivity|]. split; reflexivity. }
  repeat (split; [assumption|]).
  exact (proj1 (general_control_register s s' 0xE43000 0x8000 H1 H2) H3).
Defined.

Lemma land_bit7_eqb d : (Z.land d 0x80 =? 0) = negb (Z.testbit d 7).
Proof.
  change 0x80 with (2 ^ 7). rewrite <- (truthy_land_bit d 7) by lia.
  unfold truthy. now rewrite negb_involutive.
Qed.

Lemma IoWrite_DISKCON s a d b : zoneA_reg 0x0E0000 a ->
  IoWrite s a d b =
  if Z.testbit d 7 then s else set_fdc_ctx (wd2797_reset (fdc_ctx s)) s.
Proof.
  intros [Hz Hsel]. unfold IoWrite. rewrite (zoneA_true a Hz), Hsel. eqb_closed.
  rewrite land_bit7_eqb. now destruct (Z.testbit d 7).
Qed.

(** X9.  The disk control register: with data bit 7 set the write
    changes nothing; with bit 7 clear the FDC is reset and nothing else
    of the machine state changes: no IRQ, no DRQ, head position, side,
    track and sector registers 0, status and data register 0, both
    buffer positions 0, last step direction -1, STATUS reads 0, while
    the image, the track buffer, the geometry (sector size, sectors per
    track, heads, tracks), the write protection, the write position,
    the format flag and the DRQ flag of the command are kept. *)
Theorem disk_control_reset (s : state_t) (a d b : Z) :
  zoneA_reg 0x0E0000 a ->
  let s' := IoWrite s a d b in
  let c := fdc_ctx s in
  let c' := fdc_ctx s' in
  (Z.testbit d 7 = true -> s' = s)
  /\ (Z.testbit d 7 = false ->
      wd2797_get_irq c' = false /\ wd2797_get_drq c' = false
      /\ track c' = 0 /\ track_reg c' = 0 /\ sector c' = 0 /\ head c' = 0
      /\ fst (wd2797_read_reg c' WD2797_REG_STATUS) = 0
      /\ disc_image c' = disc_image c /\ data c' = data c
      /\ geom_tracks c' = geom_tracks c /\ writeable c' = writeable c
      /\ formatting c' = formatting c /\ write_pos c' = write_pos c
      /\ geom_secsz c' = geom_secsz c /\ geom_spt c' = geom_spt c
      /\ geom_heads c' = geom_heads c
      /\ c' = mkCTX 0 0 0 0 (geom_secsz c) (geom_spt c) (geom_heads c) (geom_tracks c)
                    false 0 (cmd_has_drq c) 0 (-1) (data c) 0 0 (disc_image c)
                    (writeable c) (write_pos c) (formatting c) (irql c)
      /\ s' = set_fdc_ctx c' s).
Proof.
  intros Ha s' c c'. subst s' c c'. rewrite (IoWrite_DISKCON s a d b Ha).
  split; intros ->; [reflexivity|].
  destruct s as [? ? ? ? ? ? ? ? ? ? ? ? ? ? ? ? ? ? [] ? ? ?]; state_cbn.
  unfold wd2797_reset, wd2797_get_irq, wd2797_get_drq, wd2797_read_reg; ctx_cbn.
  repeat (split; [reflexivity|]).
  split; [now destruct cmd_has_drq0|].
  repeat split; reflexivity.
Qed.

(** DISKCON at 0x4E0000 written with 0: the controller is reset. *)
Lemma disk_control_reset_witness :
  let s := machine 0x2000 map_empty 0 in
  let c' := fdc_ctx (IoWrite s 0x4E0000 0 16) in
  zoneA_reg 0x0E0000 0x4E0000
  /\ Z.testbit 0 7 = false
  /\ wd2797_get_irq c' = false /\ wd2797_get_drq c' = false.
Proof.
  intros s c'.
  assert (H1 : zoneA_reg 0x0E0000 0x4E0000) by (split; [lia | reflexivity]).
  assert (H2 : Z.testbit 0 7 = false) by reflexivity.
  destruct (proj2 (disk_control_reset s 0x4E0000 0 16 H1) H2) as (Ha & Hb & _).
  repeat (split; [assumption|]). exact Hb.
Defined.

(** ** The FDC registers through the bus *)

Lemma uint8_idem x : uint8 (uint8 x) = uint8 x.
Proof. unfold uint8. apply Z.mod_mod. lia. Qed.

Lemma uint8_range x : 0 <= uint8 x < 2 ^ 8.
Proof. unfold uint8. apply Z.mod_pos_bound. lia. Qed.

Lemma fdc_reg_uint8 a : uint8 (fdc_reg a) = fdc_reg a.
Proof. apply uint8_land_mask. lia. Qed.

(** X10.  Through the bus in supervisor mode, a byte written to the
    TRACK or SECTOR register of the FDC ([ef][19]xxxx, register number
    in address bits 1 and 2) is read back, truncated to 8 bits; the
    write ends the CPU time slice, the read leaves the FDC context as
    it was, and a write to TRACK moves the head as well. *)
Theorem fdc_track_sector_via_bus (ROM_SIZE : Z) (s : state_t) (a v : Z) :
  supervisor s = true -> is_FDC a ->
  fdc_reg a = WD2797_REG_TRACK \/ fdc_reg a = WD2797_REG_SECTOR ->
  let s1 := m68k_write_memory_8 s a v in
  let r := m68k_read_memory_8 ROM_SIZE s1 a in
  fst r = uint8 v
  /\ timeslice_ended s1 = true
  /\ fdc_ctx (snd r) = fdc_ctx s1
  /\ (fdc_reg a = WD2797_REG_TRACK ->
      track (fdc_ctx s1) = uint8 v /\ track_reg (fdc_ctx s1) = uint8 v)
  /\ (fdc_reg a = WD2797_REG_SECTOR -> sector (fdc_ctx s1) = uint8 v).
Proof.
  intros Hs Hf Hreg s1 r. subst r s1.
  pose proof Hf as (Hz & _).
  assert (Ho : forall t, rom_overlay t a = a) by (intros t; apply rom_overlay_high; lia).
  rewrite write8_io by (try assumption; rewrite Ho; apply zoneB_is_io; lia).
  rewrite Ho, (IoWrite_FDC s a v 8 Hf).
  set (s1 := set_fdc_ctx _ _).
  assert (Hs1 : supervisor s1 = true) by (destruct s; exact Hs).
  rewrite read8_io by (try assumption; rewrite Ho; apply zoneB_is_io; lia).
  rewrite Ho, (IoRead_FDC s1 a 8 Hf). cbv [fst snd].
  subst s1. fold (fdc_reg a). rewrite !fdc_reg_uint8.
  unfold wd2797_write_reg, wd2797_read_reg.
  destruct s as [? ? ? ? ? ? ? ? ? ? ? ? ? ? ? ? ? ? [] ? ? ?]; state_cbn.
  unfold WD2797_REG_TRACK, WD2797_REG_SECTOR, WD2797_REG_STATUS, WD2797_REG_COMMAND,
    WD2797_REG_DATA in *.
  destruct Hreg as [-> | ->]; mask_closed; eqb_closed; ctx_cbn; rewrite !uint8_idem;
    (split; [reflexivity|]); (split; [reflexivity|]); (split; [reflexivity|]);
    split; intros E; try discriminate E; repeat split; reflexivity.
Qed.

(** The TRACK register at 0xE10002, written with 0x125. *)
Lemma fdc_track_sector_via_bus_witness :
  let s := machine 0x2000 map_empty 0 in
  let s1 := m68k_write_memory_8 s 0xE10002 0x125 in
  supervisor s = true
  /\ is_FDC 0xE10002
  /\ fdc_reg 0xE10002 = WD2797_REG_TRACK
  /\ fst (m68k_read_memory_8 0x8000 s1 0xE10002) = uint8 0x125
  /\ timeslice_ended s1 = true.
Proof.
  intros s s1.
  assert (H1 : supervisor s = true) by reflexivity.
  assert (H2 : is_FDC 0xE10002).
  { split; [lia|]. split; [left; reflexivity | reflexivity]. }
  assert (H3 : fdc_reg 0xE10002 = WD2797_REG_TRACK) by reflexivity.
  destruct (fdc_track_sector_via_bus 0x8000 s 0xE10002 0x125 H1 H2 (or_introl H3))
    as (Ha & Hb & _).
  repeat (split; [assumption|]). exact Hb.
Defined.

(** ** What a register read changes *)

Lemma classic_FDC a : is_FDC a \/ ~ is_FDC a.
Proof.
  unfold is_FDC.
  destruct (Z_le_dec 0xC00000 a); [|right; lia].
  destruct (Z_le_dec a 0xFFFFFF); [|right; lia].
  destruct (Z.eq_dec (Z.land a 0x070000) 0x010000); [|right; tauto].
  destruct (Z.eq_dec (Z.land a 0xF00000) 0xE00000); [left; tauto|].
  destruct (Z.eq_dec (Z.land a 0xF00000) 0xF00000); [left; tauto|right; tauto].
Qed.

Lemma IoRead_effects (s : state_t) (a b : Z) :
  (~ is_FDC a -> snd (IoRead s a b) = s)
  /\ (is_FDC a ->
      snd (IoRead s a b)
      = set_fdc_ctx (snd (wd2797_read_reg (fdc_ctx s) (fdc_reg a))) (m68k_end_timeslice s))
  /\ exists c t, snd (IoRead s a b) = set_fdc_ctx c (set_timeslice_ended t s).
Proof.
  assert (Hf : is_FDC a ->
      snd (IoRead s a b)
      = set_fdc_ctx (snd (wd2797_read_reg (fdc_ctx s) (fdc_reg a))) (m68k_end_timeslice s)).
  { intros Hf. rewrite (IoRead_FDC s a b Hf). fold (fdc_reg a). now rewrite fdc_reg_uint8. }
  assert (Hn : ~ is_FDC a -> snd (IoRead s a b) = s).
  { intros Hn. unfold IoRead. cbv zeta.
    destruct ((0x400000 <=? a) && (a <=? 0x7FFFFF)) eqn:EA.
    - repeat (destruct (_ =? _); [reflexivity|]). reflexivity.
    - destruct ((0xC00000 <=? a) && (a <=? 0xFFFFFF)) eqn:EB; [|reflexivity].
      destruct ((Z.land a 0xF00000 =? 0xE00000) || (Z.land a 0xF00000 =? 0xF00000)) eqn:EF;
        [|reflexivity].
      destruct (Z.land a 0x070000 =? 0x010000) eqn:ES; [|reflexivity].
      exfalso. apply Hn. apply andb_true_iff in EB. rewrite !Z.leb_le in EB.
      apply orb_true_iff in EF. rewrite !Z.eqb_eq in EF. apply Z.eqb_eq in ES.
      split; [lia|]. split; assumption. }
  split; [assumption|]. split; [assumption|].
  destruct (classic_FDC a) as [H|H].
  - rewrite (Hf H). eexists _, true. reflexivity.
  - rewrite (Hn H). exists (fdc_ctx s), (timeslice_ended s). destruct s as [? ? ? ? ? ? ? ? ? ? ? ? ? ? ? ? ? ? [] ? ? ?]. reflexivity.
Qed.

(** ** What a register write changes *)

(** X11.  No register write touches memory: [IoWrite] never changes
    the ROM, expansion RAM, map RAM, video RAM, the RAM sizes or the
    CPU status register, and raises no bus error; base RAM is written
    by the DMA count register only; ROMLMAP and PIE change only at
    addresses from 0xC00000 up; the FDC context changes only at the FDC
    registers and the disk control register. *)
Theorem IoWrite_frame (s : state_t) (a d b : Z) :
  let s' := IoWrite s a d b in
  same_memory s s'
  /\ bus_errors s' = bus_errors s
  /\ (~ is_DMACOUNT a -> base_ram s' = base_ram s)
  /\ (a < 0xC00000 -> romlmap s' = romlmap s /\ pie s' = pie s)
  /\ (~ is_FDC a -> ~ zoneA_reg 0x0E0000 a -> fdc_ctx s' = fdc_ctx s).
Proof.
  intros s'. subst s'. unfold IoWrite, same_memory. cbv zeta.
  destruct ((0x400000 <=? a) && (a <=? 0x7FFFFF)) eqn:EA.
  - apply andb_true_iff in EA. rewrite !Z.leb_le in EA.
    rewrite mapAddr_high by lia.
    destruct (Z.land a 0x0F0000 =? 0x060000) eqn:E6.
    + apply Z.eqb_eq in E6. rewrite E6. eqb_closed.
      destruct s; state_cbn. case_if; state_cbn; (split; [tauto|]);
        (split; [reflexivity|]); (split; [intros H; exfalso; apply H; split; assumption|]);
        split; intros; try split; reflexivity.
    + destruct (Z.land a 0x0F0000 =? 0x0E0000) eqn:EE.
      * apply Z.eqb_eq in EE. rewrite EE. eqb_closed.
        destruct s; state_cbn. case_if; state_cbn; (split; [tauto|]);
        (split; [reflexivity|]); (split; [reflexivity|]); (split; [split; reflexivity|]);
        intros _ H; exfalso; apply H; split; assumption.
      * destruct s; state_cbn. repeat (case_if; state_cbn); try discriminate;
          (split; [tauto|]); (split; [reflexivity|]); (split; [reflexivity|]);
          (split; [split; reflexivity|]); reflexivity.
  - destruct ((0xC00000 <=? a) && (a <=? 0xFFFFFF)) eqn:EB.
    2:{ destruct s; state_cbn. repeat split; reflexivity. }
    apply andb_true_iff in EB. rewrite !Z.leb_le in EB.
    destruct ((Z.land a 0xF00000 =? 0xC00000) || (Z.land a 0xF00000 =? 0xD00000)).
    { destruct s; state_cbn. repeat split; reflexivity. }
    destruct ((Z.land a 0xF00000 =? 0xE00000) || (Z.land a 0xF00000 =? 0xF00000)) eqn:EF.
    2:{ destruct s; state_cbn. repeat split; reflexivity. }
    destruct (Z.land a 0x070000 =? 0x010000) eqn:ES.
    + destruct s; state_cbn. (split; [tauto|]); (split; [reflexivity|]);
        (split; [reflexivity|]); (split; [intros; lia|]).
      intros H; exfalso; apply H.
      apply orb_true_iff in EF. rewrite !Z.eqb_eq in EF. apply Z.eqb_eq in ES.
      split; [lia|]. split; assumption.
    + destruct s; state_cbn. repeat (case_if; state_cbn);
        (split; [tauto|]); (split; [reflexivity|]);
        (split; [reflexivity|]); (split; [intros; lia|]); reflexivity.
Qed.

(** ** Rejected accesses *)

Lemma uint16_land_ffff a : uint16 (Z.land a 0xffff) = Z.land a 0xffff.
Proof. rewrite uint16_land, land_land_mask. reflexivity. Qed.

Lemma bsr0_low a k : Z.land k 0xFF = 0 ->
  Z.land (uint16 (Z.lor (uint16 k) (Z.shiftr a 16))) 0xFF = Z.land (Z.shiftr a 16) 0xFF.
Proof.
  intros Hk. rewrite !uint16_land. rewrite land_land_mask. change (Z.land 0xFFFF 0xFF) with 0xFF.
  rewrite Z.land_lor_distr_l, land_land_mask. change (Z.land 0xFFFF 0xFF) with 0xFF.
  rewrite Hk. apply Z.lor_0_l.
Qed.

Lemma fault_registers_recorded a bits s g :
  fault_recorded a s (fault_registers a bits (set_genstat g s))
  /\ genstat (fault_registers a bits (set_genstat g s)) = uint16 g.
Proof.
  unfold fault_recorded, same_memory, fault_registers. cbv zeta.
  destruct s; state_cbn.
  destruct (16 <=? bits); [|destruct (truthy (Z.land a 1))]; state_cbn;
    rewrite uint16_land_ffff, bsr0_low by reflexivity; repeat split; reflexivity.
Qed.

Lemma fault_registers_plain a bits s :
  fault_recorded a s (fault_registers a bits s)
  /\ genstat (fault_registers a bits s) = genstat s.
Proof.
  unfold fault_recorded, same_memory, fault_registers. cbv zeta.
  destruct s; state_cbn.
  destruct (16 <=? bits); [|destruct (truthy (Z.land a 1))]; state_cbn;
    rewrite uint16_land_ffff, bsr0_low by reflexivity; repeat split; reflexivity.
Qed.

Lemma ACCESS_CHECK_WR_fault s a bits :
  checkMemoryAccess s a true <> MEM_ALLOWED ->
  fst (ACCESS_CHECK_WR s a bits) = true
  /\ fault_recorded a s (snd (ACCESS_CHECK_WR s a bits))
  /\ genstat_after (checkMemoryAccess s a true) true s (snd (ACCESS_CHECK_WR s a bits)).
Proof.
  intros H. unfold ACCESS_CHECK_WR, genstat_after, fault_genstat.
  destruct (checkMemoryAccess s a true); try (now elim H); cbv iota beta; cbv [fst snd];
    (split; [reflexivity|]);
    first
      [ destruct (fault_registers_plain a bits s) as [H1 H2]; split; [exact H1 | exact H2]
      | destruct (fault_registers_recorded a bits s (Z.lor 0x8BFF (if pie s then 0x0400 else 0)))
          as [H1 H2]; split; [exact H1|]; rewrite H2; now destruct (pie s)
      | destruct (fault_registers_recorded a bits s (Z.lor 0x9AFF (if pie s then 0x0400 else 0)))
          as [H1 H2]; split; [exact H1|]; rewrite H2; now destruct (pie s) ].
Qed.

Lemma ACCESS_CHECK_RD_fault s a bits :
  checkMemoryAccess s a false <> MEM_ALLOWED ->
  fst (ACCESS_CHECK_RD s a bits) = true
  /\ fault_recorded a s (snd (ACCESS_CHECK_RD s a bits))
  /\ genstat_after (checkMemoryAccess s a false) false s (snd (ACCESS_CHECK_RD s a bits)).
Proof.
  intros H. unfold ACCESS_CHECK_RD, genstat_after, fault_genstat.
  destruct (checkMemoryAccess s a false); try (now elim H); cbv iota beta; cbv [fst snd];
    (split; [reflexivity|]);
    first
      [ destruct (fault_registers_plain a bits s) as [H1 H2]; split; [exact H1 | exact H2]
      | destruct (fault_registers_recorded a bits s (Z.lor 0xCBFF (if pie s then 0x0400 else 0)))
          as [H1 H2]; split; [exact H1|]; rewrite H2; now destruct (pie s)
      | destruct (fault_registers_recorded a bits s (Z.lor 0xDAFF (if pie s then 0x0400 else 0)))
          as [H1 H2]; split; [exact H1|]; rewrite H2; now destruct (pie s) ].
Qed.

Lemma bus_write_faults (s s' : state_t) (A v : Z) :
  checkMemoryAccess s (rom_overlay s A) true <> MEM_ALLOWED ->
  bus_write s A v s' ->
  exists bits, s' = snd (ACCESS_CHECK_WR s (rom_overlay s A) bits).
Proof.
  intros H Hw.
  destruct Hw as [-> | [-> | ->]];
    [exists 8; unfold m68k_write_memory_8 | exists 16; unfold m68k_write_memory_16
    | exists 32; unfold m68k_write_memory_32]; cbv zeta;
    match goal with
    | |- context [ACCESS_CHECK_WR ?s ?a ?b] =>
      destruct (ACCESS_CHECK_WR_fault s a b H) as (Hf & _);
      destruct (ACCESS_CHECK_WR s a b) as [f t]; cbv [fst snd] in *; now rewrite Hf
    end.
Qed.

Lemma bus_read_faults (ROM_SIZE : Z) (s : state_t) (A : Z) (r : Z * state_t) :
  checkMemoryAccess s (rom_overlay s A) false <> MEM_ALLOWED ->
  bus_read ROM_SIZE s A r ->
  exists bits, r = (0xFFFFFFFF, snd (ACCESS_CHECK_RD s (rom_overlay s A) bits)).
Proof.
  intros H Hr.
  destruct Hr as [-> | [-> | ->]];
    [exists 8; unfold m68k_read_memory_8 | exists 16; unfold m68k_read_memory_16
    | exists 32; unfold m68k_read_memory_32]; cbv zeta;
    match goal with
    | |- context [ACCESS_CHECK_RD ?s ?a ?b] =>
      destruct (ACCESS_CHECK_RD_fault s a b H) as (Hf & _);
      destruct (ACCESS_CHECK_RD s a b) as [f t]; cbv [fst snd] in *; now rewrite Hf
    end.
Qed.

(** X12.  An access that [checkMemoryAccess] does not allow: a bus
    write of any width keeps every field of the machine state but
    GENSTAT, BSR0, BSR1 and the count of bus errors: no memory array,
    no FDC state, no DMA state (count, address, IDMARW, DMAEN,
    direction), no LED, neither ROMLMAP nor PIE changes, and the time
    slice is not ended.  It raises exactly one bus error, and latches
    the low 16 bits of the address in BSR1 and address bits 16 to 23 in
    the low byte of BSR0; GENSTAT is set for a page fault and for a
    user I/O error, as the direction and PIE give, and is left alone
    for a kernel or write-protection violation.  A bus read of any
    width does the same and returns 0xFFFFFFFF, not truncated to the
    width. *)
Theorem rejected_access (ROM_SIZE : Z) (s : state_t) (A : Z) :
  (checkMemoryAccess s (rom_overlay s A) true <> MEM_ALLOWED ->
   forall v s', bus_write s A v s' ->
     fault_recorded (rom_overlay s A) s s'
     /\ genstat_after (checkMemoryAccess s (rom_overlay s A) true) true s s')
  /\ (checkMemoryAccess s (rom_overlay s A) false <> MEM_ALLOWED ->
      forall r, bus_read ROM_SIZE s A r ->
        fst r = 0xFFFFFFFF
        /\ fault_recorded (rom_overlay s A) s (snd r)
        /\ genstat_after (checkMemoryAccess s (rom_overlay s A) false) false s (snd r)).
Proof.
  split.
  - intros H v s' Hw. destruct (bus_write_faults s s' A v H Hw) as [bits ->].
    destruct (ACCESS_CHECK_WR_fault s (rom_overlay s A) bits H) as (_ & H1 & H2).
    split; assumption.
  - intros H r Hr. destruct (bus_read_faults ROM_SIZE s A r H Hr) as [bits ->]. cbn [fst snd].
    destruct (ACCESS_CHECK_RD_fault s (rom_overlay s A) bits H) as (_ & H1 & H2).
    split; [reflexivity|]. split; assumption.
Qed.

(** User mode, page 1 absent: a write to 0x1000 and a read of it. *)
Lemma rejected_access_witness :
  let s := machine 0 map_empty 0 in
  let s' := m68k_write_memory_16 s 0x1000 0x55 in
  let r := m68k_read_memory_8 0x8000 s 0x1000 in
  checkMemoryAccess s (rom_overlay s 0x1000) true <> MEM_ALLOWED
  /\ checkMemoryAccess s (rom_overlay s 0x1000) false <> MEM_ALLOWED
  /\ bus_write s 0x1000 0x55 s'
  /\ bus_read 0x8000 s 0x1000 r
  /\ fault_recorded (rom_overlay s 0x1000) s s'
  /\ fst r = 0xFFFFFFFF
  /\ fault_recorded (rom_overlay s 0x1000) s (snd r).
Proof.
  intros s s' r.
  assert (E1 : checkMemoryAccess s (rom_overlay s 0x1000) true = MEM_PAGEFAULT) by reflexivity.
  assert (E2 : checkMemoryAccess s (rom_overlay s 0x1000) false = MEM_PAGEFAULT) by reflexivity.
  assert (H1 : checkMemoryAccess s (rom_overlay s 0x1000) true <> MEM_ALLOWED)
    by (rewrite E1; discriminate).
  assert (H2 : checkMemoryAccess s (rom_overlay s 0x1000) false <> MEM_ALLOWED)
    by (rewrite E2; discriminate).
  assert (H3 : bus_write s 0x1000 0x55 s') by (right; left; reflexivity).
  assert (H4 : bus_read 0x8000 s 0x1000 r) by (left; reflexivity).
  destruct (rejected_access 0x8000 s 0x1000) as [Hw Hr].
  destruct (Hw H1 0x55 s' H3) as [Ha _].
  destruct (Hr H2 r H4) as (Hb & Hc & _).
  repeat (split; [assumption|]). exact Hc.
Defined.

(** ** User mode and the ROM *)

Lemma land_le_l a b : 0 <= a -> 0 <= Z.land a b <= a.
Proof.
  intros Ha.
  assert (H0 : Z.land (Z.land a b) (Z.ldiff a b) = 0).
  { apply Z.bits_inj'. intros i Hi.
    rewrite !Z.land_spec, Z.ldiff_spec, Z.bits_0.
    destruct (Z.testbit a i), (Z.testbit b i); reflexivity. }
  assert (H1 : Z.lor (Z.land a b) (Z.ldiff a b) = a).
  { apply Z.bits_inj'. intros i Hi.
    rewrite Z.lor_spec, !Z.land_spec, Z.ldiff_spec.
    destruct (Z.testbit a i), (Z.testbit b i); reflexivity. }
  apply Z.add_nocarry_lor in H0. rewrite H1 in H0.
  assert (0 <= Z.ldiff a b) by (apply Z.ldiff_nonneg; now left).
  assert (0 <= Z.land a b) by (apply Z.land_nonneg; now left).
  lia.
Qed.

Lemma land_le_r a b : 0 <= b -> 0 <= Z.land a b <= b.
Proof. rewrite Z.land_comm. apply land_le_l. Qed.

Lemma lor_bit23_ge a : 0 <= a -> 0x800000 <= Z.lor a 0x800000.
Proof.
  intros Ha. pose proof (Z.add_lor_land a 0x800000).
  pose proof (land_le_l a 0x800000 Ha). lia.
Qed.

Lemma lor_bit23_low a : 0 <= a < 0x800000 -> Z.lor a 0x800000 = a + 0x800000.
Proof.
  intros Ha. symmetry. apply Z.add_nocarry_lor. rewrite Z.land_comm.
  change 0x800000 with (Z.shiftl 1 23). apply land_shiftl_low; [lia|].
  change (2 ^ 23) with 0x800000. lia.
Qed.

Lemma user_uie s a w : supervisor s = false -> 0x400000 <= a ->
  checkMemoryAccess s a w = MEM_UIE.
Proof.
  intros Hs Ha. unfold checkMemoryAccess. rewrite supervisor_bit, Hs.
  replace (0x400000 <=? a) with true by (symmetry; apply Z.leb_le; lia). reflexivity.
Qed.

Lemma user_overlay_high s A : 0 <= A -> 0x400000 <= A \/ romlmap s = false ->
  0x400000 <= rom_overlay s A.
Proof.
  intros H0 H. unfold rom_overlay. destruct (romlmap s); cbn [negb].
  - destruct H; [assumption | discriminate].
  - pose proof (lor_bit23_ge A H0). lia.
Qed.

(** X13.  User-mode code reaches mapped RAM only: every access at or
    above 0x400000 (map RAM, video RAM, I/O registers, ROM), and every
    access at all while ROMLMAP is clear, has the verdict [MEM_UIE]; a
    write of any width is rejected with GENSTAT 0x9AFF (0x9EFF with
    PIE), a read returns 0xFFFFFFFF with GENSTAT 0xDAFF (0xDEFF). *)
Theorem user_mode_confined (ROM_SIZE : Z) (s : state_t) (A : Z) :
  supervisor s = false -> 0 <= A ->
  0x400000 <= A \/ romlmap s = false ->
  (forall w, checkMemoryAccess s (rom_overlay s A) w = MEM_UIE)
  /\ (forall v s', bus_write s A v s' ->
        fault_recorded (rom_overlay s A) s s'
        /\ genstat s' = (if pie s then 0x9EFF else 0x9AFF))
  /\ (forall r, bus_read ROM_SIZE s A r ->
        fst r = 0xFFFFFFFF
        /\ fault_recorded (rom_overlay s A) s (snd r)
        /\ genstat (snd r) = (if pie s then 0xDEFF else 0xDAFF)).
Proof.
  intros Hs H0 H.
  assert (Hu : forall w, checkMemoryAccess s (rom_overlay s A) w = MEM_UIE).
  { intros w. apply user_uie; [assumption|]. now apply user_overlay_high. }
  split; [assumption|]. split.
  - intros v s' Hw.
    assert (Hf : checkMemoryAccess s (rom_overlay s A) true <> MEM_ALLOWED)
      by (rewrite Hu; discriminate).
    destruct (bus_write_faults s s' A v Hf Hw) as [bits ->].
    destruct (ACCESS_CHECK_WR_fault s (rom_overlay s A) bits Hf) as (_ & H1 & H2).
    split; [assumption|]. rewrite Hu in H2. unfold genstat_after, fault_genstat in H2.
    rewrite H2. now destruct (pie s).
  - intros r Hr.
    assert (Hf : checkMemoryAccess s (rom_overlay s A) false <> MEM_ALLOWED)
      by (rewrite Hu; discriminate).
    destruct (bus_read_faults ROM_SIZE s A r Hf Hr) as [bits ->]. cbn [fst snd].
    destruct (ACCESS_CHECK_RD_fault s (rom_overlay s A) bits Hf) as (_ & H1 & H2).
    split; [reflexivity|]. split; [assumption|].
    rewrite Hu in H2. unfold genstat_after, fault_genstat in H2.
    rewrite H2. now destruct (pie s).
Qed.

(** User mode: a write to the general status register at 0x410000. *)
Lemma user_mode_confined_witness :
  let s := machine 0 map_empty 0 in
  let s' := m68k_write_memory_16 s 0x410000 0 in
  supervisor s = false
  /\ 0 <= 0x410000
  /\ 0x400000 <= 0x410000
  /\ bus_write s 0x410000 0 s'
  /\ checkMemoryAccess s (rom_overlay s 0x410000) true = MEM_UIE
  /\ genstat s' = (if pie s then 0x9EFF else 0x9AFF).
Proof.
  intros s s'.
  assert (H1 : supervisor s = false) by reflexivity.
  assert (H2 : 0 <= 0x410000) by lia.
  assert (H3 : 0x400000 <= 0x410000) by lia.
  assert (H4 : bus_write s 0x410000 0 s') by (right; left; reflexivity).
  destruct (user_mode_confined 0x8000 s 0x410000 H1 H2 (or_introl H3)) as (Ha & Hb & _).
  destruct (Hb 0 s' H4) as [_ Hc].
  repeat (split; [assumption|]). split; [exact (Ha true) | exact Hc].
Defined.

Lemma rom_zone a : 0x800000 <= a <= 0xBFFFFF ->
  (0x800000 <=? a) && (a <=? 0xBFFFFF) = true.
Proof. intros H. apply andb_true_iff. rewrite !Z.leb_le. lia. Qed.

Lemma rom_address_overlay s A : rom_address s A ->
  rom_overlay s A = Z.lor A 0x800000 /\ 0x800000 <= Z.lor A 0x800000 <= 0xBFFFFF.
Proof.
  intros [H | [Hr H]].
  - rewrite rom_overlay_high by lia. rewrite lor_bit23 by lia. split; [reflexivity | lia].
  - unfold rom_overlay. rewrite Hr. cbn [negb]. split; [reflexivity|].
    rewrite lor_bit23_low by lia. lia.
Qed.

(** X14.  The ROM in supervisor mode, for an address of the ROM window
    or any address below 4 MiB while ROMLMAP is clear: a write of any
    width leaves the machine state unchanged, and a read returns the
    ROM contents at the address with bit 23 set (masked by
    [ROM_SIZE - 1]) and leaves the state unchanged. *)
Theorem rom_read_only (ROM_SIZE : Z) (s : state_t) (A : Z) :
  supervisor s = true -> rom_address s A ->
  let R := Z.lor A 0x800000 in
  (forall v s', bus_write s A v s' -> s' = s)
  /\ m68k_read_memory_8 ROM_SIZE s A = (uint8 (RD8 (rom s) R (ROM_SIZE - 1)), s)
  /\ m68k_read_memory_16 ROM_SIZE s A = (uint16 (RD16 (rom s) R (ROM_SIZE - 1)), s)
  /\ m68k_read_memory_32 ROM_SIZE s A = (RD32 (rom s) R (ROM_SIZE - 1), s).
Proof.
  intros Hs Ha R. subst R. destruct (rom_address_overlay s A Ha) as [Ho Hz].
  split; [|split; [|split]].
  - intros v s' [-> | [-> | ->]];
      unfold m68k_write_memory_8, m68k_write_memory_16, m68k_write_memory_32;
      cbv zeta; unfold ACCESS_CHECK_WR; rewrite supervisor_allowed by assumption;
      cbv beta iota zeta; rewrite Ho, rom_zone by assumption; reflexivity.
  - unfold m68k_read_memory_8. cbv zeta. unfold ACCESS_CHECK_RD.
    rewrite supervisor_allowed by assumption.
    cbv beta iota zeta. rewrite Ho, rom_zone by assumption. reflexivity.
  - unfold m68k_read_memory_16. cbv zeta. unfold ACCESS_CHECK_RD.
    rewrite supervisor_allowed by assumption.
    cbv beta iota zeta. rewrite Ho, rom_zone by assumption. reflexivity.
  - unfold m68k_read_memory_32. cbv zeta. unfold ACCESS_CHECK_RD.
    rewrite supervisor_allowed by assumption.
    cbv beta iota zeta. rewrite Ho, rom_zone by assumption. reflexivity.
Qed.

(** ROMLMAP clear: address 0x100 is served from the ROM. *)
Lemma rom_read_only_witness :
  let s := set_romlmap false (machine 0x2000 map_empty 0) in
  supervisor s = true
  /\ rom_address s 0x100
  /\ m68k_write_memory_8 s 0x100 0x55 = s
  /\ m68k_read_memory_8 0x8000 s 0x100
     = (uint8 (RD8 (rom s) (Z.lor 0x100 0x800000) (0x8000 - 1)), s).
Proof.
  intros s.
  assert (H1 : supervisor s = true) by reflexivity.
  assert (H2 : rom_address s 0x100) by (right; split; [reflexivity | lia]).
  destruct (rom_read_only 0x8000 s 0x100 H1 H2) as (Ha & Hb & _).
  split; [exact H1|]. split; [exact H2|].
  split; [exact (Ha 0x55 _ (or_introl eq_refl)) | exact Hb].
Defined.

(** ** RAM bytes *)

Lemma RD8_WR8 (a : list Z) (i m v : Z) :
  0 <= m < Z.of_nat (length a) -> RD8 (WR8 a i m v) i m = uint8 v.
Proof.
  intros Hm. unfold RD8, WR8, wr. apply rd_insert_eq.
  pose proof (land_le_r i m ltac:(lia)). lia.
Qed.

(** [mapAddr] reads and writes the map RAM only. *)
Lemma mapAddr_set_base_ram (x : list Z) (s : state_t) (a : Z) (w : bool) :
  mapAddr (set_base_ram x s) a w
  = (fst (mapAddr s a w), set_base_ram x (snd (mapAddr s a w))).
Proof.
  unfold mapAddr, MAPRAM. destruct s; state_cbn.
  repeat (case_if; state_cbn); reflexivity.
Qed.

Lemma mapAddr_set_exp_ram (x : list Z) (s : state_t) (a : Z) (w : bool) :
  mapAddr (set_exp_ram x s) a w
  = (fst (mapAddr s a w), set_exp_ram x (snd (mapAddr s a w))).
Proof.
  unfold mapAddr, MAPRAM. destruct s; state_cbn.
  repeat (case_if; state_cbn); reflexivity.
Qed.

Lemma mapAddr_modes (s : state_t) (a : Z) (w : bool) :
  romlmap (snd (mapAddr s a w)) = romlmap s /\ cpu_sr (snd (mapAddr s a w)) = cpu_sr s.
Proof.
  unfold mapAddr. destruct s; state_cbn. repeat (case_if; state_cbn); split; reflexivity.
Qed.

Section RamByte.

Variables (ROM_SIZE : Z) (s : state_t) (A v : Z).
Hypothesis Hsup : supervisor s = true.
Hypothesis Hrom : romlmap s = true.
Hypothesis HA : 0 <= A < 0x400000.
Hypothesis Hb : bytes_ok (map s) = true.
Hypothesis Hl : length (map s) = 2048%nat.

Let p := fst (mapAddr s A true).
Let s1 := snd (mapAddr s A true).

Lemma ram_zone :
  (0x800000 <=? A) && (A <=? 0xBFFFFF) = false /\ (A <=? 0x3FFFFF) = true.
Proof.
  split; [apply andb_false_iff; left; apply Z.leb_gt | apply Z.leb_le]; lia.
Qed.

Lemma write8_ram :
  m68k_write_memory_8 s A v =
  if p <=? 0x1fffff
  then set_base_ram (WR8 (base_ram s) p (size_t (base_ram_size s - 1)) v) s1
  else set_exp_ram (WR8 (exp_ram s) (p - 0x200000) (size_t (exp_ram_size s - 1)) v) s1.
Proof.
  unfold m68k_write_memory_8, rom_overlay, ACCESS_CHECK_WR. rewrite Hrom. cbv [negb].
  rewrite supervisor_allowed by assumption. cbv beta iota zeta.
  destruct ram_zone as [-> ->].
  pose proof (mapAddr_frame s A true) as (E1 & E2 & _ & E3 & E4).
  subst p s1. destruct (mapAddr s A true) as [m t]. cbv [fst snd] in *.
  now rewrite E1, E2, E3, E4.
Qed.

Lemma read8_ram (t : state_t) :
  supervisor t = true -> romlmap t = true ->
  fst (m68k_read_memory_8 ROM_SIZE t A) =
  let q := fst (mapAddr t A false) in
  if q <=? 0x1fffff then RD8 (base_ram t) q (size_t (base_ram_size t - 1))
  else if q <=? size_t (exp_ram_size t + 0x200000 - 1)
       then RD8 (exp_ram t) (q - 0x200000) (size_t (exp_ram_size t - 1))
       else 0xff.
Proof.
  intros Ht Hr.
  unfold m68k_read_memory_8, rom_overlay, ACCESS_CHECK_RD. rewrite Hr. cbv [negb].
  rewrite supervisor_allowed by assumption. cbv beta iota zeta.
  destruct ram_zone as [-> ->].
  pose proof (mapAddr_frame t A false) as (E1 & E2 & _ & E3 & E4).
  destruct (mapAddr t A false) as [m t']. cbv [fst snd] in *.
  rewrite E1, E2, E3, E4. repeat case_if; reflexivity.
Qed.

Lemma ram_byte_read_back :
  Z.of_nat (length (base_ram s)) = base_ram_size s -> 0 < base_ram_size s < 2 ^ 64 ->
  Z.of_nat (length (exp_ram s)) = exp_ram_size s -> exp_ram_size s < 2 ^ 63 ->
  p < 0x200000 + exp_ram_size s ->
  fst (m68k_read_memory_8 ROM_SIZE (m68k_write_memory_8 s A v) A) = uint8 v.
Proof.
  intros Lb Sb Le Se Hp.
  assert (Hs1 : supervisor s1 = true /\ romlmap s1 = true).
  { destruct (mapAddr_modes s A true) as [E1 E2]. fold s1 in E1, E2.
    unfold supervisor. now rewrite E1, E2. }
  assert (Hq : forall t, fst (mapAddr t A false) = fst (mapAddr s1 A false) ->
               fst (mapAddr t A false) = p).
  { intros t ->. subst s1 p.
    rewrite (translation_after_mapAddr s A A true false Hb Hl).
    apply mapAddr_fst_writing. }
  rewrite write8_ram.
  change (2 ^ 64) with 18446744073709551616 in *.
  change (2 ^ 63) with 9223372036854775808 in *.
  destruct (p <=? 0x1fffff) eqn:E.
  - rewrite read8_ram by (destruct s1; apply Hs1).
    cbv zeta. rewrite Hq by (now rewrite mapAddr_set_base_ram).
    rewrite E. replace (base_ram (set_base_ram _ s1)) with
      (WR8 (base_ram s) p (size_t (base_ram_size s - 1)) v) by (destruct s1; reflexivity).
    replace (base_ram_size (set_base_ram _ s1)) with (base_ram_size s).
    2:{ pose proof (mapAddr_frame s A true) as (_ & _ & _ & E3 & _). fold s1 in E3.
        rewrite <- E3. destruct s1; reflexivity. }
    apply RD8_WR8. rewrite size_t_small; change (2 ^ 64) with 18446744073709551616; lia.
  - apply Z.leb_gt in E.
    rewrite read8_ram by (destruct s1; apply Hs1).
    cbv zeta. rewrite Hq by (now rewrite mapAddr_set_exp_ram).
    replace (p <=? 0x1fffff) with false by (symmetry; apply Z.leb_gt; lia).
    replace (exp_ram (set_exp_ram _ s1)) with
      (WR8 (exp_ram s) (p - 0x200000) (size_t (exp_ram_size s - 1)) v)
      by (destruct s1; reflexivity).
    replace (exp_ram_size (set_exp_ram _ s1)) with (exp_ram_size s).
    2:{ pose proof (mapAddr_frame s A true) as (_ & _ & _ & _ & E4). fold s1 in E4.
        rewrite <- E4. destruct s1; reflexivity. }
    rewrite (size_t_small (exp_ram_size s + 0x200000 - 1))
      by (change (2 ^ 64) with 18446744073709551616; lia).
    replace (p <=? exp_ram_size s + 0x200000 - 1) with true by (symmetry; apply Z.leb_le; lia).
    apply RD8_WR8. rewrite size_t_small; change (2 ^ 64) with 18446744073709551616; lia.
Qed.

End RamByte.

(** X15.  A byte written to RAM is read back: in supervisor mode with
    ROMLMAP set, for an address below 4 MiB whose physical address lies
    in base RAM or inside the expansion RAM, with arrays as long as
    their sizes say, an 8-bit read after an 8-bit write returns the
    byte written; the write marks the page accessed and dirty when it
    is present, and touches neither video RAM nor the ROM. *)
Theorem ram_byte_round_trip (ROM_SIZE : Z) (s : state_t) (A v : Z) :
  supervisor s = true -> romlmap s = true -> 0 <= A < 0x400000 ->
  bytes_ok (map s) = true -> length (map s) = 2048%nat ->
  Z.of_nat (length (base_ram s)) = base_ram_size s -> 0 < base_ram_size s < 2 ^ 64 ->
  Z.of_nat (length (exp_ram s)) = exp_ram_size s -> exp_ram_size s < 2 ^ 63 ->
  fst (mapAddr s A true) < 0x200000 + exp_ram_size s ->
  let s' := m68k_write_memory_8 s A v in
  fst (m68k_read_memory_8 ROM_SIZE s' A) = uint8 v
  /\ map s' = map_after_write s A
  /\ vram s' = vram s /\ rom s' = rom s.
Proof.
  intros Hs Hr HA Hb Hl Lb Sb Le Se Hp s'. subst s'.
  split; [now apply ram_byte_read_back|].
  rewrite write8_ram by assumption.
  assert (Hm : map (snd (mapAddr s A true)) = map_after_write s A).
  { rewrite (mapAddr_low s A true Hb) by lia. cbv [snd]. unfold map_after_write.
    destruct (presence_bits s A =? 0); [reflexivity | destruct s; reflexivity]. }
  assert (Hf : vram (snd (mapAddr s A true)) = vram s /\ rom (snd (mapAddr s A true)) = rom s).
  { rewrite (mapAddr_low s A true Hb) by lia. cbv [snd].
    destruct (presence_bits s A =? 0); [split; reflexivity | destruct s; split; reflexivity]. }
  destruct Hf as [Hv Hro]. rewrite <- Hm, <- Hv, <- Hro.
  destruct (fst (mapAddr s A true) <=? 0x1fffff);
    destruct (snd (mapAddr s A true)); repeat split; reflexivity.
Qed.

(** Page 1 mapped to physical page 2: the byte 0x1AB written to 0x1010. *)
Lemma ram_byte_round_trip_witness :
  let s := machine 0x2000 (map_with 1 0x2002) 0x80000 in
  let s' := m68k_write_memory_8 s 0x1010 0x1AB in
  supervisor s = true
  /\ romlmap s = true
  /\ 0 <= 0x1010 < 0x400000
  /\ bytes_ok (map s) = true
  /\ length (map s) = 2048%nat
  /\ Z.of_nat (length (base_ram s)) = base_ram_size s
  /\ 0 < base_ram_size s < 2 ^ 64
  /\ Z.of_nat (length (exp_ram s)) = exp_ram_size s
  /\ exp_ram_size s < 2 ^ 63
  /\ fst (mapAddr s 0x1010 true) < 0x200000 + exp_ram_size s
  /\ fst (m68k_read_memory_8 0x8000 s' 0x1010) = uint8 0x1AB
  /\ map s' = map_after_write s 0x1010.
Proof.
  intros s s'.
  assert (H1 : supervisor s = true) by reflexivity.
  assert (H2 : romlmap s = true) by reflexivity.
  assert (H3 : 0 <= 0x1010 < 0x400000) by lia.
  assert (H4 : bytes_ok (map s) = true) by reflexivity.
  assert (H5 : length (map s) = 2048%nat) by reflexivity.
  assert (H6 : Z.of_nat (length (base_ram s)) = base_ram_size s).
  { change (base_ram s) with (replicate (Z.to_nat 0x200000) 0).
    change (base_ram_size s) with 0x200000. rewrite length_replicate. lia. }
  assert (H7 : 0 < base_ram_size s < 2 ^ 64) by (split; reflexivity).
  assert (H8 : Z.of_nat (length (exp_ram s)) = exp_ram_size s).
  { change (exp_ram s) with (replicate (Z.to_nat 0x80000) 0).
    change (exp_ram_size s) with 0x80000. rewrite length_replicate. lia. }
  assert (H9 : exp_ram_size s < 2 ^ 63) by reflexivity.
  assert (H10 : fst (mapAddr s 0x1010 true) < 0x200000 + exp_ram_size s) by reflexivity.
  destruct (ram_byte_round_trip 0x8000 s 0x1010 0x1AB H1 H2 H3 H4 H5 H6 H7 H8 H9 H10)
    as (Ha & Hb & _).
  repeat (split; [assumption|]). exact Hb.
Defined.

(** ** Programming the map RAM *)

(** The two bytes of a 16-bit store, read back as one entry. *)
Lemma bytes_of_word e :
  Z.lor (Z.shiftl (uint8 (Z.shiftr e 8)) 8) (uint8 e) = Z.land e 0xFFFF.
Proof.
  rewrite !uint8_land. apply Z.bits_inj'. intros i Hi.
  rewrite Z.lor_spec, !Z.land_spec.
  change 0xFF with (Z.ones 8). change 0xFFFF with (Z.ones 16).
  rewrite !Z.testbit_ones_nonneg by lia.
  destruct (Z.ltb_spec i 8) as [H8|H8].
  - rewrite Z.shiftl_spec_low by lia. cbn [orb].
    replace (i <? 16) with true by (symmetry; apply Z.ltb_lt; lia). reflexivity.
  - rewrite Z.shiftl_spec, Z.land_spec, Z.shiftr_spec by lia.
    rewrite Z.testbit_ones_nonneg by lia.
    replace (i - 8 + 8) with i by lia. rewrite andb_false_r, orb_false_r.
    f_equal. destruct (Z.ltb_spec (i - 8) 8), (Z.ltb_spec i 16); try reflexivity; lia.
Qed.

Lemma land_7FF_succ a q : 0 <= q < 1024 -> Z.land a 0x7FF = 2 * q ->
  Z.land (a + 1) 0x7FF = 2 * q + 1.
Proof.
  change 0x7FF with (Z.ones 11). rewrite !Z.land_ones by lia.
  change (2 ^ 11) with 2048. intros Hq H.
  rewrite <- Z.add_mod_idemp_l, H by lia. apply Z.mod_small. lia.
Qed.

Lemma write16_map_ram s Am e :
  supervisor s = true -> romlmap s = true -> zoneA_reg 0 Am ->
  m68k_write_memory_16 s Am e = set_map (WR16 (map s) Am 0x7FF e) s.
Proof.
  intros Hs Hr [Hz Hsel].
  unfold m68k_write_memory_16, ACCESS_CHECK_WR. rewrite rom_overlay_set by assumption.
  rewrite supervisor_allowed by assumption. cbv beta iota zeta.
  replace ((0x800000 <=? Am) && (Am <=? 0xBFFFFF)) with false
    by (symmetry; apply andb_false_iff; left; apply Z.leb_gt; lia).
  replace (Am <=? 0x3FFFFF) with false by (symmetry; apply Z.leb_gt; lia).
  rewrite (zoneA_true Am Hz), Hsel. reflexivity.
Qed.

Lemma map_entry_written s Am e q :
  bytes_ok (map s) = true -> length (map s) = 2048%nat ->
  map_ram_entry q Am ->
  let s' := set_map (WR16 (map s) Am 0x7FF e) s in
  bytes_ok (map s') = true /\ length (map s') = 2048%nat
  /\ spec_map_entry s' q = Z.land e 0xFFFF
  /\ (forall q', 0 <= q' < 1024 -> q' <> q -> spec_map_entry s' q' = spec_map_entry s q').
Proof.
  intros Hb Hl (_ & Hq & Hlo) s'. subst s'.
  pose proof (land_7FF_succ Am q Hq Hlo) as Hhi.
  unfold WR16, wr. cbv zeta. rewrite Hlo, Hhi.
  destruct s; state_cbn. cbn [map] in Hb, Hl.
  split; [|split; [|split]].
  - apply bytes_ok_insert; [apply bytes_ok_insert; [assumption|]|].
    + pose proof (uint8_range (Z.shiftr e 8)). change (2 ^ 8) with 256 in *. lia.
    + pose proof (uint8_range e). change (2 ^ 8) with 256 in *. lia.
  - now rewrite !length_insert.
  - unfold spec_map_entry. state_cbn.
    replace (q * 2) with (2 * q) by lia.
    rewrite (rd_insert_ne _ (2 * q + 1) (2 * q)) by lia.
    rewrite rd_insert_eq by lia.
    rewrite rd_insert_eq by (rewrite length_insert; lia).
    apply bytes_of_word.
  - intros q' Hq' Hne. unfold spec_map_entry. state_cbn.
    rewrite !rd_insert_ne by lia. reflexivity.
Qed.

(** X16.  Programming the map: after a 16-bit supervisor write of [e]
    to the map RAM address of page [q], every address of page [q]
    translates to physical page [e & 0x3FF] with the same offset, its
    presence bits are bits 13 and 14 of [e], and the translation of the
    addresses of the other pages is unchanged. *)
Theorem map_ram_programs_translation (s : state_t) (Am e q a : Z) (w : bool) :
  supervisor s = true -> romlmap s = true ->
  bytes_ok (map s) = true -> length (map s) = 2048%nat ->
  map_ram_entry q Am ->
  a < 0x400000 -> page_of a = q ->
  let s' := m68k_write_memory_16 s Am e in
  fst (mapAddr s' a w) = Z.lor (Z.shiftl (Z.land e 0x3FF) 12) (Z.land a 0xFFF)
  /\ presence_bits s' a = Z.land (Z.shiftr e 13) 0x03
  /\ (forall a', a' < 0x400000 -> page_of a' <> q ->
        fst (mapAddr s' a' w) = fst (mapAddr s a' w)).
Proof.
  intros Hs Hr Hb Hl Hm Ha Hp s'. subst s'.
  rewrite (write16_map_ram s Am e Hs Hr (proj1 Hm)).
  destruct (map_entry_written s Am e q Hb Hl Hm) as (Hb' & Hl' & He & Ho).
  split; [|split].
  - rewrite mapAddr_low by assumption. cbv [fst]. rewrite Hp, He.
    rewrite land_land_mask. reflexivity.
  - unfold presence_bits. rewrite Hp, He.
    rewrite Z.shiftr_land, land_land_mask. reflexivity.
  - intros a' Ha' Hne. rewrite !mapAddr_low by assumption. cbv [fst].
    rewrite Ho by (try apply page_of_range; assumption). reflexivity.
Qed.

(** The entry of page 1 written at 0x400002 with 0x2005: address
    0x1234 translates to physical page 5. *)
Lemma map_ram_programs_translation_witness :
  let s := machine 0x2000 map_empty 0 in
  let s' := m68k_write_memory_16 s 0x400002 0x2005 in
  supervisor s = true
  /\ romlmap s = true
  /\ bytes_ok (map s) = true
  /\ length (map s) = 2048%nat
  /\ map_ram_entry 1 0x400002
  /\ 0x1234 < 0x400000
  /\ page_of 0x1234 = 1
  /\ fst (mapAddr s' 0x1234 false)
     = Z.lor (Z.shiftl (Z.land 0x2005 0x3FF) 12) (Z.land 0x1234 0xFFF)
  /\ presence_bits s' 0x1234 = Z.land (Z.shiftr 0x2005 13) 0x03.
Proof.
  intros s s'.
  assert (H1 : supervisor s = true) by reflexivity.
  assert (H2 : romlmap s = true) by reflexivity.
  assert (H3 : bytes_ok (map s) = true) by reflexivity.
  assert (H4 : length (map s) = 2048%nat) by reflexivity.
  assert (H5 : map_ram_entry 1 0x400002).
  { split; [split; [lia | reflexivity]|]. split; [lia | reflexivity]. }
  assert (H6 : 0x1234 < 0x400000) by lia.
  assert (H7 : page_of 0x1234 = 1) by reflexivity.
  destruct (map_ram_programs_translation s 0x400002 0x2005 1 0x1234 false H1 H2 H3 H4 H5 H6 H7)
    as (Ha & Hb & _).
  repeat (split; [assumption|]). exact Hb.
Defined.

(** * Further properties of the FDC *)

(** ** No image, and the load of an image *)

Lemma no_disc_after_init c0 : disc_image (wd2797_init c0) = None.
Proof. reflexivity. Qed.

Lemma no_disc_after_unload c0 : disc_image (wd2797_unload c0) = None.
Proof. unfold wd2797_unload. destruct (data c0); reflexivity. Qed.

(** X17.  A command written while no image is loaded (also right after
    [wd2797_init] or [wd2797_unload]) is answered "not ready": whatever
    the command byte, the status is 0x80 and the IRQ is raised, and the
    head, the track register and the buffer positions are as before. *)
Theorem command_without_disc (c c0 : WD2797_CTX) (val : Z) :
  disc_image c = None \/ c = wd2797_init c0 \/ c = wd2797_unload c0 ->
  let c' := wd2797_write_reg c WD2797_REG_COMMAND val in
  c' = set_irq true (set_status 0x80 c)
  /\ status c' = 0x80 /\ irq c' = true
  /\ track c' = track c /\ track_reg c' = track_reg c
  /\ data_pos c' = data_pos c /\ data_len c' = data_len c
  /\ disc_image c' = None.
Proof.
  intros H c'. subst c'.
  assert (Hn : disc_image c = None).
  { destruct H as [H | [-> | ->]];
      [assumption | apply no_disc_after_init | apply no_disc_after_unload]. }
  unfold wd2797_write_reg, write_command.
  change (WD2797_REG_COMMAND =? WD2797_REG_COMMAND) with true. cbv iota zeta.
  destruct c; ctx_cbn. cbn [disc_image] in Hn. subst disc_image0.
  repeat split; reflexivity.
Qed.

(** READ SECTOR right after [wd2797_init]. *)
Lemma command_without_disc_witness :
  let c := wd2797_init ctx_zero in
  let c' := wd2797_write_reg c WD2797_REG_COMMAND 0x80 in
  c = wd2797_init ctx_zero
  /\ status c' = 0x80 /\ irq c' = true /\ disc_image c' = None.
Proof.
  intros c c'.
  assert (H1 : c = wd2797_init ctx_zero) by reflexivity.
  destruct (command_without_disc c ctx_zero 0x80 (or_intror (or_introl H1)))
    as (_ & Ha & Hb & _ & _ & _ & _ & Hc).
  split; [exact H1|]. split; [exact Ha|]. split; [exact Hb | exact Hc].
Defined.



(** ** The Type 1 commands *)

(** The command nibble is one of sixteen values. *)
Lemma command_nibble (val : Z) :
  exists k, 0 <= k < 16 /\ Z.land val 0xF0 = 16 * k.
Proof.
  exists (Z.land (Z.shiftr val 4) 0xF). split.
  - change 0xF with (Z.ones 4). apply (land_ones_range _ 4). lia.
  - replace (16 * Z.land (Z.shiftr val 4) 0xF) with (Z.shiftl (Z.land (Z.shiftr val 4) 0xF) 4)
      by (rewrite Z.shiftl_mul_pow2 by lia; change (2 ^ 4) with 16; lia).
    apply Z.bits_inj'. intros i Hi.
    rewrite Z.land_spec. change 0xF0 with (Z.shiftl (Z.ones 4) 4).
    destruct (Z.ltb_spec i 4) as [H4|H4].
    + rewrite !Z.shiftl_spec_low by lia. apply andb_false_r.
    + rewrite !Z.shiftl_spec, Z.land_spec, Z.shiftr_spec by lia.
      replace (i - 4 + 4) with i by lia. reflexivity.
Qed.

Lemma command_cases (val : Z) :
  let n := Z.land val 0xF0 in
  n = 0x00 \/ n = 0x10 \/ n = 0x20 \/ n = 0x30 \/ n = 0x40 \/ n = 0x50 \/ n = 0x60
  \/ n = 0x70 \/ n = 0x80 \/ n = 0x90 \/ n = 0xA0 \/ n = 0xB0 \/ n = 0xC0 \/ n = 0xD0
  \/ n = 0xE0 \/ n = 0xF0.
Proof. destruct (command_nibble val) as (k & Hk & E). cbv zeta. lia. Qed.

(** The command write with an image loaded, for command nibble [n]. *)
Lemma write_command_disc (c : WD2797_CTX) (val n : Z) (img : list Z) :
  disc_image c = Some img -> Z.land val 0xF0 = n -> 0 <= n < 256 ->
  wd2797_write_reg c WD2797_REG_COMMAND val =
  let '(is_type1, ctx) := type1_switch n (set_irq false c) in
  if is_type1 then type1_status ctx
  else
    let ctx := set_cmd_has_drq true ctx in
    match disc_image ctx with
    | None => set_status 0x80 ctx
    | Some _ =>
      if negb (truthy (writeable ctx))
         && ((n =? CMD_WRITE_SECTOR) || (n =? CMD_WRITE_SECTOR_MULTI)
             || (n =? CMD_FORMAT_TRACK))
      then set_irq true (set_status 0x40 ctx)
      else command_switch n val ctx
    end.
Proof.
  intros Hi Hn Hr. unfold wd2797_write_reg, write_command, CMD_MASK.
  change (WD2797_REG_COMMAND =? WD2797_REG_COMMAND) with true. cbv iota zeta.
  rewrite Hn, (uint8_small n) by (change (2 ^ 8) with 256; lia).
  destruct c; ctx_cbn. cbn [disc_image] in Hi. subst disc_image0. reflexivity.
Qed.

Lemma type1_status_effect (c : WD2797_CTX) :
  let c' := type1_status c in
  irq c' = true /\ data_pos c' = 0 /\ data_len c' = 0
  /\ cmd_has_drq c' = false /\ wd2797_get_drq c' = false
  /\ status c' = (if track c =? 0 then 0x24 else 0x20)
  /\ fst (wd2797_read_reg c' WD2797_REG_STATUS) = status c'
  /\ track c' = track c /\ track_reg c' = track_reg c
  /\ data c' = data c /\ disc_image c' = disc_image c /\ sector c' = sector c
  /\ last_step_dir c' = last_step_dir c.
Proof.
  unfold type1_status, wd2797_get_drq, wd2797_read_reg. cbv zeta.
  change (Z.land WD2797_REG_STATUS 3 =? WD2797_REG_STATUS) with true. cbv iota.
  destruct c; ctx_cbn. destruct (track0 =? 0); repeat split; reflexivity.
Qed.

Lemma type1_switch_frame (n : Z) (c : WD2797_CTX) :
  let c' := snd (type1_switch n c) in
  data c' = data c /\ disc_image c' = disc_image c /\ sector c' = sector c
  /\ geom_tracks c' = geom_tracks c /\ irq c' = irq c.
Proof.
  unfold type1_switch. destruct c; ctx_cbn.
  repeat (case_if; ctx_cbn); repeat split; reflexivity.
Qed.

Lemma type1_switch_true (val : Z) (c : WD2797_CTX) :
  is_type1_command val -> fst (type1_switch (Z.land val 0xF0) c) = true.
Proof.
  unfold is_type1_command. intros Ht.
  pose proof (command_cases val) as Hc. cbv zeta in Hc.
  destruct Hc as [E|[E|[E|[E|[E|[E|[E|[E|Hc]]]]]]]]; [..|lia];
    rewrite E; unfold type1_switch;
    unfold CMD_RESTORE, CMD_SEEK, CMD_STEP, CMD_STEPIN, CMD_STEPOUT, CMD_STEP_TU,
      CMD_STEPIN_TU, CMD_STEPOUT_TU;
    eqb_closed; cbn [orb]; cbv iota; reflexivity.
Qed.

Lemma type1_write (c : WD2797_CTX) (val : Z) :
  disc_image c <> None -> is_type1_command val ->
  wd2797_write_reg c WD2797_REG_COMMAND val
  = type1_status (snd (type1_switch (Z.land val 0xF0) (set_irq false c))).
Proof.
  intros Hi Ht.
  destruct (disc_image c) as [img|] eqn:Himg; [clear Hi|congruence].
  assert (Hr : 0 <= Z.land val 0xF0 < 256).
  { destruct (command_nibble val) as (k & Hk & ->). lia. }
  rewrite (write_command_disc c val _ img Himg eq_refl Hr).
  pose proof (type1_switch_true val (set_irq false c) Ht) as H1.
  destruct (type1_switch _ _) as [b t]. cbv [fst snd] in *. now rewrite H1.
Qed.

(** X19.  Every Type 1 command (top bit of the command byte clear) on a
    loaded drive ends the transfer in progress: both buffer positions
    are 0, DRQ is off, the IRQ is raised, and the status is 0x20, or
    0x24 on track 0, which is what STATUS then reads; the buffer, the
    image and the sector register are kept. *)
Theorem type1_commands_end_transfer (c : WD2797_CTX) (val : Z) :
  disc_image c <> None -> is_type1_command val ->
  let c' := wd2797_write_reg c WD2797_REG_COMMAND val in
  irq c' = true /\ data_pos c' = 0 /\ data_len c' = 0
  /\ cmd_has_drq c' = false /\ wd2797_get_drq c' = false
  /\ status c' = (if track c' =? 0 then 0x24 else 0x20)
  /\ fst (wd2797_read_reg c' WD2797_REG_STATUS) = status c'
  /\ data c' = data c /\ disc_image c' = disc_image c /\ sector c' = sector c.
Proof.
  intros Hi Ht c'. subst c'. rewrite (type1_write c val Hi Ht).
  set (t := snd (type1_switch _ _)).
  destruct (type1_status_effect t) as (H1 & H2 & H3 & H4 & H5 & H6 & H7 & H8 & _ & H9 & H10 & H11 & _).
  destruct (type1_switch_frame (Z.land val 0xF0) (set_irq false c)) as (F1 & F2 & F3 & _).
  fold t in F1, F2, F3.
  rewrite H8, H9, H10, H11, F1, F2, F3.
  repeat (split; [assumption|]). destruct c; repeat split; reflexivity.
Qed.

(** RESTORE (0x0B) on a loaded drive. *)
Lemma type1_commands_end_transfer_witness :
  let c := ctx_loaded 40 1 in
  let c' := wd2797_write_reg c WD2797_REG_COMMAND 0x0B in
  disc_image c <> None
  /\ is_type1_command 0x0B
  /\ irq c' = true /\ data_pos c' = 0 /\ data_len c' = 0 /\ wd2797_get_drq c' = false.
Proof.
  intros c c'.
  assert (H1 : disc_image c <> None) by discriminate.
  assert (H2 : is_type1_command 0x0B) by reflexivity.
  destruct (type1_commands_end_transfer c 0x0B H1 H2) as (Ha & Hb & Hc & _ & Hd & _).
  repeat (split; [assumption|]). exact Hd.
Defined.

(** ** Head positioning *)

Ltac closed_tests :=
  repeat match goal with
         | |- context [Z.land (Zpos ?p) (Zneg ?q)] =>
           let v := eval cbv in (Z.land (Zpos p) (Zneg q)) in
           change (Z.land (Zpos p) (Zneg q)) with v
         | |- context [truthy (Zpos ?p)] => change (truthy (Zpos p)) with true
         | |- context [truthy 0] => change (truthy 0) with false
         | |- context [Z.testbit (Zpos ?p) (Zpos ?q)] =>
           let v := eval cbv in (Z.testbit (Zpos p) (Zpos q)) in
           change (Z.testbit (Zpos p) (Zpos q)) with v
         end.

Ltac type1_unfold :=
  unfold type1_switch;
  unfold CMD_RESTORE, CMD_SEEK, CMD_STEP, CMD_STEPIN, CMD_STEPOUT, CMD_STEP_TU,
    CMD_STEPIN_TU, CMD_STEPOUT_TU;
  eqb_closed; cbn [orb]; cbv iota.

Lemma is_type1_of (val n : Z) : Z.land val 0xF0 = n -> n < 0x80 -> is_type1_command val.
Proof. intros <- H. exact H. Qed.

(** X20.  RESTORE puts the head and the track register on track 0, with
    status 0x24; SEEK to a track below the number of tracks puts the
    value of the data register in both. *)
Theorem restore_and_seek (c : WD2797_CTX) (val : Z) :
  disc_image c <> None ->
  let c' := wd2797_write_reg c WD2797_REG_COMMAND val in
  (Z.land val 0xF0 = CMD_RESTORE ->
   track c' = 0 /\ track_reg c' = 0 /\ status c' = 0x24)
  /\ (Z.land val 0xF0 = CMD_SEEK -> data_reg c < geom_tracks c ->
      track c' = data_reg c /\ track_reg c' = data_reg c
      /\ status c' = (if data_reg c =? 0 then 0x24 else 0x20)).
Proof.
  intros Hi c'. subst c'. split.
  - intros E. rewrite (type1_write c val Hi (is_type1_of val _ E ltac:(reflexivity))).
    destruct (type1_status_effect (snd (type1_switch (Z.land val 0xF0) (set_irq false c))))
      as (_ & _ & _ & _ & _ & H6 & _ & H8 & H9 & _).
    rewrite H6, H8, H9, E. unfold CMD_RESTORE. type1_unfold.
    destruct c; repeat split; reflexivity.
  - intros E Hlt. rewrite (type1_write c val Hi (is_type1_of val _ E ltac:(reflexivity))).
    destruct (type1_status_effect (snd (type1_switch (Z.land val 0xF0) (set_irq false c))))
      as (_ & _ & _ & _ & _ & H6 & _ & H8 & H9 & _).
    rewrite H6, H8, H9, E. unfold CMD_SEEK. type1_unfold.
    destruct c; ctx_cbn. cbn [data_reg geom_tracks] in Hlt.
    apply Z.ltb_lt in Hlt. rewrite Hlt. ctx_cbn. repeat split; reflexivity.
Qed.

(** SEEK to track 7 of 40. *)
Lemma restore_and_seek_witness :
  let c := wd2797_write_reg (ctx_loaded 40 1) WD2797_REG_DATA 7 in
  let c' := wd2797_write_reg c WD2797_REG_COMMAND 0x10 in
  disc_image c <> None
  /\ Z.land 0x10 0xF0 = CMD_SEEK
  /\ data_reg c < geom_tracks c
  /\ track c' = data_reg c /\ track_reg c' = data_reg c.
Proof.
  intros c c'.
  assert (H1 : disc_image c <> None) by discriminate.
  assert (H2 : Z.land 0x10 0xF0 = CMD_SEEK) by reflexivity.
  assert (H3 : data_reg c < geom_tracks c) by reflexivity.
  destruct (proj2 (restore_and_seek c 0x10 H1) H2 H3) as (Ha & Hb & _).
  repeat (split; [assumption|]). exact Hb.
Defined.

(** X21.  Stepping on a loaded drive with at least one track: the plain STEP command (0x2x)
    moves neither the head nor the track register; STEP with update
    (0x3x), STEP IN and STEP OUT move the head by one track in their
    direction (inwards +1, outwards -1, STEP the last one used), kept
    between track 0 and the last track; the track register follows the
    head only when the update flag (bit 4) is set. *)
Theorem step_commands (c : WD2797_CTX) (val : Z) :
  disc_image c <> None -> 1 <= geom_tracks c ->
  let n := Z.land val 0xF0 in
  let c' := wd2797_write_reg c WD2797_REG_COMMAND val in
  (n = CMD_STEP ->
   track c' = track c /\ track_reg c' = track_reg c
   /\ last_step_dir c' = last_step_dir c)
  /\ (CMD_STEP_TU <= n <= CMD_STEPOUT_TU ->
      last_step_dir c' = step_direction n c
      /\ track c' = Z.min (Z.max (track c + step_direction n c) 0) (geom_tracks c - 1)
      /\ 0 <= track c' <= geom_tracks c - 1
      /\ track_reg c' = (if Z.testbit n 4 then track c' else track_reg c)).
Proof.
  intros Hi Hg n c'. subst n c'. split.
  - intros E. rewrite (type1_write c val Hi (is_type1_of val _ E ltac:(reflexivity))).
    destruct (type1_status_effect (snd (type1_switch (Z.land val 0xF0) (set_irq false c))))
      as (_ & _ & _ & _ & _ & _ & _ & H8 & H9 & _ & _ & _ & H13).
    rewrite H8, H9, H13, E. unfold CMD_STEP. type1_unfold.
    destruct c; repeat split; reflexivity.
  - unfold CMD_STEP_TU, CMD_STEPOUT_TU. intros Hr.
    assert (Ht : is_type1_command val) by (unfold is_type1_command; lia).
    rewrite (type1_write c val Hi Ht).
    destruct (type1_status_effect (snd (type1_switch (Z.land val 0xF0) (set_irq false c))))
      as (_ & _ & _ & _ & _ & _ & _ & H8 & H9 & _ & _ & _ & H13).
    rewrite H8, H9, H13. clear H8 H9 H13 Ht.
    pose proof (command_cases val) as Hc. cbv zeta in Hc.
    assert (E : Z.land val 0xF0 = 0x30 \/ Z.land val 0xF0 = 0x40 \/ Z.land val 0xF0 = 0x50
                \/ Z.land val 0xF0 = 0x60 \/ Z.land val 0xF0 = 0x70) by lia.
    clear Hc Hr.
    destruct E as [E|[E|[E|[E|E]]]]; rewrite E; unfold step_direction;
      type1_unfold; unfold CMD_STEPIN, CMD_STEPOUT, CMD_STEPIN_TU, CMD_STEPOUT_TU;
      mask_closed; eqb_closed; cbn [orb]; cbv iota;
      change (Z.lnot 16) with (-17); closed_tests; mask_closed; eqb_closed;
      destruct c; ctx_cbn; cbn [geom_tracks] in Hg;
      repeat (case_if; ctx_cbn);
      repeat match goal with
             | H : _ = true |- _ => progress ctx_cbn in H
             | H : _ = false |- _ => progress ctx_cbn in H
             end;
      repeat match goal with
             | H : (_ <? _) = true |- _ => apply Z.ltb_lt in H
             | H : (_ <? _) = false |- _ => apply Z.ltb_ge in H
             | H : (_ <=? _) = true |- _ => apply Z.leb_le in H
             | H : (_ <=? _) = false |- _ => apply Z.leb_gt in H
             end;
      (split; [reflexivity|]); (split; [lia|]); (split; [lia|]); reflexivity.
Qed.

(** STEP IN with the update flag (0x50) from track 0 of 40. *)
Lemma step_commands_witness :
  let c := ctx_loaded 40 1 in
  let n := Z.land 0x50 0xF0 in
  let c' := wd2797_write_reg c WD2797_REG_COMMAND 0x50 in
  disc_image c <> None
  /\ 1 <= geom_tracks c
  /\ CMD_STEP_TU <= n <= CMD_STEPOUT_TU
  /\ track c' = Z.min (Z.max (track c + step_direction n c) 0) (geom_tracks c - 1)
  /\ 0 <= track c' <= geom_tracks c - 1.
Proof.
  intros c n c'.
  assert (H1 : disc_image c <> None) by discriminate.
  assert (H2 : 1 <= geom_tracks c) by (lazy; discriminate).
  assert (H3 : CMD_STEP_TU <= n <= CMD_STEPOUT_TU) by (split; lazy; discriminate).
  destruct (proj2 (step_commands c 0x50 H1 H2) H3) as (_ & Ha & Hb & _).
  split; [exact H1|]. split; [exact H2|]. split; [exact H3|]. split; [exact Ha | exact Hb].
Defined.

(** ** Reading the DATA register *)

(** Two contexts with equal fields are equal. *)
Lemma ctx_ext (c c' : WD2797_CTX) :
  track c = track c' -> head c = head c' -> sector c = sector c' ->
  track_reg c = track_reg c' -> geom_secsz c = geom_secsz c' ->
  geom_spt c = geom_spt c' -> geom_heads c = geom_heads c' ->
  geom_tracks c = geom_tracks c' -> irq c = irq c' -> status c = status c' ->
  cmd_has_drq c = cmd_has_drq c' -> data_reg c = data_reg c' ->
  last_step_dir c = last_step_dir c' -> data c = data c' ->
  data_pos c = data_pos c' -> data_len c = data_len c' ->
  disc_image c = disc_image c' -> writeable c = writeable c' ->
  write_pos c = write_pos c' -> formatting c = formatting c' ->
  irql c = irql c' -> c = c'.
Proof. destruct c, c'; cbn; intros; subst; reflexivity. Qed.

Ltac ctx_fields := apply ctx_ext; ctx_cbn; try reflexivity.

(** [blit] in closed form. *)
Lemma blit_closed (src : list Z) : forall (a : list Z) (off : nat),
  (off + length src <= length a)%nat ->
  blit a off src = take off a ++ src ++ drop (off + length src) a.
Proof.
  induction src as [|b src IH]; intros a off H; cbn [blit length] in *.
  - rewrite Nat.add_0_r. cbn [app]. symmetry. apply take_drop.
  - rewrite IH by (rewrite length_insert; lia).
    rewrite (take_S_r _ _ b) by (apply list_lookup_insert_eq; lia).
    rewrite take_insert_ge by lia.
    rewrite drop_insert_lt by lia.
    rewrite <- app_assoc. cbn [app].
    replace (off + S (length src))%nat with (S off + length src)%nat by lia. reflexivity.
Qed.

Lemma take_blit (src a : list Z) :
  (length src <= length a)%nat -> take (length src) (blit a 0 src) = src.
Proof.
  intros H. rewrite blit_closed by lia. rewrite take_0. cbn [app]. apply take_app_length.
Qed.

Lemma fread_full (img : list Z) (pos n : Z) :
  0 <= pos -> 0 <= n -> pos + n <= Z.of_nat (length img) ->
  length (fread img pos n) = Z.to_nat n.
Proof.
  intros Hp Hn H. unfold fread. rewrite length_take, length_drop. lia.
Qed.

(** One read of the DATA register with bytes left. *)
Lemma read_data_byte (c : WD2797_CTX) (buf : list Z) :
  data c = Some buf ->
  0 <= data_pos c < data_len c -> data_len c < 2 ^ 64 ->
  wd2797_read_reg c WD2797_REG_DATA =
  (rd buf (data_pos c),
   set_data_pos (data_pos c + 1)
     (if data_pos c + 1 =? data_len c then set_irq true c else c)).
Proof.
  intros Hd Hp Hl. unfold wd2797_read_reg.
  change (Z.land WD2797_REG_DATA 3) with 3.
  unfold WD2797_REG_STATUS, WD2797_REG_TRACK, WD2797_REG_SECTOR, WD2797_REG_DATA.
  eqb_closed.
  destruct c; ctx_cbn. cbn [data data_pos data_len] in *. subst data0.
  replace (data_pos0 <? data_len0) with true by (symmetry; apply Z.ltb_lt; lia).
  rewrite size_t_small by lia.
  replace (data_pos0 =? data_len0 - 1) with (data_pos0 + 1 =? data_len0).
  2:{ destruct (Z.eqb_spec (data_pos0 + 1) data_len0), (Z.eqb_spec data_pos0 (data_len0 - 1));
        try reflexivity; lia. }
  destruct (data_pos0 + 1 =? data_len0); reflexivity.
Qed.

Lemma read_data_drains (n : nat) : forall (c : WD2797_CTX) (buf : list Z),
  data c = Some buf ->
  0 <= data_pos c ->
  data_pos c + Z.of_nat n <= data_len c -> data_len c < 2 ^ 64 ->
  data_pos c + Z.of_nat n <= Z.of_nat (length buf) ->
  let r := read_data n c in
  fst r = take n (drop (Z.to_nat (data_pos c)) buf)
  /\ snd r = (if (0 <? Z.of_nat n) && (data_pos c + Z.of_nat n =? data_len c)
              then set_irq true else fun x => x)
               (set_data_pos (data_pos c + Z.of_nat n) c).
Proof.
  induction n as [|n IH]; intros c buf Hd Hp Hn Hl Hb.
  - cbn [read_data fst snd]. change (Z.of_nat 0) with 0. rewrite Z.add_0_r.
    change (0 <? 0) with false. cbn [andb]. cbv beta iota.
    split; [reflexivity|]. destruct c; unfold set_data_pos, set_irq; ctx_cbn. cbn [data_pos data_len] in *.
    rewrite size_t_small by lia. reflexivity.
  - cbn [read_data]. rewrite (read_data_byte c buf Hd) by lia.
    set (c1 := set_data_pos _ _).
    assert (Hd1 : data c1 = Some buf).
    { subst c1. destruct (_ =? _); destruct c; exact Hd. }
    assert (Hp1 : data_pos c1 = data_pos c + 1).
    { subst c1. destruct (_ =? _); destruct c; unfold set_data_pos, set_irq; ctx_cbn; cbn [data_pos data_len] in *;
        apply size_t_small; lia. }
    assert (Hl1 : data_len c1 = data_len c).
    { subst c1. destruct (_ =? _); destruct c; reflexivity. }
    specialize (IH c1 buf Hd1). rewrite Hp1, Hl1 in IH.
    destruct IH as [I1 I2]; try lia.
    destruct (read_data n c1) as [vs c2]. cbv [fst snd] in *. subst vs c2.
    split.
    + assert (Hlk : buf !! Z.to_nat (data_pos c) = Some (rd buf (data_pos c))).
      { unfold rd. destruct (buf !! Z.to_nat (data_pos c)) eqn:E; [reflexivity|].
        apply lookup_ge_None in E. lia. }
      rewrite (drop_S _ _ _ Hlk). cbn [take]. do 3 f_equal. lia.
    + replace (0 <? Z.of_nat (S n)) with true by (symmetry; apply Z.ltb_lt; lia).
      cbn [andb].
      replace (data_pos c + 1 + Z.of_nat n) with (data_pos c + Z.of_nat (S n)) by lia.
      subst c1.
      destruct (Z.eqb_spec (data_pos c + 1) (data_len c)) as [E|E].
      * assert (n = 0)%nat by lia. subst n.
        replace (data_pos c + Z.of_nat 1) with (data_pos c + 1) by lia.
        rewrite E, Z.eqb_refl. cbn [Z.of_nat Z.ltb Z.compare andb].
        destruct c; unfold set_data_pos, set_irq; ctx_cbn; cbn [data_pos data_len] in *;
          rewrite ?size_t_small by lia; reflexivity.
      * destruct n as [|n].
        -- change (0 <? Z.of_nat 0) with false. cbn [andb].
           replace (data_pos c + Z.of_nat 1) with (data_pos c + 1) by lia.
           apply Z.eqb_neq in E. rewrite E.
           destruct c; unfold set_data_pos, set_irq; ctx_cbn; cbn [data_pos data_len] in *;
             rewrite ?size_t_small by lia; reflexivity.
        -- replace (0 <? Z.of_nat (S n)) with true by (symmetry; apply Z.ltb_lt; lia).
           cbn [andb].
           destruct (data_pos c + Z.of_nat (S (S n)) =? data_len c);
             destruct c; unfold set_data_pos, set_irq; ctx_cbn; reflexivity.
Qed.

(** ** The sector read loop *)

Lemma blit_app (s1 : list Z) : forall (a : list Z) (off : nat) (s2 : list Z),
  blit (blit a off s1) (off + length s1) s2 = blit a off (s1 ++ s2).
Proof.
  induction s1 as [|b s1 IH]; intros a off s2; cbn [blit length app].
  - now rewrite Nat.add_0_r.
  - rewrite <- IH. f_equal. lia.
Qed.

Lemma fread_app (img : list Z) (p n m : Z) :
  0 <= p -> 0 <= n -> 0 <= m ->
  fread img p n ++ fread img (p + n) m = fread img p (n + m).
Proof.
  intros Hp Hn Hm. unfold fread.
  rewrite !Z2Nat.inj_add by lia.
  rewrite <- drop_drop. apply take_take_drop.
Qed.

(** One iteration of the loop, in closed form. *)
Lemma read_sector_body_closed (i : Z) (c : WD2797_CTX) (img buf : list Z) :
  disc_image c = Some img -> data c = Some buf ->
  0 <= chs_lba c + i -> 0 < geom_secsz c ->
  0 <= data_len c < 2 ^ 64 ->
  (chs_lba c + i + 1) * geom_secsz c <= Z.of_nat (length img) ->
  Z.of_nat (length img) < 2 ^ 64 ->
  read_sector_body i c =
  set_data_len (data_len c + geom_secsz c)
    (set_data (Some (blit buf (Z.to_nat (data_len c))
                       (fread img ((chs_lba c + i) * geom_secsz c) (geom_secsz c)))) c).
Proof.
  intros Hi Hd Hb Hs Hl Him Hsz. unfold read_sector_body, chs_lba in *. cbv zeta.
  destruct c; ctx_cbn. cbn [disc_image data track geom_heads geom_spt head sector
                            geom_secsz data_len] in *. subst.
  set (b := track0 * geom_heads0 * geom_spt0 + head0 * geom_spt0 + sector0 - 1) in *.
  replace (track0 * geom_heads0 * geom_spt0 + head0 * geom_spt0 + sector0 + i - 1)
    with (b + i) by (subst b; lia).
  assert (Hb1 : 0 <= b + i < 2 ^ 64) by nia.
  assert (Hb2 : 0 <= (b + i) * geom_secsz0 < 2 ^ 64) by nia.
  rewrite (size_t_small (b + i)) by assumption.
  rewrite (size_t_small ((b + i) * geom_secsz0)) by assumption.
  rewrite fread_full by nia.
  unfold set_data_len, set_data; ctx_cbn.
  rewrite Z2Nat.id by lia. reflexivity.
Qed.

Lemma read_sector_loop_closed (n : nat) : forall (i : Z) (c : WD2797_CTX) (img buf : list Z),
  disc_image c = Some img -> data c = Some buf ->
  0 <= chs_lba c -> 0 <= i -> 0 < geom_secsz c ->
  data_len c = i * geom_secsz c ->
  (chs_lba c + i + Z.of_nat n) * geom_secsz c <= Z.of_nat (length img) ->
  Z.of_nat (length img) < 2 ^ 64 ->
  read_sector_loop n i c =
  set_data_len ((i + Z.of_nat n) * geom_secsz c)
    (set_data (Some (blit buf (Z.to_nat (i * geom_secsz c))
                       (fread img ((chs_lba c + i) * geom_secsz c)
                          (Z.of_nat n * geom_secsz c)))) c).
Proof.
  induction n as [|n IH]; intros i c img buf Hi Hd Hb H0 Hs Hl Him Hsz.
  - cbn [read_sector_loop]. change (Z.of_nat 0) with 0. rewrite Z.add_0_r, Z.mul_0_l.
    unfold fread. change (Z.to_nat 0) with 0%nat. rewrite take_0. cbn [blit].
    destruct c; unfold set_data_len, set_data; ctx_cbn.
    cbn [disc_image data data_len geom_secsz] in *. subst.
    rewrite size_t_small by nia. reflexivity.
  - cbn [read_sector_loop].
    assert (Hlen : 0 <= data_len c < 2 ^ 64) by nia.
    rewrite (read_sector_body_closed i c img buf Hi Hd) by (try assumption; nia).
    set (buf1 := blit buf _ _). set (c1 := set_data_len _ _).
    assert (E1 : chs_lba c1 = chs_lba c) by (destruct c; reflexivity).
    assert (E2 : geom_secsz c1 = geom_secsz c) by (destruct c; reflexivity).
    assert (E3 : data_len c1 = (i + 1) * geom_secsz c).
    { subst c1. destruct c; ctx_cbn. cbn [data_len geom_secsz] in *.
      rewrite Hl. rewrite size_t_small by nia. lia. }
    assert (Hi1 : disc_image c1 = Some img) by (destruct c; exact Hi).
    assert (Hd1 : data c1 = Some buf1) by (destruct c; reflexivity).
    rewrite (IH (i + 1) c1 img buf1 Hi1 Hd1)
      by (rewrite ?E1, ?E2, ?E3; first [assumption | lia | nia]).
    rewrite E1, E2.
    replace (i + 1 + Z.of_nat n) with (i + Z.of_nat (S n)) by lia.
    assert (Eb : blit buf1 (Z.to_nat ((i + 1) * geom_secsz c))
                   (fread img ((chs_lba c + (i + 1)) * geom_secsz c)
                      (Z.of_nat n * geom_secsz c))
                 = blit buf (Z.to_nat (i * geom_secsz c))
                     (fread img ((chs_lba c + i) * geom_secsz c)
                        (Z.of_nat (S n) * geom_secsz c))).
    { subst buf1. rewrite Hl.
      replace (Z.of_nat (S n) * geom_secsz c)
        with (geom_secsz c + Z.of_nat n * geom_secsz c) by lia.
      rewrite <- fread_app by nia. rewrite <- blit_app.
      rewrite fread_full by nia.
      replace ((chs_lba c + (i + 1)) * geom_secsz c)
        with ((chs_lba c + i) * geom_secsz c + geom_secsz c) by lia.
      f_equal. nia. }
    rewrite Eb. subst c1. destruct c; reflexivity.
Qed.

(** ** The Type 2 and 3 commands *)

Ltac cmd_constants :=
  unfold CMD_RESTORE, CMD_SEEK, CMD_STEP, CMD_STEPIN, CMD_STEPOUT, CMD_STEP_TU,
    CMD_STEPIN_TU, CMD_STEPOUT_TU, CMD_READ_SECTOR, CMD_READ_SECTOR_MULTI,
    CMD_WRITE_SECTOR, CMD_WRITE_SECTOR_MULTI, CMD_READ_ADDRESS, CMD_FORCE_INTERRUPT,
    CMD_READ_TRACK, CMD_FORMAT_TRACK in *.

(** The command byte of a Type 2 or 3 command on a ready drive that is
    not refused for write protection. *)
Lemma data_command_write (c : WD2797_CTX) (val n : Z) :
  disc_image c <> None -> Z.land val 0xF0 = n -> 0x80 <= n < 0x100 ->
  (truthy (writeable c) = true \/ (n <> 0xA0 /\ n <> 0xB0 /\ n <> 0xF0)) ->
  wd2797_write_reg c WD2797_REG_COMMAND val
  = command_switch n val (set_cmd_has_drq true (set_irq false c)).
Proof.
  intros Hi Hn Hr Hw.
  destruct (disc_image c) as [img|] eqn:Himg; [clear Hi|congruence].
  rewrite (write_command_disc c val n img Himg Hn) by lia.
  pose proof (command_cases val) as Hc. cbv zeta in Hc. rewrite Hn in Hc.
  assert (E : n = 0x80 \/ n = 0x90 \/ n = 0xA0 \/ n = 0xB0 \/ n = 0xC0 \/ n = 0xD0
              \/ n = 0xE0 \/ n = 0xF0) by lia.
  clear Hc Hr Hn.
  destruct c; cbn [disc_image writeable] in *; subst disc_image0.
  destruct E as [E|[E|[E|[E|[E|[E|[E|E]]]]]]]; subst n;
    unfold type1_switch; cmd_constants; eqb_closed; cbn [orb]; cbv iota zeta; ctx_cbn;
    rewrite ?andb_false_r; cbv iota; try reflexivity;
    (destruct Hw as [-> | Hw]; [reflexivity | lia]).
Qed.

Lemma select_head_value (val : Z) (c : WD2797_CTX) :
  head (select_head val c) = (if Z.testbit val 1 then 1 else 0).
Proof.
  unfold select_head. change 0x02 with (2 ^ 1). rewrite truthy_land_bit by lia.
  destruct c; reflexivity.
Qed.

Lemma chs_lba_nonneg (val : Z) (c : WD2797_CTX) :
  chs_valid val c -> 0 <= chs_lba (select_head val c).
Proof.
  intros (Ht & Hh & Hs). pose proof (select_head_value val c) as Hv.
  unfold chs_lba.
  replace (track (select_head val c)) with (track c) by (destruct c; reflexivity).
  replace (geom_heads (select_head val c)) with (geom_heads c) by (destruct c; reflexivity).
  replace (geom_spt (select_head val c)) with (geom_spt c) by (destruct c; reflexivity).
  replace (sector (select_head val c)) with (sector c) by (destruct c; reflexivity).
  assert (0 <= head (select_head val c)) by (rewrite Hv; destruct (Z.testbit val 1); lia).
  assert (0 <= geom_heads c) by lia.
  assert (0 <= track c * geom_heads c) by (apply Z.mul_nonneg_nonneg; lia).
  assert (0 <= track c * geom_heads c * geom_spt c) by (apply Z.mul_nonneg_nonneg; lia).
  assert (0 <= head (select_head val c) * geom_spt c) by (apply Z.mul_nonneg_nonneg; lia).
  lia.
Qed.

Lemma read_sector_write (c : WD2797_CTX) (val n : Z) :
  disc_image c <> None -> Z.land val 0xF0 = n ->
  n = CMD_READ_SECTOR \/ n = CMD_READ_SECTOR_MULTI ->
  let c0 := select_head val (set_cmd_has_drq true (set_irq false c)) in
  wd2797_write_reg c WD2797_REG_COMMAND val =
  if (geom_tracks c - 1 <? track c) || (geom_heads c - 1 <? head c0)
     || (geom_spt c <? sector c) || (sector c =? 0)
  then set_irq true (set_status 0x10 c0)
  else status_drq (set_status 0
         (read_sector_loop (Z.to_nat (sector_count n c)) 0
            (set_data_pos 0 (set_data_len 0 c0)))).
Proof.
  intros Hi Hn Hc c0. subst c0.
  rewrite (data_command_write c val n Hi Hn)
    by (cmd_constants; first [lia | right; lia]).
  unfold command_switch, sector_count.
  destruct Hc as [-> | ->]; cmd_constants; eqb_closed; cbn [orb]; cbv iota zeta;
    destruct c; reflexivity.
Qed.

(** X22.  READ SECTOR with the head beyond the last track, the selected
    side beyond the number of heads, or the sector register 0 or beyond
    the sectors per track: the status is 0x10 (record not found), the
    IRQ is raised and the buffer is untouched. *)
Theorem read_sector_bad_chs (c : WD2797_CTX) (val : Z) :
  disc_image c <> None ->
  Z.land val 0xF0 = CMD_READ_SECTOR \/ Z.land val 0xF0 = CMD_READ_SECTOR_MULTI ->
  geom_tracks c - 1 < track c \/ geom_heads c - 1 < (if Z.testbit val 1 then 1 else 0)
  \/ geom_spt c < sector c \/ sector c = 0 ->
  let c' := wd2797_write_reg c WD2797_REG_COMMAND val in
  status c' = 0x10 /\ irq c' = true
  /\ data_pos c' = data_pos c /\ data_len c' = data_len c /\ data c' = data c
  /\ disc_image c' = disc_image c
  /\ head c' = (if Z.testbit val 1 then 1 else 0).
Proof.
  intros Hi Hc Hbad c'. subst c'.
  rewrite (read_sector_write c val _ Hi eq_refl Hc). cbv zeta.
  rewrite select_head_value.
  replace (_ || _ || _ || _) with true.
  2:{ symmetry. rewrite !orb_true_iff, !Z.ltb_lt, Z.eqb_eq. tauto. }
  pose proof (select_head_value val (set_cmd_has_drq true (set_irq false c))) as Hh.
  destruct c; ctx_cbn. cbn [head select_head set_head] in Hh.
  repeat split; try reflexivity. exact Hh.
Qed.

(** READ SECTOR with the sector register still 0. *)
Lemma read_sector_bad_chs_witness :
  let c := ctx_loaded 40 1 in
  let c' := wd2797_write_reg c WD2797_REG_COMMAND 0x80 in
  disc_image c <> None
  /\ Z.land 0x80 0xF0 = CMD_READ_SECTOR
  /\ sector c = 0
  /\ status c' = 0x10 /\ irq c' = true /\ data_len c' = data_len c.
Proof.
  intros c c'.
  assert (H1 : disc_image c <> None) by discriminate.
  assert (H2 : Z.land 0x80 0xF0 = CMD_READ_SECTOR) by reflexivity.
  assert (H3 : sector c = 0) by reflexivity.
  destruct (read_sector_bad_chs c 0x80 H1 (or_introl H2)
              (or_intror (or_intror (or_intror H3)))) as (Ha & Hb & _ & Hc & _).
  repeat (split; [assumption|]). exact Hc.
Defined.

(** ** READ SECTOR *)

Lemma sector_count_pos (n : Z) (c : WD2797_CTX) : 1 <= geom_spt c -> 1 <= sector_count n c.
Proof. unfold sector_count. destruct (_ || _); lia. Qed.

Lemma read_state_fold (c0 : WD2797_CTX) (b : option (list Z)) (L : Z) :
  0 < L < 2 ^ 64 ->
  status_drq (set_status 0 (set_data_len L (set_data b (set_data_pos 0 (set_data_len 0 c0)))))
  = set_status 0x02 (set_data_len L (set_data b (set_data_pos 0 c0))).
Proof.
  intros HL. destruct c0. ctx_fields.
  rewrite (size_t_small L) by lia. change (size_t 0) with 0.
  replace (0 <? L) with true by (symmetry; apply Z.ltb_lt; lia).
  reflexivity.
Qed.

(** The state after an accepted READ SECTOR. *)
Lemma read_sector_state (c : WD2797_CTX) (val : Z) (img buf : list Z) :
  disc_image c = Some img -> data c = Some buf ->
  Z.land val 0xF0 = CMD_READ_SECTOR \/ Z.land val 0xF0 = CMD_READ_SECTOR_MULTI ->
  chs_valid val c -> 0 < geom_secsz c ->
  let count := sector_count (Z.land val 0xF0) c in
  let off := chs_lba (select_head val c) * geom_secsz c in
  let len := count * geom_secsz c in
  off + len <= Z.of_nat (length img) -> Z.of_nat (length img) < 2 ^ 64 ->
  wd2797_write_reg c WD2797_REG_COMMAND val =
  set_status 0x02
    (set_data_len len
       (set_data (Some (blit buf 0 (fread img off len)))
          (set_data_pos 0 (select_head val (set_cmd_has_drq true (set_irq false c)))))).
Proof.
  intros Hi Hd Hc Hv Hs count off len Him Hsz.
  assert (Hi' : disc_image c <> None) by congruence.
  rewrite (read_sector_write c val _ Hi' eq_refl Hc). cbv zeta.
  pose proof Hv as (Ht & Hh & Hsec).
  pose proof (chs_lba_nonneg val c Hv) as Hlba.
  assert (Hcnt : 1 <= count) by (apply sector_count_pos; lia).
  replace (_ || _ || _ || _) with false.
  2:{ symmetry. rewrite !orb_false_iff, !Z.ltb_ge, Z.eqb_neq.
      replace (head (select_head val (set_cmd_has_drq true (set_irq false c))))
        with (head (select_head val c)) by (destruct c; reflexivity).
      repeat split; lia. }
  set (c2 := set_data_pos 0 (set_data_len 0 _)).
  assert (E1 : chs_lba c2 = chs_lba (select_head val c)) by (destruct c; reflexivity).
  assert (E2 : geom_secsz c2 = geom_secsz c) by (destruct c; reflexivity).
  assert (Hi2 : disc_image c2 = Some img) by (destruct c; exact Hi).
  assert (Hd2 : data c2 = Some buf) by (destruct c; exact Hd).
  assert (Hl2 : data_len c2 = 0 * geom_secsz c2) by (destruct c; reflexivity).
  assert (Hb2 : 0 <= chs_lba c2) by (rewrite E1; exact Hlba).
  assert (Hs2 : 0 < geom_secsz c2) by (rewrite E2; exact Hs).
  assert (Hm2 : (chs_lba c2 + 0 + Z.of_nat (Z.to_nat count)) * geom_secsz c2
                <= Z.of_nat (length img)).
  { rewrite E1, E2, Z2Nat.id by lia. subst off len. lia. }
  fold count.
  rewrite (read_sector_loop_closed _ 0 c2 img buf Hi2 Hd2 Hb2 (Z.le_refl 0) Hs2 Hl2 Hm2 Hsz).
  rewrite E1, E2, Z2Nat.id by lia.
  rewrite !Z.add_0_r, Z.add_0_l, Z.mul_0_l. change (Z.to_nat 0) with 0%nat.
  fold off. fold len.
  assert (Hlen : 0 < len < 2 ^ 64) by (subst len off; nia).
  subst c2. apply read_state_fold. exact Hlen.
Qed.

(** The transfer after an accepted READ SECTOR. *)
Lemma read_sector_transfer (c : WD2797_CTX) (val : Z) (img buf : list Z) :
  disc_image c = Some img -> data c = Some buf ->
  Z.land val 0xF0 = CMD_READ_SECTOR \/ Z.land val 0xF0 = CMD_READ_SECTOR_MULTI ->
  chs_valid val c -> 0 < geom_secsz c ->
  let count := sector_count (Z.land val 0xF0) c in
  let off := chs_lba (select_head val c) * geom_secsz c in
  let len := count * geom_secsz c in
  off + len <= Z.of_nat (length img) -> Z.of_nat (length img) < 2 ^ 64 ->
  len <= Z.of_nat (length buf) ->
  let r := read_data (Z.to_nat len) (wd2797_write_reg c WD2797_REG_COMMAND val) in
  fst r = fread img off len
  /\ irq (snd r) = true /\ wd2797_get_drq (snd r) = false
  /\ disc_image (snd r) = Some img.
Proof.
  intros Hi Hd Hc Hv Hs count off len Him Hsz Hbuf r. subst r.
  rewrite (read_sector_state c val img buf Hi Hd Hc Hv Hs Him Hsz).
  fold count. fold off. fold len.
  pose proof (chs_lba_nonneg val c Hv) as Hlba.
  assert (Hcnt : 1 <= count) by (apply sector_count_pos; destruct Hv as (_ & _ & ?); lia).
  assert (Hlen : 0 < len < 2 ^ 64) by (subst len off; nia).
  assert (Hoff : 0 <= off) by (subst off; nia).
  set (buf' := blit buf 0 (fread img off len)).
  set (c' := set_status 2 _).
  assert (D1 : data c' = Some buf') by (destruct c; reflexivity).
  assert (D2 : data_pos c' = 0) by (destruct c; reflexivity).
  assert (D3 : data_len c' = len).
  { subst c'. destruct c; ctx_cbn. apply size_t_small. lia. }
  assert (Lf : length (fread img off len) = Z.to_nat len) by (apply fread_full; lia).
  assert (Lb : length buf' = length buf) by (subst buf'; apply blit_length).
  destruct (read_data_drains (Z.to_nat len) c' buf' D1) as [R1 R2];
    rewrite ?D2, ?D3, ?Lb, ?Z2Nat.id by lia; try lia.
  rewrite D2, D3, Z2Nat.id in R2 by lia.
  rewrite R1, R2, D2. change (Z.to_nat 0) with 0%nat. rewrite drop_0.
  replace (0 <? len) with true by (symmetry; apply Z.ltb_lt; lia).
  rewrite Z.add_0_l, Z.eqb_refl. cbn [andb].
  split.
  { subst buf'. rewrite <- Lf. apply take_blit. lia. }
  split; [destruct c; reflexivity|].
  split; [|destruct c; exact Hi].
  unfold wd2797_get_drq. subst c'. destruct c; ctx_cbn.
  rewrite !size_t_small by lia. apply Z.ltb_irrefl.
Qed.

(** X23.  READ SECTOR with a valid cylinder, head and sector, inside
    the image: the command raises no IRQ, turns DRQ on and makes STATUS
    read 0x83; reading the DATA register once per byte then returns the
    bytes of the image from the sector's offset on, one sector, or a
    track's worth of sectors for the multi-sector command; the last
    read raises the IRQ and turns DRQ off. *)
Theorem read_sector_delivers_image (c : WD2797_CTX) (val : Z) (img buf : list Z) :
  disc_image c = Some img -> data c = Some buf ->
  Z.land val 0xF0 = CMD_READ_SECTOR \/ Z.land val 0xF0 = CMD_READ_SECTOR_MULTI ->
  chs_valid val c -> 0 < geom_secsz c ->
  let count := sector_count (Z.land val 0xF0) c in
  let off := chs_lba (select_head val c) * geom_secsz c in
  let len := count * geom_secsz c in
  off + len <= Z.of_nat (length img) -> Z.of_nat (length img) < 2 ^ 64 ->
  len <= Z.of_nat (length buf) ->
  let c' := wd2797_write_reg c WD2797_REG_COMMAND val in
  let r := read_data (Z.to_nat len) c' in
  irq c' = false /\ wd2797_get_drq c' = true
  /\ fst (wd2797_read_reg c' WD2797_REG_STATUS) = 0x83
  /\ fst r = fread img off len
  /\ irq (snd r) = true /\ wd2797_get_drq (snd r) = false
  /\ disc_image (snd r) = Some img.
Proof.
  intros Hi Hd Hc Hv Hs count off len Him Hsz Hbuf c' r.
  destruct (read_sector_transfer c val img buf Hi Hd Hc Hv Hs Him Hsz Hbuf)
    as (T1 & T2 & T3 & T4).
  fold count in T1, T2, T3, T4. fold off in T1. fold len in T1, T2, T3, T4.
  fold c' in T1, T2, T3, T4. fold r in T1, T2, T3, T4.
  assert (E : c' = set_status 0x02
                (set_data_len len
                   (set_data (Some (blit buf 0 (fread img off len)))
                      (set_data_pos 0
                         (select_head val (set_cmd_has_drq true (set_irq false c)))))))
    by (apply read_sector_state; assumption).
  pose proof (chs_lba_nonneg val c Hv) as Hlba.
  assert (Hcnt : 1 <= count) by (apply sector_count_pos; destruct Hv as (_ & _ & ?); lia).
  assert (Hlen : 0 < len < 2 ^ 64) by (subst len off; nia).
  assert (D2 : data_pos c' = 0) by (rewrite E; destruct c; reflexivity).
  assert (D3 : data_len c' = len).
  { rewrite E. destruct c; ctx_cbn. apply size_t_small. lia. }
  split; [rewrite E; destruct c; reflexivity|].
  split; [unfold wd2797_get_drq; rewrite D2, D3; apply Z.ltb_lt; lia|].
  split.
  { unfold wd2797_read_reg. change (Z.land WD2797_REG_STATUS 3 =? WD2797_REG_STATUS) with true.
    cbv iota zeta.
    replace (data_pos (set_irq false c')) with 0 by (rewrite <- D2; destruct c'; reflexivity).
    replace (data_len (set_irq false c')) with len by (rewrite <- D3; destruct c'; reflexivity).
    replace (0 <? len) with true by (symmetry; apply Z.ltb_lt; lia).
    rewrite E. destruct c; reflexivity. }
  repeat split; assumption.
Qed.

(** READ SECTOR of sector 1, track 0, head 0 of a blank two-track
    image, then 512 reads of the DATA register. *)
Lemma read_sector_delivers_image_witness :
  let c := wd2797_write_reg (ctx_loaded 2 1) WD2797_REG_SECTOR 1 in
  let img := blank_image 2 in
  let buf := replicate (Z.to_nat (512 * 10)) 0 in
  let c' := wd2797_write_reg c WD2797_REG_COMMAND 0x80 in
  let r := read_data (Z.to_nat 512) c' in
  disc_image c = Some img /\ data c = Some buf
  /\ Z.land 0x80 0xF0 = CMD_READ_SECTOR
  /\ chs_valid 0x80 c /\ 0 < geom_secsz c
  /\ 0 + 512 <= Z.of_nat (length img) /\ Z.of_nat (length img) < 2 ^ 64
  /\ 512 <= Z.of_nat (length buf)
  /\ fst r = fread img 0 512
  /\ irq (snd r) = true /\ wd2797_get_drq (snd r) = false.
Proof.
  intros c img buf c' r.
  assert (H1 : disc_image c = Some img) by reflexivity.
  assert (H2 : data c = Some buf) by reflexivity.
  assert (H3 : Z.land 0x80 0xF0 = CMD_READ_SECTOR) by reflexivity.
  assert (H4 : chs_valid 0x80 c).
  { split; [split; lazy; discriminate|]. split; [lazy; discriminate|].
    split; lazy; discriminate. }
  assert (H5 : 0 < geom_secsz c) by reflexivity.
  assert (H6 : 0 + 512 <= Z.of_nat (length img)).
  { unfold img, blank_image. rewrite length_replicate. lia. }
  assert (H7 : Z.of_nat (length img) < 2 ^ 64).
  { unfold img, blank_image. rewrite length_replicate. lia. }
  assert (H8 : 512 <= Z.of_nat (length buf)).
  { unfold buf. rewrite length_replicate. lia. }
  destruct (read_sector_delivers_image c 0x80 img buf H1 H2 (or_introl H3) H4 H5 H6 H7 H8)
    as (_ & _ & _ & Ha & Hb & Hc & _).
  split; [exact H1|]. split; [exact H2|]. split; [exact H3|]. split; [exact H4|].
  split; [exact H5|]. split; [exact H6|]. split; [exact H7|]. split; [exact H8|].
  split; [exact Ha|]. split; [exact Hb | exact Hc].
Defined.

(** ** Writing the DATA register *)

Lemma last_cons (a d : Z) (l : list Z) : List.last (a :: l) d = List.last l a.
Proof.
  revert a d. induction l as [|b l IH]; intros a d; [reflexivity|].
  change (List.last (a :: b :: l) d) with (List.last (b :: l) d).
  rewrite (IH b d), (IH b a). reflexivity.
Qed.

Ltac data_reg_write :=
  unfold wd2797_write_reg, write_data;
  unfold WD2797_REG_COMMAND, WD2797_REG_TRACK, WD2797_REG_SECTOR, WD2797_REG_DATA;
  eqb_closed; cbv zeta.

(** A byte that does not complete the transfer. *)
Lemma write_data_byte (c : WD2797_CTX) (buf : list Z) (b : Z) :
  data c = Some buf -> formatting c = false -> 0 <= write_pos c ->
  0 <= data_pos c -> data_pos c + 1 < data_len c -> data_len c < 2 ^ 64 ->
  wd2797_write_reg c WD2797_REG_DATA b
  = with_transfer (uint8 b) (Some (wr buf (data_pos c) b)) (data_pos c + 1) c.
Proof.
  intros Hd Hf Hw Hp Hl Hr. data_reg_write.
  destruct c; cbn [data formatting write_pos data_pos data_len] in *; subst.
  unfold with_transfer; ctx_cbn.
  replace (data_pos0 <? data_len0) with true by (symmetry; apply Z.ltb_lt; lia).
  replace (0 <=? write_pos0) with true by (symmetry; apply Z.leb_le; lia).
  cbn [andb orb]. cbv iota. ctx_cbn.
  rewrite size_t_small by lia.
  replace (data_pos0 + 1 =? data_len0) with false by (symmetry; apply Z.eqb_neq; lia).
  ctx_fields. apply size_t_small; lia.
Qed.

(** The byte that completes the transfer. *)
Lemma write_data_last (c : WD2797_CTX) (img buf : list Z) (b : Z) :
  disc_image c = Some img -> data c = Some buf ->
  formatting c = false -> 0 <= write_pos c ->
  0 <= data_pos c -> data_pos c + 1 = data_len c -> data_len c < 2 ^ 64 ->
  wd2797_write_reg c WD2797_REG_DATA b
  = set_formatting false (set_write_pos (-1) (set_irq true
      (set_disc_image
         (Some (fwrite img (write_pos c)
                  (take (Z.to_nat (data_len c)) (wr buf (data_pos c) b))))
         (with_transfer (uint8 b) (Some (wr buf (data_pos c) b)) (data_pos c + 1) c)))).
Proof.
  intros Hi Hd Hf Hw Hp Hl Hr. data_reg_write.
  destruct c; cbn [disc_image data formatting write_pos data_pos data_len] in *; subst.
  unfold with_transfer; ctx_cbn.
  replace (data_pos0 <? data_pos0 + 1) with true by (symmetry; apply Z.ltb_lt; lia).
  replace (0 <=? write_pos0) with true by (symmetry; apply Z.leb_le; lia).
  cbn [andb orb]. cbv iota. ctx_cbn.
  rewrite size_t_small by lia. rewrite Z.eqb_refl. ctx_fields. apply size_t_small; lia.
Qed.

Lemma with_transfer_twice r d p r' d' p' c :
  with_transfer r d p (with_transfer r' d' p' c) = with_transfer r d p c.
Proof. reflexivity. Qed.

Lemma write_bytes_partial (bs : list Z) : forall (c : WD2797_CTX) (buf : list Z),
  data c = Some buf -> formatting c = false -> 0 <= write_pos c ->
  0 <= data_pos c -> data_pos c + Z.of_nat (length bs) < data_len c ->
  data_len c < 2 ^ 64 ->
  write_data_bytes bs c
  = with_transfer (List.last (List.map uint8 bs) (data_reg c))
      (Some (blit buf (Z.to_nat (data_pos c)) (List.map uint8 bs)))
      (data_pos c + Z.of_nat (length bs)) c.
Proof.
  induction bs as [|b bs IH]; intros c buf Hd Hf Hw Hp Hl Hr.
  - cbn [write_data_bytes fold_left List.map List.last blit length].
    change (Z.of_nat 0) with 0. rewrite Z.add_0_r.
    destruct c; cbn [data] in Hd; subst. reflexivity.
  - unfold write_data_bytes. cbn [fold_left]. fold (write_data_bytes bs).
    cbn [length] in Hl.
    rewrite (write_data_byte c buf b Hd Hf Hw Hp) by lia.
    rewrite (IH _ (wr buf (data_pos c) b)); try (destruct c; first [assumption | reflexivity]).
    2:{ destruct c; cbn [with_transfer data_pos data_len] in *. lia. }
    2:{ destruct c; cbn [with_transfer data_pos data_len] in *. lia. }
    rewrite with_transfer_twice.
    cbn [List.map]. rewrite last_cons.
    replace (data_reg (with_transfer (uint8 b) (Some (wr buf (data_pos c) b))
                         (data_pos c + 1) c)) with (uint8 b) by (destruct c; reflexivity).
    replace (data_pos (with_transfer (uint8 b) (Some (wr buf (data_pos c) b))
                         (data_pos c + 1) c)) with (data_pos c + 1) by (destruct c; reflexivity).
    cbn [blit length]. unfold wr.
    replace (Z.to_nat (data_pos c + 1)) with (S (Z.to_nat (data_pos c))) by lia.
    f_equal. lia.
Qed.

(** ** WRITE SECTOR *)

Lemma to_int_small (x : Z) : 0 <= x < 2 ^ 31 -> to_int x = x.
Proof.
  intros H. unfold to_int. change (2 ^ 31) with 2147483648 in *.
  change (2 ^ 32) with 4294967296. rewrite Z.mod_small; lia.
Qed.

Lemma chs_lba_select (val : Z) (c : WD2797_CTX) (b : bool) (q : bool) :
  chs_lba (select_head val (set_cmd_has_drq b (set_irq q c))) = chs_lba (select_head val c).
Proof. destruct c; reflexivity. Qed.

(** The state after an accepted WRITE SECTOR. *)
Lemma write_sector_state (c : WD2797_CTX) (val : Z) :
  disc_image c <> None -> truthy (writeable c) = true ->
  Z.land val 0xF0 = CMD_WRITE_SECTOR \/ Z.land val 0xF0 = CMD_WRITE_SECTOR_MULTI ->
  let off := chs_lba (select_head val c) * geom_secsz c in
  let len := sector_count (Z.land val 0xF0) c * geom_secsz c in
  0 <= chs_lba (select_head val c) -> 0 < geom_secsz c ->
  off < 2 ^ 31 -> 0 < len < 2 ^ 64 ->
  wd2797_write_reg c WD2797_REG_COMMAND val =
  set_status 0x02
    (set_write_pos off
       (set_data_len len
          (set_data_pos 0 (select_head val (set_cmd_has_drq true (set_irq false c)))))).
Proof.
  intros Hi Hw Hc off len Hlba Hs Hoff Hlen.
  rewrite (data_command_write c val _ Hi eq_refl)
    by (destruct Hc as [-> | ->]; cmd_constants; first [lia | now left]).
  assert (Hoff0 : 0 <= off) by (subst off; nia).
  unfold command_switch. subst off len. unfold sector_count in *.
  rewrite <- (chs_lba_select val c true false) in *.
  set (c1 := set_cmd_has_drq true (set_irq false c)) in *.
  replace (geom_secsz c) with (geom_secsz c1) in * by (destruct c; reflexivity).
  replace (geom_spt c) with (geom_spt c1) in * by (destruct c; reflexivity).
  clearbody c1. clear c Hi Hw.
  unfold chs_lba in *.
  destruct Hc as [E | E]; rewrite E in *; cmd_constants; revert Hlen; eqb_closed;
    cbn [orb]; cbv iota zeta; intros Hlen;
    destruct c1; ctx_cbn in Hlba; ctx_cbn in Hs; ctx_cbn in Hoff; ctx_cbn in Hoff0;
    ctx_cbn in Hlen; cbn [select_head set_head head] in *;
    ctx_fields;
    repeat match goal with
           | |- context [size_t ?x] => rewrite (size_t_small x) by nia
           end;
    rewrite ?to_int_small by (change (2 ^ 31) with 2147483648 in *; nia);
    try reflexivity;
    try (replace (0 <? _) with true by (symmetry; apply Z.ltb_lt; lia); reflexivity).
Qed.

Lemma fwrite_inside (img : list Z) (pos : Z) (src : list Z) :
  0 <= pos -> pos + Z.of_nat (length src) <= Z.of_nat (length img) ->
  fwrite img pos src
  = take (Z.to_nat pos) img ++ src ++ drop (Z.to_nat pos + length src) img.
Proof.
  intros Hp H. unfold fwrite. cbv zeta.
  replace (Z.to_nat pos - length img)%nat with 0%nat by lia.
  cbn [replicate]. now rewrite app_nil_r.
Qed.

Lemma fread_fwrite (img : list Z) (pos : Z) (src : list Z) :
  0 <= pos -> pos + Z.of_nat (length src) <= Z.of_nat (length img) ->
  fread (fwrite img pos src) pos (Z.of_nat (length src)) = src
  /\ length (fwrite img pos src) = length img.
Proof.
  intros Hp H. rewrite fwrite_inside by assumption. unfold fread. split.
  - rewrite drop_app_length' by (rewrite length_take; lia).
    rewrite Nat2Z.id. apply take_app_length.
  - rewrite !length_app, length_take, length_drop. lia.
Qed.

Lemma write_data_bytes_snoc (bs : list Z) (b : Z) (c : WD2797_CTX) :
  write_data_bytes (bs ++ [b]) c
  = wd2797_write_reg (write_data_bytes bs c) WD2797_REG_DATA b.
Proof. unfold write_data_bytes. now rewrite fold_left_app. Qed.

(** A complete transfer of [data_len] bytes into the image. *)
Lemma write_bytes_complete (bs : list Z) (c : WD2797_CTX) (img buf : list Z) :
  disc_image c = Some img -> data c = Some buf ->
  formatting c = false -> 0 <= write_pos c -> data_pos c = 0 ->
  0 < data_len c < 2 ^ 64 -> Z.of_nat (length bs) = data_len c ->
  data_len c <= Z.of_nat (length buf) ->
  let c' := write_data_bytes bs c in
  disc_image c' = Some (fwrite img (write_pos c) (List.map uint8 bs))
  /\ data c' = Some (blit buf 0 (List.map uint8 bs))
  /\ irq c' = true /\ write_pos c' = -1 /\ formatting c' = false
  /\ data_pos c' = data_len c /\ data_len c' = data_len c
  /\ track c' = track c /\ head c' = head c /\ sector c' = sector c
  /\ geom_secsz c' = geom_secsz c /\ geom_spt c' = geom_spt c
  /\ geom_heads c' = geom_heads c /\ geom_tracks c' = geom_tracks c
  /\ writeable c' = writeable c.
Proof.
  intros Hi Hd Hf Hw Hp Hl Hn Hb c'. subst c'.
  destruct bs as [|b0 bs0] using rev_ind; [cbn [length] in Hn; lia|]. rename bs0 into front; rename b0 into b. clear IHbs0.
  rewrite length_app in Hn. cbn [length] in Hn.
  rewrite write_data_bytes_snoc.
  rewrite (write_bytes_partial front c buf Hd Hf Hw) by lia.
  rewrite Hp, Z.add_0_l. change (Z.to_nat 0) with 0%nat.
  set (buf1 := blit buf 0 (List.map uint8 front)).
  set (c1 := with_transfer _ _ _ c).
  assert (E : wr buf1 (Z.of_nat (length front)) b = blit buf 0 (List.map uint8 (front ++ [b]))).
  { subst buf1. rewrite List.map_app, <- blit_app. cbn [List.map blit]. unfold wr.
    rewrite Nat2Z.id, length_map. reflexivity. }
  rewrite (write_data_last c1 img buf1 b);
    try (subst c1; destruct c; first [assumption | reflexivity | cbn [with_transfer data_pos data_len] in *; lia]).
  replace (data_pos c1) with (Z.of_nat (length front)) by (destruct c; reflexivity).
  replace (data_len c1) with (data_len c) by (destruct c; reflexivity).
  replace (write_pos c1) with (write_pos c) by (destruct c; reflexivity).
  rewrite E.
  assert (Lm : length (List.map uint8 (front ++ [b])) = Z.to_nat (data_len c)).
  { rewrite length_map, length_app. cbn [length]. lia. }
  rewrite <- Lm, take_blit by lia.
  subst c1. destruct c; ctx_cbn. cbn [data_len data_pos] in *.
  repeat split; try reflexivity. cbn [with_transfer data_pos]. lia.
Qed.

(** ** A sector written and read back *)

Section SectorWrite.

Variables (c : WD2797_CTX) (val : Z) (img buf bs : list Z).
Hypothesis Himg : disc_image c = Some img.
Hypothesis Hbuf : data c = Some buf.
Hypothesis Hwr : truthy (writeable c) = true.
Hypothesis Hfmt : formatting c = false.
Hypothesis Hcmd :
  Z.land val 0xF0 = CMD_WRITE_SECTOR \/ Z.land val 0xF0 = CMD_WRITE_SECTOR_MULTI.

Let off := chs_lba (select_head val c) * geom_secsz c.
Let len := sector_count (Z.land val 0xF0) c * geom_secsz c.

Hypothesis Hlba : 0 <= chs_lba (select_head val c).
Hypothesis Hsz : 0 < geom_secsz c.
Hypothesis Hspt : 1 <= geom_spt c.
Hypothesis Hoff : off < 2 ^ 31.
Hypothesis Hlen : len < 2 ^ 64.
Hypothesis Hbs : Z.of_nat (length bs) = len.
Hypothesis Hcap : len <= Z.of_nat (length buf).

Let c1 := wd2797_write_reg c WD2797_REG_COMMAND val.
Let c' := write_data_bytes bs c1.

Lemma sector_write_len : 0 < len < 2 ^ 64.
Proof.
  pose proof (sector_count_pos (Z.land val 0xF0) c Hspt) as Hc.
  split; [unfold len; nia | assumption].
Qed.

Lemma sector_write_opened :
  c1 = set_status 0x02
         (set_write_pos off
            (set_data_len len
               (set_data_pos 0 (select_head val (set_cmd_has_drq true (set_irq false c)))))).
Proof.
  unfold c1, off, len. apply write_sector_state; try assumption.
  - congruence.
  - exact sector_write_len.
Qed.

Lemma sector_write_transfer :
  wd2797_get_drq c1 = true /\ irq c1 = false /\ disc_image c1 = Some img
  /\ disc_image c' = Some (fwrite img off (List.map uint8 bs))
  /\ data c' = Some (blit buf 0 (List.map uint8 bs))
  /\ irq c' = true /\ wd2797_get_drq c' = false /\ write_pos c' = -1
  /\ formatting c' = false
  /\ track c' = track c /\ head c' = head (select_head val c) /\ sector c' = sector c
  /\ geom_secsz c' = geom_secsz c /\ geom_spt c' = geom_spt c
  /\ geom_heads c' = geom_heads c /\ geom_tracks c' = geom_tracks c
  /\ writeable c' = writeable c.
Proof.
  pose proof sector_write_len as Hl. pose proof sector_write_opened as E.
  assert (Hoff0 : 0 <= off) by (unfold off; nia).
  assert (F1 : disc_image c1 = Some img) by (rewrite E; destruct c; exact Himg).
  assert (F2 : data c1 = Some buf) by (rewrite E; destruct c; exact Hbuf).
  assert (F3 : formatting c1 = false) by (rewrite E; destruct c; exact Hfmt).
  assert (F4 : write_pos c1 = off) by (rewrite E; destruct c; reflexivity).
  assert (F5 : data_pos c1 = 0) by (rewrite E; destruct c; reflexivity).
  assert (F6 : data_len c1 = len).
  { rewrite E. destruct c; ctx_cbn. apply size_t_small. lia. }
  assert (F7 : irq c1 = false) by (rewrite E; destruct c; reflexivity).
  destruct (write_bytes_complete bs c1 img buf F1 F2 F3) as
    (G1 & G2 & G3 & G4 & G5 & G6 & G7 & G8 & G9 & G10 & G11 & G12 & G13 & G14 & G15);
    rewrite ?F4, ?F5, ?F6; try lia.
  fold c' in G1, G2, G3, G4, G5, G6, G7, G8, G9, G10, G11, G12, G13, G14, G15.
  rewrite F4 in G1. rewrite F6 in G6, G7.
  split; [unfold wd2797_get_drq; rewrite F5, F6; apply Z.ltb_lt; lia|].
  split; [assumption|]. split; [assumption|]. split; [assumption|].
  split; [assumption|]. split; [assumption|].
  split; [unfold wd2797_get_drq; rewrite G6, G7; apply Z.ltb_irrefl|].
  split; [assumption|]. split; [assumption|].
  rewrite G8, G9, G10, G11, G12, G13, G14, G15, E.
  destruct c; repeat split; reflexivity.
Qed.

End SectorWrite.

Lemma chs_lba_fields (v : Z) (x : WD2797_CTX) :
  chs_lba (select_head v x)
  = track x * geom_heads x * geom_spt x
    + (if Z.testbit v 1 then 1 else 0) * geom_spt x + sector x - 1.
Proof.
  unfold chs_lba. rewrite select_head_value. destruct x; reflexivity.
Qed.

(** X26.  WRITE SECTOR on a writeable image with no format pending: the
    command turns DRQ on and raises no IRQ; the bytes then written to
    the DATA register, one sector or a track's worth, are stored,
    truncated to 8 bits, in the image at the sector's offset by the
    last of them, which raises the IRQ and turns DRQ off; when the
    sectors lie inside the image the file keeps its length and the
    bytes read from there are the bytes written.  The command does not
    check the cylinder, head and sector against the geometry. *)
Theorem write_sector_stores (c : WD2797_CTX) (val : Z) (img buf bs : list Z) :
  disc_image c = Some img -> data c = Some buf ->
  truthy (writeable c) = true -> formatting c = false ->
  Z.land val 0xF0 = CMD_WRITE_SECTOR \/ Z.land val 0xF0 = CMD_WRITE_SECTOR_MULTI ->
  let off := chs_lba (select_head val c) * geom_secsz c in
  let len := sector_count (Z.land val 0xF0) c * geom_secsz c in
  0 <= chs_lba (select_head val c) -> 0 < geom_secsz c -> 1 <= geom_spt c ->
  off < 2 ^ 31 -> len < 2 ^ 64 ->
  Z.of_nat (length bs) = len -> len <= Z.of_nat (length buf) ->
  let c1 := wd2797_write_reg c WD2797_REG_COMMAND val in
  let c' := write_data_bytes bs c1 in
  let img' := fwrite img off (List.map uint8 bs) in
  wd2797_get_drq c1 = true /\ irq c1 = false /\ disc_image c1 = Some img
  /\ disc_image c' = Some img'
  /\ irq c' = true /\ wd2797_get_drq c' = false /\ write_pos c' = -1
  /\ (off + len <= Z.of_nat (length img) ->
      fread img' off len = List.map uint8 bs /\ length img' = length img).
Proof.
  intros Hi Hd Hw Hf Hc off len Hlba Hs Hspt Hoff Hlen Hbs Hcap c1 c' img'.
  destruct (sector_write_transfer c val img buf bs Hi Hd Hw Hf Hc Hlba Hs Hspt Hoff Hlen
              Hbs Hcap) as (G1 & G2 & G3 & G4 & _ & G6 & G7 & G8 & _).
  repeat (split; [assumption|]).
  intros Hin. subst img'. rewrite <- Hbs, <- (length_map uint8 bs).
  apply fread_fwrite; [subst off; nia|]. rewrite length_map. lia.
Qed.

(** WRITE SECTOR of sector 1, track 0, head 0, then 512 bytes 0x1E5
    written to the DATA register. *)
Lemma write_sector_stores_witness :
  let c := wd2797_write_reg (ctx_loaded 2 1) WD2797_REG_SECTOR 1 in
  let img := blank_image 2 in
  let buf := replicate (Z.to_nat (512 * 10)) 0 in
  let bs := replicate (Z.to_nat 512) 0x1E5 in
  let c' := write_data_bytes bs (wd2797_write_reg c WD2797_REG_COMMAND 0xA0) in
  disc_image c = Some img /\ data c = Some buf
  /\ truthy (writeable c) = true /\ formatting c = false
  /\ Z.land 0xA0 0xF0 = CMD_WRITE_SECTOR
  /\ 0 <= chs_lba (select_head 0xA0 c) /\ 0 < geom_secsz c /\ 1 <= geom_spt c
  /\ 0 < 2 ^ 31 /\ 512 < 2 ^ 64
  /\ Z.of_nat (length bs) = 512 /\ 512 <= Z.of_nat (length buf)
  /\ disc_image c' = Some (fwrite img 0 (List.map uint8 bs))
  /\ irq c' = true /\ wd2797_get_drq c' = false.
Proof.
  intros c img buf bs c'.
  assert (H1 : disc_image c = Some img) by reflexivity.
  assert (H2 : data c = Some buf) by reflexivity.
  assert (H3 : truthy (writeable c) = true) by reflexivity.
  assert (H4 : formatting c = false) by reflexivity.
  assert (H5 : Z.land 0xA0 0xF0 = CMD_WRITE_SECTOR) by reflexivity.
  assert (H6 : 0 <= chs_lba (select_head 0xA0 c)) by (lazy; discriminate).
  assert (H7 : 0 < geom_secsz c) by reflexivity.
  assert (H8 : 1 <= geom_spt c) by (lazy; discriminate).
  assert (H9 : 0 < 2 ^ 31) by reflexivity.
  assert (H10 : 512 < 2 ^ 64) by reflexivity.
  assert (H11 : Z.of_nat (length bs) = 512) by (unfold bs; rewrite length_replicate; lia).
  assert (H12 : 512 <= Z.of_nat (length buf)) by (unfold buf; rewrite length_replicate; lia).
  destruct (write_sector_stores c 0xA0 img buf bs H1 H2 H3 H4 (or_introl H5) H6 H7 H8 H9 H10
              H11 H12) as (_ & _ & _ & Ha & Hb & Hc & _).
  split; [exact H1|]. split; [exact H2|]. split; [exact H3|]. split; [exact H4|].
  split; [exact H5|]. split; [exact H6|]. split; [exact H7|]. split; [exact H8|].
  split; [exact H9|]. split; [exact H10|]. split; [exact H11|]. split; [exact H12|].
  split; [exact Ha|]. split; [exact Hb | exact Hc].
Defined.

(** X27.  A sector written is read back: WRITE SECTOR with all its
    bytes, followed by READ SECTOR for the same side (both single, or
    both multi-sector), delivers through the DATA register the bytes
    written, truncated to 8 bits. *)
Theorem sector_write_read_round_trip (c : WD2797_CTX) (val val' : Z) (img buf bs : list Z) :
  disc_image c = Some img -> data c = Some buf ->
  truthy (writeable c) = true -> formatting c = false ->
  (Z.land val 0xF0 = CMD_WRITE_SECTOR /\ Z.land val' 0xF0 = CMD_READ_SECTOR)
  \/ (Z.land val 0xF0 = CMD_WRITE_SECTOR_MULTI /\ Z.land val' 0xF0 = CMD_READ_SECTOR_MULTI) ->
  Z.testbit val' 1 = Z.testbit val 1 ->
  chs_valid val c -> 0 < geom_secsz c ->
  let off := chs_lba (select_head val c) * geom_secsz c in
  let len := sector_count (Z.land val 0xF0) c * geom_secsz c in
  off + len <= Z.of_nat (length img) -> Z.of_nat (length img) < 2 ^ 31 ->
  Z.of_nat (length bs) = len -> len <= Z.of_nat (length buf) ->
  let c' := write_data_bytes bs (wd2797_write_reg c WD2797_REG_COMMAND val) in
  let r := read_data (Z.to_nat len) (wd2797_write_reg c' WD2797_REG_COMMAND val') in
  fst r = List.map uint8 bs /\ irq (snd r) = true /\ wd2797_get_drq (snd r) = false.
Proof.
  intros Hi Hd Hw Hf Hc Hbit Hv Hs off len Hin Hsz Hbs Hcap c' r.
  pose proof (chs_lba_nonneg val c Hv) as Hlba.
  pose proof Hv as (Ht & Hh & Hsec).
  assert (Hspt : 1 <= geom_spt c) by lia.
  pose proof (sector_count_pos (Z.land val 0xF0) c Hspt) as Hcnt. fold len in Hcnt.
  assert (Hlen0 : 0 <= len) by (subst len; nia).
  assert (Hoff0 : 0 <= off) by (subst off; nia).
  change (2 ^ 31) with 2147483648 in Hsz.
  assert (Hcw : Z.land val 0xF0 = CMD_WRITE_SECTOR \/ Z.land val 0xF0 = CMD_WRITE_SECTOR_MULTI)
    by tauto.
  assert (Hcr : Z.land val' 0xF0 = CMD_READ_SECTOR \/ Z.land val' 0xF0 = CMD_READ_SECTOR_MULTI)
    by tauto.
  destruct (sector_write_transfer c val img buf bs Hi Hd Hw Hf Hcw Hlba Hs Hspt)
    as (_ & _ & _ & G4 & G5 & _ & _ & _ & _ & T1 & T2 & T3 & T4 & T5 & T6 & T7 & _);
    try (fold off; fold len; first [assumption | change (2 ^ 31) with 2147483648; lia
                                    | change (2 ^ 64) with 18446744073709551616; lia]).
  fold c' in G4, G5, T1, T2, T3, T4, T5, T6, T7. fold off in G4.
  set (img' := fwrite img off (List.map uint8 bs)) in *.
  destruct (fread_fwrite img off (List.map uint8 bs) Hoff0) as [R1 R2];
    [rewrite length_map; lia|]. fold img' in R1, R2. rewrite length_map, Hbs in R1.
  assert (Ecnt : sector_count (Z.land val' 0xF0) c' = sector_count (Z.land val 0xF0) c).
  { unfold sector_count. rewrite T5.
    destruct Hc as [[-> ->] | [-> ->]]; reflexivity. }
  assert (Elba : chs_lba (select_head val' c') = chs_lba (select_head val c)).
  { rewrite !chs_lba_fields, Hbit, T1, T3, T5, T6. reflexivity. }
  assert (Hv' : chs_valid val' c').
  { unfold chs_valid. rewrite !select_head_value in *. rewrite Hbit, T1, T3, T5, T6, T7.
    repeat split; lia. }
  destruct (read_sector_transfer c' val' img' (blit buf 0 (List.map uint8 bs)) G4 G5 Hcr Hv')
    as (Q1 & Q2 & Q3 & _);
    rewrite ?Ecnt, ?Elba, ?T4, ?R2, ?blit_length; try assumption; try lia;
    try (fold off; fold len; lia).
  rewrite Ecnt, Elba, T4 in Q1. rewrite Ecnt, T4 in Q2, Q3.
  fold off in Q1. fold len in Q1, Q2, Q3.
  subst r. rewrite Q1, R1. repeat split; assumption.
Qed.

(** The same write, followed by READ SECTOR of the same sector. *)
Lemma sector_write_read_round_trip_witness :
  let c := wd2797_write_reg (ctx_loaded 2 1) WD2797_REG_SECTOR 1 in
  let img := blank_image 2 in
  let buf := replicate (Z.to_nat (512 * 10)) 0 in
  let bs := replicate (Z.to_nat 512) 0x1E5 in
  let c' := write_data_bytes bs (wd2797_write_reg c WD2797_REG_COMMAND 0xA0) in
  let r := read_data (Z.to_nat 512) (wd2797_write_reg c' WD2797_REG_COMMAND 0x80) in
  disc_image c = Some img /\ data c = Some buf
  /\ truthy (writeable c) = true /\ formatting c = false
  /\ (Z.land 0xA0 0xF0 = CMD_WRITE_SECTOR /\ Z.land 0x80 0xF0 = CMD_READ_SECTOR)
  /\ Z.testbit 0x80 1 = Z.testbit 0xA0 1
  /\ chs_valid 0xA0 c /\ 0 < geom_secsz c
  /\ 0 + 512 <= Z.of_nat (length img) /\ Z.of_nat (length img) < 2 ^ 31
  /\ Z.of_nat (length bs) = 512 /\ 512 <= Z.of_nat (length buf)
  /\ fst r = List.map uint8 bs.
Proof.
  intros c img buf bs c' r.
  assert (H1 : disc_image c = Some img) by reflexivity.
  assert (H2 : data c = Some buf) by reflexivity.
  assert (H3 : truthy (writeable c) = true) by reflexivity.
  assert (H4 : formatting c = false) by reflexivity.
  assert (H5 : Z.land 0xA0 0xF0 = CMD_WRITE_SECTOR /\ Z.land 0x80 0xF0 = CMD_READ_SECTOR)
    by (split; reflexivity).
  assert (H6 : Z.testbit 0x80 1 = Z.testbit 0xA0 1) by reflexivity.
  assert (H7 : chs_valid 0xA0 c).
  { split; [split; lazy; discriminate|]. split; [lazy; discriminate|].
    split; lazy; discriminate. }
  assert (H8 : 0 < geom_secsz c) by reflexivity.
  assert (H9 : 0 + 512 <= Z.of_nat (length img)).
  { unfold img, blank_image. rewrite length_replicate. lia. }
  assert (H10 : Z.of_nat (length img) < 2 ^ 31).
  { unfold img, blank_image. rewrite length_replicate. lia. }
  assert (H11 : Z.of_nat (length bs) = 512) by (unfold bs; rewrite length_replicate; lia).
  assert (H12 : 512 <= Z.of_nat (length buf)) by (unfold buf; rewrite length_replicate; lia).
  split; [exact H1|]. split; [exact H2|]. split; [exact H3|]. split; [exact H4|].
  split; [exact H5|]. split; [exact H6|]. split; [exact H7|]. split; [exact H8|].
  split; [exact H9|]. split; [exact H10|]. split; [exact H11|]. split; [exact H12|].
  exact (proj1 (sector_write_read_round_trip c 0xA0 0x80 img buf bs H1 H2 H3 H4 (or_introl H5)
                  H6 H7 H8 H9 H10 H11 H12)).
Defined.

(** ** Write protection and DMA misses *)

(** X29.  WRITE SECTOR, its multi-sector variant and FORMAT TRACK on a
    write-protected image are refused: the status is 0x40, the IRQ is
    raised, and the buffer positions, the write position, the format
    flag, the image, the buffer and the head are unchanged. *)
Theorem write_protected_disc (c : WD2797_CTX) (val : Z) :
  disc_image c <> None -> writeable c = 0 ->
  Z.land val 0xF0 = CMD_WRITE_SECTOR \/ Z.land val 0xF0 = CMD_WRITE_SECTOR_MULTI
  \/ Z.land val 0xF0 = CMD_FORMAT_TRACK ->
  let c' := wd2797_write_reg c WD2797_REG_COMMAND val in
  status c' = 0x40 /\ irq c' = true /\ cmd_has_drq c' = true
  /\ data_pos c' = data_pos c /\ data_len c' = data_len c
  /\ write_pos c' = write_pos c /\ formatting c' = formatting c
  /\ disc_image c' = disc_image c /\ data c' = data c
  /\ head c' = head c.
Proof.
  intros Hi Hw Hc c'. subst c'.
  destruct (disc_image c) as [img|] eqn:Himg; [clear Hi|congruence].
  assert (Hr : 0 <= Z.land val 0xF0 < 256) by (cmd_constants; lia).
  rewrite (write_command_disc c val _ img Himg eq_refl Hr).
  destruct c; cbn [disc_image writeable] in *; subst.
  destruct Hc as [E|[E|E]]; rewrite E; unfold type1_switch; cmd_constants; eqb_closed;
    cbn [orb]; cbv iota zeta; ctx_cbn; change (truthy 0) with false; cbn [negb andb];
    cbv iota; ctx_cbn; repeat split; reflexivity.
Qed.

(** WRITE SECTOR on a write-protected image. *)
Lemma write_protected_disc_witness :
  let c := ctx_loaded 2 0 in
  let c' := wd2797_write_reg c WD2797_REG_COMMAND 0xA0 in
  disc_image c <> None
  /\ writeable c = 0
  /\ Z.land 0xA0 0xF0 = CMD_WRITE_SECTOR
  /\ status c' = 0x40 /\ irq c' = true /\ disc_image c' = disc_image c.
Proof.
  intros c c'.
  assert (H1 : disc_image c <> None) by discriminate.
  assert (H2 : writeable c = 0) by reflexivity.
  assert (H3 : Z.land 0xA0 0xF0 = CMD_WRITE_SECTOR) by reflexivity.
  destruct (write_protected_disc c 0xA0 H1 H2 (or_introl H3))
    as (Ha & Hb & _ & _ & _ & _ & _ & Hc & _).
  split; [exact H1|]. split; [exact H2|]. split; [exact H3|].
  split; [exact Ha|]. split; [exact Hb | exact Hc].
Defined.

(** X30.  A DMA miss ends the transfer: DRQ is off, the IRQ is raised,
    the status is 4 (lost data), which is what STATUS then reads; a
    read of the DATA register returns the data register and changes
    nothing, a write to it only stores the data register; the image and
    the buffer are kept. *)
Theorem dma_miss_ends_transfer (c : WD2797_CTX) (v : Z) :
  0 <= data_len c < 2 ^ 64 ->
  let c' := wd2797_dma_miss c in
  wd2797_get_drq c' = false /\ irq c' = true /\ status c' = 0x04
  /\ fst (wd2797_read_reg c' WD2797_REG_STATUS) = 0x04
  /\ wd2797_read_reg c' WD2797_REG_DATA = (data_reg c, c')
  /\ wd2797_write_reg c' WD2797_REG_DATA v = set_data_reg v c'
  /\ disc_image c' = disc_image c /\ data c' = data c /\ data_len c' = data_len c.
Proof.
  intros Hl c'. subst c'. unfold wd2797_dma_miss, wd2797_get_drq. cbv zeta.
  unfold wd2797_read_reg. data_reg_write.
  change (Z.land WD2797_REG_STATUS 3 =? WD2797_REG_STATUS) with true.
  change (Z.land WD2797_REG_DATA 3) with 3.
  unfold WD2797_REG_STATUS, WD2797_REG_TRACK, WD2797_REG_SECTOR, WD2797_REG_DATA.
  eqb_closed. cbv iota zeta.
  destruct c; ctx_cbn. cbn [data_len] in Hl. rewrite !size_t_small by lia.
  rewrite Z.ltb_irrefl. cbn [andb]. cbv iota.
  split; [reflexivity|]. split; [reflexivity|]. split; [reflexivity|].
  split; [now destruct cmd_has_drq0|].
  repeat split; reflexivity.
Qed.

(** A DMA miss in the middle of a sector read. *)
Lemma dma_miss_ends_transfer_witness :
  let c := wd2797_write_reg
             (wd2797_write_reg (ctx_loaded 2 1) WD2797_REG_SECTOR 1)
             WD2797_REG_COMMAND 0x80 in
  let c' := wd2797_dma_miss c in
  0 <= data_len c < 2 ^ 64
  /\ wd2797_get_drq c = true
  /\ wd2797_get_drq c' = false /\ irq c' = true /\ status c' = 0x04.
Proof.
  intros c c'.
  assert (H1 : 0 <= data_len c < 2 ^ 64) by (split; [lazy; discriminate | reflexivity]).
  assert (H2 : wd2797_get_drq c = true) by reflexivity.
  destruct (dma_miss_ends_transfer c 0 H1) as (Ha & Hb & Hc & _).
  split; [exact H1|]. split; [exact H2|]. split; [exact Ha|]. split; [exact Hb | exact Hc].
Defined.

(** ** FORMAT TRACK *)

(** A byte of a format that does not complete the transfer. *)
Lemma format_data_byte (c : WD2797_CTX) (b : Z) :
  formatting c = true ->
  0 <= data_pos c -> data_pos c + 1 < data_len c -> data_len c < 2 ^ 64 ->
  wd2797_write_reg c WD2797_REG_DATA b
  = with_transfer (uint8 b) (data c) (data_pos c + 1) c.
Proof.
  intros Hf Hp Hl Hr. data_reg_write.
  destruct c; cbn [formatting data_pos data_len] in *; subst.
  unfold with_transfer; ctx_cbn.
  replace (data_pos0 <? data_len0) with true by (symmetry; apply Z.ltb_lt; lia).
  rewrite orb_true_r. cbn [andb]. cbv iota. ctx_cbn.
  rewrite size_t_small by lia.
  replace (data_pos0 + 1 =? data_len0) with false by (symmetry; apply Z.eqb_neq; lia).
  ctx_fields. apply size_t_small; lia.
Qed.

Lemma format_data_last (c : WD2797_CTX) (b : Z) :
  formatting c = true ->
  0 <= data_pos c -> data_pos c + 1 = data_len c -> data_len c < 2 ^ 64 ->
  wd2797_write_reg c WD2797_REG_DATA b
  = set_formatting false (set_write_pos (-1) (set_irq true
      (with_transfer (uint8 b) (data c) (data_pos c + 1) c))).
Proof.
  intros Hf Hp Hl Hr. data_reg_write.
  destruct c; cbn [formatting data_pos data_len] in *; subst.
  unfold with_transfer; ctx_cbn.
  replace (data_pos0 <? data_pos0 + 1) with true by (symmetry; apply Z.ltb_lt; lia).
  rewrite orb_true_r. cbn [andb]. cbv iota. ctx_cbn.
  rewrite size_t_small by lia. rewrite Z.eqb_refl.
  ctx_fields. apply size_t_small; lia.
Qed.

Lemma format_bytes_partial (bs : list Z) : forall (c : WD2797_CTX),
  formatting c = true ->
  0 <= data_pos c -> data_pos c + Z.of_nat (length bs) < data_len c ->
  data_len c < 2 ^ 64 ->
  write_data_bytes bs c
  = with_transfer (List.last (List.map uint8 bs) (data_reg c)) (data c)
      (data_pos c + Z.of_nat (length bs)) c.
Proof.
  induction bs as [|b bs IH]; intros c Hf Hp Hl Hr.
  - cbn [write_data_bytes fold_left List.map List.last length].
    change (Z.of_nat 0) with 0. rewrite Z.add_0_r. destruct c; reflexivity.
  - unfold write_data_bytes. cbn [fold_left]. fold (write_data_bytes bs).
    cbn [length] in Hl.
    rewrite (format_data_byte c b Hf Hp) by lia.
    rewrite IH; try (destruct c; first [assumption | reflexivity]).
    2:{ destruct c; cbn [with_transfer data_pos data_len] in *. lia. }
    2:{ destruct c; cbn [with_transfer data_pos data_len] in *. lia. }
    rewrite with_transfer_twice. cbn [List.map]. rewrite last_cons.
    destruct c; cbn [with_transfer data_reg data data_pos length]. f_equal. lia.
Qed.

(** The state after an accepted FORMAT TRACK. *)
Lemma format_track_state (c : WD2797_CTX) (val : Z) :
  disc_image c <> None -> truthy (writeable c) = true ->
  Z.land val 0xF0 = CMD_FORMAT_TRACK ->
  wd2797_write_reg c WD2797_REG_COMMAND val =
  set_formatting true
    (set_status 0x02
       (set_data_len 7170
          (set_data_pos 0 (select_head val (set_cmd_has_drq true (set_irq false c)))))).
Proof.
  intros Hi Hw Hc.
  rewrite (data_command_write c val _ Hi eq_refl) by (rewrite Hc; cmd_constants;
    first [lia | now left]).
  rewrite Hc. unfold command_switch. cmd_constants. eqb_closed. cbv iota zeta.
  destruct c; ctx_fields.
Qed.

Lemma with_transfer_fields (r : Z) (d : option (list Z)) (p : Z) (c : WD2797_CTX) :
  disc_image (with_transfer r d p c) = disc_image c
  /\ data (with_transfer r d p c) = d
  /\ irq (with_transfer r d p c) = irq c
  /\ data_pos (with_transfer r d p c) = p
  /\ data_len (with_transfer r d p c) = data_len c
  /\ formatting (with_transfer r d p c) = formatting c
  /\ write_pos (with_transfer r d p c) = write_pos c.
Proof. repeat split; reflexivity. Qed.

Lemma transfer_done_fields (c : WD2797_CTX) :
  let c' := set_formatting false (set_write_pos (-1) (set_irq true c)) in
  disc_image c' = disc_image c /\ data c' = data c /\ irq c' = true
  /\ data_pos c' = data_pos c /\ data_len c' = data_len c
  /\ formatting c' = false /\ write_pos c' = -1.
Proof. destruct c; repeat split; reflexivity. Qed.

(** X28.  FORMAT TRACK on a writeable image asks for 7170 bytes and
    stores none of them: after every byte written to the DATA register
    the image and the buffer are as before the command; DRQ stays on up
    to the last byte, which raises the IRQ and ends the format. *)
Theorem format_track_discards (c : WD2797_CTX) (val : Z) (bs : list Z) :
  disc_image c <> None -> truthy (writeable c) = true ->
  Z.land val 0xF0 = CMD_FORMAT_TRACK ->
  Z.of_nat (length bs) = 7170 ->
  let c1 := wd2797_write_reg c WD2797_REG_COMMAND val in
  let c' := write_data_bytes bs c1 in
  formatting c1 = true /\ wd2797_get_drq c1 = true /\ irq c1 = false
  /\ (forall k, Z.of_nat k < 7170 ->
        let ck := write_data_bytes (take k bs) c1 in
        disc_image ck = disc_image c /\ data ck = data c /\ irq ck = false
        /\ wd2797_get_drq ck = true)
  /\ disc_image c' = disc_image c /\ data c' = data c
  /\ irq c' = true /\ wd2797_get_drq c' = false
  /\ formatting c' = false /\ write_pos c' = -1.
Proof.
  intros Hi Hw Hc Hn c1 c'. subst c' c1.
  rewrite (format_track_state c val Hi Hw Hc).
  set (c1 := set_formatting true _).
  assert (F1 : formatting c1 = true) by (destruct c; reflexivity).
  assert (F2 : data_pos c1 = 0) by (destruct c; reflexivity).
  assert (F3 : data_len c1 = 7170) by (destruct c; reflexivity).
  assert (F4 : irq c1 = false) by (destruct c; reflexivity).
  assert (F5 : disc_image c1 = disc_image c) by (destruct c; reflexivity).
  assert (F6 : data c1 = data c) by (destruct c; reflexivity).
  clearbody c1.
  split; [assumption|].
  split; [unfold wd2797_get_drq; rewrite F2, F3; reflexivity|].
  split; [assumption|]. split.
  - intros k Hk ck. subst ck.
    rewrite (format_bytes_partial (take k bs) c1 F1);
      rewrite ?F2, ?F3, ?length_take; try lia.
    destruct (with_transfer_fields (List.last (List.map uint8 (take k bs)) (data_reg c1))
                (data c1) (0 + Z.of_nat (k `min` length bs)) c1)
      as (W1 & W2 & W3 & W4 & W5 & _).
    unfold wd2797_get_drq. rewrite W1, W2, W3, W4, W5, F3, F4, F5, F6.
    repeat split; try reflexivity. apply Z.ltb_lt. lia.
  - destruct bs as [|b0 bs0] using rev_ind; [cbn [length] in Hn; lia|].
    clear IHbs0. rewrite length_app in Hn. cbn [length] in Hn.
    rewrite write_data_bytes_snoc.
    rewrite (format_bytes_partial bs0 c1 F1); rewrite ?F2, ?F3; try lia.
    set (r := List.last _ _).
    destruct (with_transfer_fields r (data c1) (0 + Z.of_nat (length bs0)) c1)
      as (W1 & W2 & W3 & W4 & W5 & W6 & W7).
    rewrite format_data_last; rewrite ?W4, ?W5, ?W6, ?F3; try assumption; try lia.
    set (X := with_transfer r (data c1) (0 + Z.of_nat (length bs0)) c1) in *.
    destruct (with_transfer_fields (uint8 b0) (data X) (data_pos X + 1) X)
      as (V1 & V2 & V3 & V4 & V5 & _).
    set (c2 := with_transfer (uint8 b0) _ _ X) in *.
    destruct (transfer_done_fields c2) as (D1 & D2 & D3 & D4 & D5 & D6 & D7).
    unfold wd2797_get_drq.
    rewrite D1, D2, D3, D4, D5, D6, D7, V1, V2, V4, V5, W1, W2, W4, W5, F3, F5, F6.
    repeat split; try reflexivity. apply Z.ltb_ge. lia.
Qed.

(** FORMAT TRACK, then 7170 bytes written to the DATA register. *)
Lemma format_track_discards_witness :
  let c := ctx_loaded 2 1 in
  let bs := replicate (Z.to_nat 7170) 0x4E in
  let c' := write_data_bytes bs (wd2797_write_reg c WD2797_REG_COMMAND 0xF0) in
  disc_image c <> None
  /\ truthy (writeable c) = true
  /\ Z.land 0xF0 0xF0 = CMD_FORMAT_TRACK
  /\ Z.of_nat (length bs) = 7170
  /\ disc_image c' = disc_image c /\ data c' = data c
  /\ irq c' = true /\ formatting c' = false.
Proof.
  intros c bs c'.
  assert (H1 : disc_image c <> None) by discriminate.
  assert (H2 : truthy (writeable c) = true) by reflexivity.
  assert (H3 : Z.land 0xF0 0xF0 = CMD_FORMAT_TRACK) by reflexivity.
  assert (H4 : Z.of_nat (length bs) = 7170) by (unfold bs; rewrite length_replicate; lia).
  destruct (format_track_discards c 0xF0 bs H1 H2 H3 H4)
    as (_ & _ & _ & _ & Ha & Hb & Hc & _ & Hd & _).
  split; [exact H1|]. split; [exact H2|]. split; [exact H3|]. split; [exact H4|].
  split; [exact Ha|]. split; [exact Hb|]. split; [exact Hc | exact Hd].
Defined.

(** ** Draining the buffer, and READ ADDRESS *)

(** X24.  Reads of the DATA register drain the buffer in order: while
    [n] bytes are left, [n] reads return the [n] bytes from the current position and advance it
    by [n]; the IRQ is raised exactly when the last byte has been
    taken; once the buffer is drained a read returns the data register
    and changes nothing. *)
Theorem data_reads_drain (n : nat) (c : WD2797_CTX) (buf : list Z) :
  data c = Some buf ->
  0 <= data_pos c ->
  data_pos c + Z.of_nat n <= data_len c -> data_len c < 2 ^ 64 ->
  data_pos c + Z.of_nat n <= Z.of_nat (length buf) ->
  let r := read_data n c in
  fst r = take n (drop (Z.to_nat (data_pos c)) buf)
  /\ data_pos (snd r) = data_pos c + Z.of_nat n
  /\ irq (snd r) = (if (0 <? Z.of_nat n) && (data_pos c + Z.of_nat n =? data_len c)
                    then true else irq c)
  /\ wd2797_get_drq (snd r) = (data_pos c + Z.of_nat n <? data_len c)
  /\ data (snd r) = Some buf /\ disc_image (snd r) = disc_image c
  /\ (wd2797_get_drq (snd r) = false ->
      wd2797_read_reg (snd r) WD2797_REG_DATA = (data_reg c, snd r)).
Proof.
  intros Hd Hp Hn Hl Hb r. subst r.
  destruct (read_data_drains n c buf Hd Hp Hn Hl Hb) as [R1 R2].
  split; [exact R1|]. rewrite R2. clear R1 R2.
  assert (Hs : size_t (data_pos c + Z.of_nat n) = data_pos c + Z.of_nat n)
    by (apply size_t_small; lia).
  unfold wd2797_get_drq, wd2797_read_reg.
  change (Z.land WD2797_REG_DATA 3) with 3.
  unfold WD2797_REG_STATUS, WD2797_REG_TRACK, WD2797_REG_SECTOR, WD2797_REG_DATA.
  eqb_closed.
  destruct ((0 <? Z.of_nat n) && (data_pos c + Z.of_nat n =? data_len c));
    destruct c; ctx_cbn; cbn [data data_pos data_len] in *; rewrite Hs;
    (split; [reflexivity|]); (split; [reflexivity|]); (split; [reflexivity|]);
    (split; [assumption|]); (split; [reflexivity|]); intros ->; reflexivity.
Qed.

(** The six bytes of a READ ADDRESS, read two at a time. *)
Lemma data_reads_drain_witness :
  let c := wd2797_write_reg (ctx_loaded 2 1) WD2797_REG_COMMAND 0xC0 in
  let buf := blit (replicate (Z.to_nat (512 * 10)) 0) 0 [0; 0; 0; 2; 0; 0] in
  let r := read_data 2 c in
  data c = Some buf
  /\ 0 <= data_pos c
  /\ data_pos c + Z.of_nat 2 <= data_len c
  /\ data_len c < 2 ^ 64
  /\ data_pos c + Z.of_nat 2 <= Z.of_nat (length buf)
  /\ fst r = take 2 (drop (Z.to_nat (data_pos c)) buf)
  /\ data_pos (snd r) = data_pos c + Z.of_nat 2
  /\ wd2797_get_drq (snd r) = (data_pos c + Z.of_nat 2 <? data_len c).
Proof.
  intros c buf r.
  assert (H1 : data c = Some buf) by reflexivity.
  assert (H2 : 0 <= data_pos c) by (lazy; discriminate).
  assert (H3 : data_pos c + Z.of_nat 2 <= data_len c) by (lazy; discriminate).
  assert (H4 : data_len c < 2 ^ 64) by reflexivity.
  assert (H5 : data_pos c + Z.of_nat 2 <= Z.of_nat (length buf)).
  { unfold buf. rewrite blit_length, length_replicate.
    change (data_pos c) with 0. lia. }
  destruct (data_reads_drain 2 c buf H1 H2 H3 H4 H5) as (Ha & Hb & _ & Hc & _).
  split; [exact H1|]. split; [exact H2|]. split; [exact H3|]. split; [exact H4|].
  split; [exact H5|]. split; [exact Ha|]. split; [exact Hb | exact Hc].
Defined.

(** The state after READ ADDRESS. *)
Lemma read_address_state (c : WD2797_CTX) (val : Z) (buf : list Z) :
  disc_image c <> None -> data c = Some buf ->
  Z.land val 0xF0 = CMD_READ_ADDRESS ->
  wd2797_write_reg c WD2797_REG_COMMAND val =
  set_status 0x02
    (set_data_len 6
       (set_data (Some (blit buf 0 [uint8 (track c); uint8 (if Z.testbit val 1 then 1 else 0);
                                    uint8 (sector c); uint8 (size_code (geom_secsz c));
                                    uint8 0; uint8 0]))
          (set_data_pos 0 (select_head val (set_cmd_has_drq true (set_irq false c)))))).
Proof.
  intros Hi Hd Hc.
  rewrite (data_command_write c val _ Hi eq_refl) by (rewrite Hc; cmd_constants;
    first [lia | right; lia]).
  rewrite Hc. unfold command_switch, size_code. cmd_constants. eqb_closed. cbv iota zeta.
  pose proof (select_head_value val (set_cmd_has_drq true (set_irq false c))) as Hh.
  destruct c; cbn [data] in Hd; subst.
  unfold select_head in *. cbn [head set_head set_cmd_has_drq set_irq] in Hh.
  ctx_cbn.
  destruct (geom_secsz0 =? 128); [|destruct (geom_secsz0 =? 256);
    [|destruct (geom_secsz0 =? 512); [|destruct (geom_secsz0 =? 1024)]]];
    ctx_fields; unfold wr; cbn [blit]; rewrite Hh; reflexivity.
Qed.

(** X25.  READ ADDRESS delivers a six-byte ID field: the head position,
    the side selected by bit 1 of the command, the sector register, the
    size code (0, 1, 2, 3 for 128, 256, 512, 1024 bytes, else 0xFF) and
    two zero bytes; the IRQ is raised by the sixth read. *)
Theorem read_address_id (c : WD2797_CTX) (val : Z) (buf : list Z) :
  disc_image c <> None -> data c = Some buf -> (6 <= length buf)%nat ->
  Z.land val 0xF0 = CMD_READ_ADDRESS ->
  let c' := wd2797_write_reg c WD2797_REG_COMMAND val in
  let r := read_data 6 c' in
  fst r = [uint8 (track c); (if Z.testbit val 1 then 1 else 0); uint8 (sector c);
           size_code (geom_secsz c); 0; 0]
  /\ irq c' = false /\ wd2797_get_drq c' = true
  /\ irq (snd r) = true /\ wd2797_get_drq (snd r) = false
  /\ track (snd r) = track c /\ sector (snd r) = sector c
  /\ disc_image (snd r) = disc_image c.
Proof.
  intros Hi Hd Hb Hc c' r. subst r c'.
  rewrite (read_address_state c val buf Hi Hd Hc).
  set (id := [uint8 (track c); _; _; _; _; _]).
  set (c' := set_status 2 _).
  assert (D1 : data c' = Some (blit buf 0 id)) by (destruct c; reflexivity).
  assert (D2 : data_pos c' = 0) by (destruct c; reflexivity).
  assert (D3 : data_len c' = 6) by (destruct c; reflexivity).
  assert (D4 : irq c' = false) by (destruct c; reflexivity).
  assert (D5 : track c' = track c /\ sector c' = sector c /\ disc_image c' = disc_image c)
    by (destruct c; repeat split; reflexivity).
  clearbody c'.
  destruct (read_data_drains 6 c' (blit buf 0 id) D1) as [R1 R2];
    rewrite ?D2, ?D3, ?blit_length; try lia.
  rewrite D2, D3 in R2. rewrite D2 in R1. change (Z.to_nat 0) with 0%nat in R1. rewrite drop_0 in R1.
  change (take 6 (blit buf 0 id)) with (take (length id) (blit buf 0 id)) in R1.
  rewrite take_blit in R1 by (subst id; cbn [length]; lia).
  change ((0 <? Z.of_nat 6) && (0 + Z.of_nat 6 =? 6)) with true in R2. cbv iota in R2.
  change (0 + Z.of_nat 6) with 6 in R2.
  rewrite R1, R2.
  assert (E : irq (set_irq true (set_data_pos 6 c')) = true
              /\ data_pos (set_irq true (set_data_pos 6 c')) = 6
              /\ data_len (set_irq true (set_data_pos 6 c')) = data_len c'
              /\ track (set_irq true (set_data_pos 6 c')) = track c'
              /\ sector (set_irq true (set_data_pos 6 c')) = sector c'
              /\ disc_image (set_irq true (set_data_pos 6 c')) = disc_image c')
    by (destruct c'; repeat split; reflexivity).
  destruct E as (E1 & E2 & E3 & E4 & E5 & E6).
  destruct D5 as (D5 & D6 & D7).
  unfold wd2797_get_drq. rewrite E1, E2, E3, E4, E5, E6, D2, D3, D4, D5, D6, D7.
  split.
  { subst id. unfold size_code.
    destruct (Z.testbit val 1);
      (destruct (geom_secsz c =? 128); [|destruct (geom_secsz c =? 256);
        [|destruct (geom_secsz c =? 512); [|destruct (geom_secsz c =? 1024)]]]);
      reflexivity. }
  repeat split; reflexivity.
Qed.

(** READ ADDRESS for head 1 on a 512-byte-sector image. *)
Lemma read_address_id_witness :
  let c := wd2797_write_reg (ctx_loaded 2 1) WD2797_REG_SECTOR 3 in
  let buf := replicate (Z.to_nat (512 * 10)) 0 in
  let c' := wd2797_write_reg c WD2797_REG_COMMAND 0xC2 in
  disc_image c <> None
  /\ data c = Some buf
  /\ (6 <= length buf)%nat
  /\ Z.land 0xC2 0xF0 = CMD_READ_ADDRESS
  /\ fst (read_data 6 c')
     = [uint8 (track c); (if Z.testbit 0xC2 1 then 1 else 0); uint8 (sector c);
        size_code (geom_secsz c); 0; 0]
  /\ irq (snd (read_data 6 c')) = true.
Proof.
  intros c buf c'.
  assert (H1 : disc_image c <> None) by discriminate.
  assert (H2 : data c = Some buf) by reflexivity.
  assert (H3 : (6 <= length buf)%nat) by (unfold buf; rewrite length_replicate; lia).
  assert (H4 : Z.land 0xC2 0xF0 = CMD_READ_ADDRESS) by reflexivity.
  destruct (read_address_id c 0xC2 buf H1 H2 H3 H4) as (Ha & _ & _ & Hb & _).
  split; [exact H1|]. split; [exact H2|]. split; [exact H3|]. split; [exact H4|].
  split; [exact Ha | exact Hb].
Defined.
